(** * WebDAV Markdown Manager: path mapper, remote store client,
      virtual document overlay and tree transaction engine

    A shallow embedding of the TypeScript sources
    ([pathUtils.ts], [webdavClient.ts], [webdavFileSystemProvider.ts],
    [treeDataProvider.ts]) together with the properties the specification
    states about them.

    Conventions.
    - A JavaScript string is the [string] of the bytes of its UTF-8
      encoding.  All the needles the code searches for (["/"], ["404"],
      ["Not Found"], ["http://"] ...) are ASCII, so searching the bytes
      agrees with searching the UTF-16 code units, and a prefix that has
      been found is cut off by its length in bytes.  Where the code counts
      or reads code units ([s.length], [s.charCodeAt(i)]), the units are
      those of [Js.codeUnits].
    - An [async] method is a state transformer over the whole system: the
      environment (remote store, clock, user) and the fields of the object.
      A rejected promise / thrown exception is the [Throw] result. *)

From Stdlib Require Import ZArith String Ascii List Lia Bool Sorted Permutation.
From stdpp Require Import base strings gmap list.
Import ListNotations.

Open Scope string_scope.

(* ===================================================================== *)
(** * JavaScript string primitives used by the sources *)
(* ===================================================================== *)

Module Js.

(** [s.replace(/\\/g, '/')] *)
Fixpoint replaceBackslashes (s : string) : string :=
  match s with
  | EmptyString => EmptyString
  | String c r =>
      String (if Ascii.eqb c "\" then "/"%char else c) (replaceBackslashes r)
  end.

(** [s.replace(/\/+/g, '/')]: every maximal run of slashes becomes one. *)
Fixpoint collapseSlashes (s : string) : string :=
  match s with
  | EmptyString => EmptyString
  | String c r =>
      if Ascii.eqb c "/" then
        match r with
        | String c' _ =>
            if Ascii.eqb c' "/" then collapseSlashes r
            else String c (collapseSlashes r)
        | EmptyString => String c EmptyString
        end
      else String c (collapseSlashes r)
  end.

(** [s.replace(/^\//, '')]: at most one leading slash is removed. *)
Definition stripLeadingSlash (s : string) : string :=
  match s with
  | String c r => if Ascii.eqb c "/" then r else s
  | EmptyString => EmptyString
  end.

(** [s.replace(/\/$/, '')]: at most one trailing slash is removed. *)
Fixpoint stripTrailingSlash (s : string) : string :=
  match s with
  | EmptyString => EmptyString
  | String c EmptyString => if Ascii.eqb c "/" then EmptyString else s
  | String c r => String c (stripTrailingSlash r)
  end.

(** [s.startsWith(p)] *)
Definition startsWith (s p : string) : bool := String.prefix p s.

(** [s.substring(n)] for [0 <= n] *)
Fixpoint substringFrom (n : nat) (s : string) : string :=
  match n, s with
  | O, _ => s
  | S n', String _ r => substringFrom n' r
  | S _, EmptyString => EmptyString
  end.

(** [s.includes(needle)] *)
Fixpoint includes (s needle : string) : bool :=
  String.prefix needle s ||
  match s with
  | EmptyString => false
  | String _ r => includes r needle
  end.

(** [s.endsWith("/")] *)
Fixpoint endsWithSlash (s : string) : bool :=
  match s with
  | EmptyString => false
  | String c EmptyString => Ascii.eqb c "/"
  | String _ r => endsWithSlash r
  end.

(** [s.slice(0, -1)] *)
Fixpoint dropLast (s : string) : string :=
  match s with
  | EmptyString => EmptyString
  | String _ EmptyString => EmptyString
  | String c r => String c (dropLast r)
  end.

(** ** White space

    [s.trim()] removes the code points of [WhiteSpace] and
    [LineTerminator]: U+0009 to U+000D, U+0020, U+00A0, U+1680, U+2000 to
    U+200A, U+2028, U+2029, U+202F, U+205F, U+3000 and U+FEFF.  Beyond
    ASCII these are the byte sequences [C2 A0], [E1 9A 80],
    [E2 80 80..8A], [E2 80 A8], [E2 80 A9], [E2 80 AF], [E2 81 9F],
    [E3 80 80] and [EF BB BF]. *)
Definition isWhiteSpace (c : ascii) : bool :=
  let n := nat_of_ascii c in
  Nat.eqb n 32 || (Nat.leb 9 n && Nat.leb n 13).

Definition isWhiteSpace2 (a b : ascii) : bool :=
  Nat.eqb (nat_of_ascii a) 194 && Nat.eqb (nat_of_ascii b) 160.

Definition isWhiteSpace3 (a b c : ascii) : bool :=
  let x := nat_of_ascii a in
  let y := nat_of_ascii b in
  let z := nat_of_ascii c in
  (Nat.eqb x 225 && Nat.eqb y 154 && Nat.eqb z 128)
  || (Nat.eqb x 226 && Nat.eqb y 128
      && ((Nat.leb 128 z && Nat.leb z 138) || Nat.eqb z 168 || Nat.eqb z 169
          || Nat.eqb z 175))
  || (Nat.eqb x 226 && Nat.eqb y 129 && Nat.eqb z 159)
  || (Nat.eqb x 227 && Nat.eqb y 128 && Nat.eqb z 128)
  || (Nat.eqb x 239 && Nat.eqb y 187 && Nat.eqb z 191).

(** The white space at the head of a list of bytes is dropped; [back]
    says that the list is a string read from its end. *)
Fixpoint dropWhiteSpace (back : bool) (l : list ascii) : list ascii :=
  match l with
  | a :: r =>
      if isWhiteSpace a then dropWhiteSpace back r
      else
        match r with
        | b :: r1 =>
            if (if back then isWhiteSpace2 b a else isWhiteSpace2 a b)
            then dropWhiteSpace back r1
            else
              match r1 with
              | c :: r2 =>
                  if (if back then isWhiteSpace3 c b a else isWhiteSpace3 a b c)
                  then dropWhiteSpace back r2
                  else l
              | [] => l
              end
        | [] => l
        end
  | [] => []
  end.

Definition trimStart (s : string) : string :=
  string_of_list_ascii (dropWhiteSpace false (list_ascii_of_string s)).

Definition trimEnd (s : string) : string :=
  string_of_list_ascii (rev (dropWhiteSpace true (rev (list_ascii_of_string s)))).

(** [s.trim()] *)
Definition trim (s : string) : string := trimEnd (trimStart s).

(** ** Letter case

    [s.toLowerCase()], as far as a test for equality with an ASCII text
    can tell: the letters [A-Z] become [a-z], and the Kelvin sign U+212A
    (bytes [E2 84 AA]), the one code point beyond ASCII whose lower case
    is ASCII, becomes [k].  Every other letter is left as it is; its
    lower case is not ASCII either. *)
Definition lowerChar (c : ascii) : ascii :=
  let n := nat_of_ascii c in
  if Nat.leb 65 n && Nat.leb n 90 then ascii_of_nat (n + 32) else c.

Definition isKelvin (a b c : ascii) : bool :=
  Nat.eqb (nat_of_ascii a) 226 && Nat.eqb (nat_of_ascii b) 132
  && Nat.eqb (nat_of_ascii c) 170.

Fixpoint toLowerCase (s : string) : string :=
  match s with
  | EmptyString => EmptyString
  | String a r =>
      match r with
      | String b (String c r2) =>
          if isKelvin a b c then String "k" (toLowerCase r2)
          else String (lowerChar a) (toLowerCase r)
      | _ => String (lowerChar a) (toLowerCase r)
      end
  end.

(** ** Code units

    [codeUnits s]: the UTF-16 code units of the text whose UTF-8 bytes
    are [s], which is what [s.length] counts and [s.charCodeAt] reads.  A
    character of one to three bytes is one unit, its code point; a
    character of four bytes is the two units of a surrogate pair.
    [pending] is the part of the code point read so far and [need] the
    number of bytes of the character still to come. *)
Definition unitsOf (codePoint : Z) : list Z :=
  if (codePoint <? 65536)%Z then [codePoint]
  else [(55296 + (codePoint - 65536) / 1024)%Z; (56320 + (codePoint - 65536) mod 1024)%Z].

Fixpoint codeUnitsFrom (pending : Z) (need : nat) (s : string) : list Z :=
  match s with
  | EmptyString => []
  | String b r =>
      let n := Z.of_nat (nat_of_ascii b) in
      match need with
      | S O => unitsOf (pending * 64 + (n - 128)) ++ codeUnitsFrom 0 0 r
      | S more => codeUnitsFrom (pending * 64 + (n - 128)) more r
      | O =>
          if (n <? 128)%Z then n :: codeUnitsFrom 0 0 r
          else if (n <? 224)%Z then codeUnitsFrom (n - 192) 1 r
          else if (n <? 240)%Z then codeUnitsFrom (n - 224) 2 r
          else codeUnitsFrom (n - 240) 3 r
      end
  end.

Definition codeUnits (s : string) : list Z := codeUnitsFrom 0 0 s.

(** [s.length] *)
Definition utf16Length (s : string) : nat := List.length (codeUnits s).

(** The double quote character, for the messages that quote a name. *)
Definition dq : string := String (ascii_of_nat 34) EmptyString.

(** [encodeURIComponent(s)]: every byte of the UTF-8 encoding outside
    [A-Z a-z 0-9 - _ . ! ~ * ' ( )] becomes [%XX]. *)
Definition hexDigits : list ascii := list_ascii_of_string "0123456789ABCDEF".

Definition hexDigit (n : nat) : ascii := nth n hexDigits "0"%char.

Definition isUnreserved (c : ascii) : bool :=
  let n := nat_of_ascii c in
  (Nat.leb 65 n && Nat.leb n 90) || (Nat.leb 97 n && Nat.leb n 122)
  || (Nat.leb 48 n && Nat.leb n 57)
  || existsb (Ascii.eqb c) (list_ascii_of_string "-_.!~*'()").

Fixpoint encodeURIComponent (s : string) : string :=
  match s with
  | EmptyString => EmptyString
  | String c r =>
      if isUnreserved c then String c (encodeURIComponent r)
      else
        let n := nat_of_ascii c in
        String "%" (String (hexDigit (n / 16)) (String (hexDigit (n mod 16))
          (encodeURIComponent r)))
  end.

(** [ToInt32]: the value of [x | 0], [x & x] and [x << 0]. *)
Definition toInt32 (z : Z) : Z :=
  let m := (z mod 2 ^ 32)%Z in
  if (m >=? 2 ^ 31)%Z then (m - 2 ^ 32)%Z else m.

(** [n.toString(16)] for [0 <= n < 16^9] *)
Fixpoint toHexFrom (fuel : nat) (z : Z) (acc : string) : string :=
  match fuel with
  | O => acc
  | S fuel' =>
      let d := nth (Z.to_nat (z mod 16)) (list_ascii_of_string "0123456789abcdef") "0"%char in
      if (z / 16 =? 0)%Z then String d acc
      else toHexFrom fuel' (z / 16)%Z (String d acc)
  end.

Definition toHex (z : Z) : string := toHexFrom 9 z EmptyString.

(** ** Decoding bytes

    The UTF-8 decoder behind [new TextDecoder().decode(bytes)] and
    [buffer.toString()]: bytes that are UTF-8 stay as they are, and every
    stray byte, and every sequence that is cut short, becomes U+FFFD (the
    bytes [EF BF BD]).  [needed] is the number of bytes of the current
    character still to come, [lower] and [upper] bound the next one, and
    [pending] holds the bytes of the character read so far, last first. *)
Definition replacement : list ascii :=
  [ascii_of_nat 239; ascii_of_nat 191; ascii_of_nat 189].

Record Utf8State := {
  needed : nat;
  lower : nat;
  upper : nat;
  pending : list ascii
}.

Definition idle : Utf8State := {| needed := 0; lower := 128; upper := 191; pending := [] |}.

(** A byte met between two characters: what is put out, and the state. *)
Definition firstByte (b : ascii) : list ascii * Utf8State :=
  let n := nat_of_ascii b in
  if Nat.leb n 127 then ([b], idle)
  else if Nat.leb 194 n && Nat.leb n 223 then
    ([], {| needed := 1; lower := 128; upper := 191; pending := [b] |})
  else if Nat.leb 224 n && Nat.leb n 239 then
    ([], {| needed := 2;
            lower := if Nat.eqb n 224 then 160 else 128;
            upper := if Nat.eqb n 237 then 159 else 191;
            pending := [b] |})
  else if Nat.leb 240 n && Nat.leb n 244 then
    ([], {| needed := 3;
            lower := if Nat.eqb n 240 then 144 else 128;
            upper := if Nat.eqb n 244 then 143 else 191;
            pending := [b] |})
  else (replacement, idle).

Fixpoint replaceMalformed (st : Utf8State) (l : list ascii) : list ascii :=
  match l with
  | [] => match needed st with O => [] | S _ => replacement end
  | b :: r =>
      match needed st with
      | O => let (out, st') := firstByte b in out ++ replaceMalformed st' r
      | S more =>
          let n := nat_of_ascii b in
          if Nat.leb (lower st) n && Nat.leb n (upper st) then
            match more with
            | O => rev (b :: pending st) ++ replaceMalformed idle r
            | S _ =>
                replaceMalformed
                  {| needed := more; lower := 128; upper := 191;
                     pending := b :: pending st |} r
            end
          else
            let (out, st') := firstByte b in
            replacement ++ out ++ replaceMalformed st' r
      end
  end.

(** [buffer.toString()] *)
Definition utf8ToString (bytes : list Byte.byte) : string :=
  string_of_list_ascii
    (replaceMalformed idle (list_ascii_of_string (string_of_list_byte bytes))).

(** [new TextDecoder().decode(bytes)]: a byte order mark at the head of
    the text is dropped. *)
Definition textDecode (bytes : list Byte.byte) : string :=
  match utf8ToString bytes with
  | String a (String b (String c r)) =>
      if Nat.eqb (nat_of_ascii a) 239 && Nat.eqb (nat_of_ascii b) 187
         && Nat.eqb (nat_of_ascii c) 191
      then r else utf8ToString bytes
  | other => other
  end.

(** JavaScript truthiness of a string: [!s] holds exactly of the empty string. *)
Definition truthy (s : string) : bool := negb (String.eqb s EmptyString).

(** [a || b] on strings. *)
Definition orElse (a b : string) : string := if truthy a then a else b.

End Js.

(* ===================================================================== *)
(** * pathUtils.ts *)
(* ===================================================================== *)

Module PathUtils.
Import Js.

(** The replace chain shared by both functions:
    [.replace(/\\/g,'/').replace(/\/+/g,'/').replace(/^\//,'').replace(/\/$/,'')] *)
Definition replaceChain (p : string) : string :=
  stripTrailingSlash (stripLeadingSlash (collapseSlashes (replaceBackslashes p))).

(** [PathUtils.normalizeWebDAVPath(inputPath, basePath)] *)
Definition normalizeWebDAVPath (inputPath basePath : string) : string :=
  if negb (truthy inputPath) then
    (if String.eqb basePath "/" then "/" else basePath)
  else
    let normalized := replaceChain inputPath in
    if String.eqb normalized EmptyString then
      (if String.eqb basePath "/" then "/" else stripTrailingSlash basePath)
    else "/" +:+ normalized.

(** [PathUtils.getRelativePathFromBase(fullPath, basePath)].  The
    [logger.warn] of the last branch has no effect on the result. *)
Definition getRelativePathFromBase (fullPath basePath : string) : string :=
  let normalizedFullPath := replaceChain fullPath in
  let normalizedBasePath := replaceChain basePath in
  if String.eqb normalizedBasePath EmptyString || String.eqb normalizedBasePath "/" then
    normalizedFullPath
  else if startsWith normalizedFullPath (normalizedBasePath +:+ "/") then
    substringFrom (String.length normalizedBasePath + 1) normalizedFullPath
  else if String.eqb normalizedFullPath normalizedBasePath then
    EmptyString
  else
    normalizedFullPath.

End PathUtils.


(* ===================================================================== *)
(** * Node's [path] module (POSIX flavour), as far as the sources use it *)
(* ===================================================================== *)

Module NodePath.

Definition isSlash (c : ascii) : bool := Ascii.eqb c "/".

Fixpoint dropSlashes (l : list ascii) : list ascii :=
  match l with
  | c :: r => if isSlash c then dropSlashes r else l
  | [] => []
  end.

Fixpoint takeSegment (l : list ascii) : list ascii :=
  match l with
  | c :: r => if isSlash c then [] else c :: takeSegment r
  | [] => []
  end.

(** [path.basename(p)]: scanning from the end, trailing slashes are
    skipped and the characters up to the next slash are returned. *)
Definition basename (p : string) : string :=
  string_of_list_ascii
    (rev (takeSegment (dropSlashes (rev (list_ascii_of_string p))))).

(** The backwards loop of [path.dirname] over the indices
    [length - 1 .. 1]; the result is the part of the path strictly
    before the slash that ends the directory (reversed, index 0 apart). *)
Fixpoint dirnameScan (matchedSlash : bool) (rv : list ascii) : option (list ascii) :=
  match rv with
  | [] => None
  | c :: r =>
      if isSlash c then
        (if matchedSlash then dirnameScan true r else Some r)
      else dirnameScan false r
  end.

(** [path.dirname(p)] *)
Definition dirname (p : string) : string :=
  match p with
  | EmptyString => "."
  | String c0 rest =>
      match dirnameScan true (rev (list_ascii_of_string rest)) with
      | None => if isSlash c0 then "/" else "."
      | Some [] => if isSlash c0 then "//" else String c0 EmptyString
      | Some r => String c0 (string_of_list_ascii (rev r))
      end
  end.

End NodePath.

(* ===================================================================== *)
(** * The protocol collaborator and the rest of the environment *)
(* ===================================================================== *)

Module Dav.

(** A JavaScript [Error] as the sources inspect it: [message], and the
    [status] / [code] the [webdav] package and Node attach. *)
Record JsError := {
  message : string;
  status : option Z;
  code : option string
}.

(** [new Error(msg)] *)
Definition newError (msg : string) : JsError :=
  {| message := msg; status := None; code := None |}.

(** The object [createClient(url, { username, password, ... })] returns. *)
Record WebDAVClient := {
  remoteURL : string;
  authUsername : string;
  authPassword : string
}.

(** An entry of a listing or the answer of [stat].  A missing or
    otherwise falsy string property is empty, a missing [size] is [0]:
    the sources only ever test these properties with [||] and [&&]. *)
Record FileStat := {
  basename : string;
  filename : string;
  type : string;
  mime : string;
  size : Z
}.

Inductive Format := text | binary.

(** [string | Buffer] *)
Inductive Content :=
| StringContent (s : string)
| BufferContent (b : list Byte.byte).

(** The shapes [getDirectoryContents] is prepared to receive. *)
Inductive Listing :=
| AsArray (l : list FileStat)
| WithData (l : list FileStat)
| WithItems (l : list FileStat)
| WithFiles (l : list FileStat)
| AsObject (values : list FileStat)
| NotAnObject.

(** The protocol calls, as they are recorded in the call log. *)
Inductive Call :=
| Stat (p : string)
| GetDirectoryContents (p : string)
| GetFileContents (p : string) (f : Format)
| PutFileContents (p : string) (c : Content) (overwrite : bool)
| DeleteFile (p : string)
| CreateDirectory (p : string) (recursive : bool).

(** create-directory, put/write and delete change the remote tree. *)
Definition mutating (c : Call) : bool :=
  match c with
  | PutFileContents _ _ _ | DeleteFile _ | CreateDirectory _ _ => true
  | Stat _ | GetDirectoryContents _ | GetFileContents _ _ => false
  end.

(** A [vscode.Uri]: the components the sources read ([authority],
    [path]) and those that [toString] prints besides. *)
Record Uri := {
  scheme : string;
  authority : string;
  path : string;
  query : string;
  fragment : string
}.

(** Everything outside the program, over a state [W] of the outside
    world: the protocol collaborator of the [webdav] package (one
    function per method; an answer is a rejection or a value), the
    clock, the user in front of the modal dialog, the collation behind
    [a.localeCompare(b, undefined, { sensitivity: 'base' })], the parser
    and printer
    of [vscode.Uri], and [decodeURIComponent] ([None]: a [URIError]).
    Where the sources race one call against a timer, the
    timer winning is the collaborator answering with the timer's error.

    The local disk, which holds the cache files, is a state of its own,
    [LocalDisk], with the functions of Node's [fs] the sources call.
    [fs.readFileSync] answers with an error or the content;
    [fs.writeFileSync] and [fs.unlinkSync] leave a disk behind and may
    have thrown.  Nothing is assumed of what they do. *)
Class Environment (W : Type) := {
  dav_stat : WebDAVClient -> string -> W -> W * (JsError + FileStat);
  dav_getDirectoryContents : WebDAVClient -> string -> W -> W * (JsError + Listing);
  dav_getFileContents : WebDAVClient -> string -> Format -> W -> W * (JsError + Content);
  dav_putFileContents : WebDAVClient -> string -> Content -> bool -> W -> W * (JsError + unit);
  dav_deleteFile : WebDAVClient -> string -> W -> W * (JsError + unit);
  dav_createDirectory : WebDAVClient -> string -> bool -> W -> W * (JsError + unit);
  Date_now : W -> Z;
  showModalWarning : string -> W -> W * option string;
  localeCompareBase : string -> string -> Z;
  Uri_parse : string -> Uri;
  Uri_toString : Uri -> string;
  decodeURIComponent : string -> option string;
  LocalDisk : Type;
  fs_existsSync : string -> LocalDisk -> bool;
  fs_readFileSync : string -> LocalDisk -> JsError + string;
  fs_writeFileSync : string -> string -> LocalDisk -> LocalDisk * option JsError;
  fs_unlinkSync : string -> LocalDisk -> LocalDisk * option JsError
}.

End Dav.

(* ===================================================================== *)
(** * Promises: a state and exception monad *)
(* ===================================================================== *)

Module Promise.
Import Dav.

(** How an [async] call ends: fulfilled, rejected, or (for the recursive
    walks over a remote tree) not within the given number of nested
    calls. *)
Inductive Result (A : Type) :=
| Ok (a : A)
| Throw (e : JsError)
| OutOfFuel.
Arguments Ok {A} a.
Arguments Throw {A} e.
Arguments OutOfFuel {A}.

Definition M (S A : Type) : Type := S -> S * Result A.

Definition ret {S A} (a : A) : M S A := fun s => (s, Ok a).

Definition bind {S A B} (m : M S A) (k : A -> M S B) : M S B :=
  fun s =>
    match m s with
    | (s', Ok a) => k a s'
    | (s', Throw e) => (s', Throw e)
    | (s', OutOfFuel) => (s', OutOfFuel)
    end.

Definition throw {S A} (e : JsError) : M S A := fun s => (s, Throw e).

(** [try { m } catch (e) { h e }] *)
Definition tryCatch {S A} (m : M S A) (h : JsError -> M S A) : M S A :=
  fun s =>
    match m s with
    | (s', Throw e) => h e s'
    | r => r
    end.

(** [try { m } finally { f }] for an [f] that cannot throw. *)
Definition finally {S A} (m : M S A) (f : S -> S) : M S A :=
  fun s => let (s', r) := m s in (f s', r).

Definition gets {S A} (f : S -> A) : M S A := fun s => (s, Ok (f s)).

Definition modify {S} (f : S -> S) : M S unit := fun s => (f s, Ok tt).

(** Run a computation on a component of the state. *)
Definition zoom {S T A} (get : S -> T) (set : T -> S -> S) (m : M T A) : M S A :=
  fun s => let (t', r) := m (get s) in (set t' s, r).

(** [for (const x of l) { await body x }] *)
Fixpoint forEach {S A} (l : list A) (body : A -> M S unit) : M S unit :=
  match l with
  | [] => ret tt
  | x :: r => bind (body x) (fun _ => forEach r body)
  end.

End Promise.

Declare Scope promise_scope.
Delimit Scope promise_scope with promise.
Notation "'let!' x ':=' m 'in' k" :=
  (Promise.bind m (fun x => k))
  (at level 10, x name, m at level 100, k at level 200) : promise_scope.
Notation "m '>>>' k" :=
  (Promise.bind m (fun _ => k))
  (at level 100, k at level 200, right associativity) : promise_scope.

(* ===================================================================== *)
(** * webdavClient.ts: [MyWebDAVClient] *)
(* ===================================================================== *)

Module WebdavClient.
Import Js Dav Promise.
Local Open Scope promise_scope.

Record WebDAVConnection := {
  client : WebDAVClient;
  connected : bool;
  serverUrl : string;
  basePath : string;
  username : string;
  lastConnected : Z
}.

(** A promise of [connectInternal], by what it is settled with: the
    value it is fulfilled with or the error it is rejected with. *)
Inductive Settled :=
| Fulfilled (result : bool)
| Rejected (error : JsError).

(** The fields of a [MyWebDAVClient] that outlive a call.
    [connectionPromise] holds the promise of the [connect] in flight,
    and nothing when no [connect] is running. *)
Record MyWebDAVClient := {
  connection : option WebDAVConnection;
  connectionPromise : option Settled
}.

(** The outside world and the log of the protocol calls issued so far
    (oldest first). *)
Record Net (W : Type) := { world : W; calls : list Call }.
Arguments world {W} n.
Arguments calls {W} n.

Definition hasStatus (e : JsError) (n : Z) : bool :=
  match status e with Some z => Z.eqb z n | None => false end.

Definition hasCode (e : JsError) (c : string) : bool :=
  match code e with Some x => String.eqb x c | None => false end.

Section Methods.
Context {W : Type} {E : Environment W}.

(** One call of a method of the [webdav] client. *)
Definition invoke {A} (c : Call) (f : W -> W * (JsError + A)) : M (Net W) A :=
  fun n =>
    let (w', r) := f (world n) in
    ({| world := w'; calls := calls n ++ [c] |},
     match r with inl e => Throw e | inr a => Ok a end).

Definition notConnected : JsError := newError "未连接到WebDAV服务器".

(** [get client()] *)
Definition getClient (this : MyWebDAVClient) : option WebDAVClient :=
  match connection this with Some c => Some (client c) | None => None end.

(** [private getParentPath(filePath)] *)
Fixpoint afterFirstSlash (l : list ascii) : option (list ascii) :=
  match l with
  | [] => None
  | c :: r => if NodePath.isSlash c then Some r else afterFirstSlash r
  end.

Definition getParentPath (filePath : string) : string :=
  let normalized := collapseSlashes (replaceBackslashes filePath) in
  match afterFirstSlash (rev (list_ascii_of_string normalized)) with
  | None => "/"             (* lastSlash = -1 *)
  | Some [] => "/"          (* lastSlash = 0 *)
  | Some r => string_of_list_ascii (rev r)
  end.

(** [async stat(path)] *)
Definition stat (this : MyWebDAVClient) (path : string) : M (Net W) FileStat :=
  match connection this with
  | None => throw notConnected
  | Some conn =>
      tryCatch (invoke (Stat path) (dav_stat (client conn) path))
               (fun error => throw error)
  end.

(** [items.filter(...)] and [.map(...)] of [getDirectoryContents] *)
Definition entryName (item : FileStat) : string :=
  orElse (orElse (basename item) (filename item)) EmptyString.

Definition notHidden (item : FileStat) : bool :=
  negb (startsWith (entryName item) ".").

Definition formatEntry (item : FileStat) : FileStat :=
  {| basename := entryName item;
     type := orElse (type item)
               (if truthy (mime item) && includes (mime item) "directory"
                then "directory" else "file");
     size := size item;
     filename := orElse (filename item) (entryName item);
     mime := mime item |}.

Definition listingItems (contents : Listing) : list FileStat :=
  match contents with
  | AsArray l => l
  | WithData l => l
  | WithItems l => l
  | WithFiles l => l
  | AsObject values => values
  | NotAnObject => []
  end.

(** [async getDirectoryContents(path)] *)
Definition getDirectoryContents (this : MyWebDAVClient) (path : string)
  : M (Net W) (list FileStat) :=
  match connection this with
  | None => throw notConnected
  | Some conn =>
      tryCatch
        (let! contents :=
           invoke (GetDirectoryContents path)
                  (dav_getDirectoryContents (client conn) path) in
         let items := listingItems contents in
         let filteredContents := List.filter notHidden items in
         ret (List.map formatEntry filteredContents))
        (fun error =>
           if includes (message error) "404" || hasStatus error 404 then
             throw (newError ("路径不存在: " +:+ path))
           else if includes (message error) "401" || hasStatus error 401 then
             throw (newError "认证失败，请重新连接")
           else if includes (message error) "timeout"
                   || includes (message error) "超时" then
             throw (newError "请求超时，请检查网络连接")
           else if hasCode error "ENOTFOUND" then
             throw (newError "网络连接失败，请检查网络设置")
           else throw error)
  end.

(** [async createDirectory(path)] *)
Definition createDirectory (this : MyWebDAVClient) (path : string) : M (Net W) unit :=
  match connection this with
  | None => throw notConnected
  | Some conn =>
      tryCatch (invoke (CreateDirectory path true)
                       (dav_createDirectory (client conn) path true))
               (fun error => throw error)
  end.

(** [async createFile(path, content, overwrite)] *)
Definition createFile (this : MyWebDAVClient) (path : string) (content : Content)
    (overwrite : bool) : M (Net W) unit :=
  match connection this with
  | None => throw notConnected
  | Some conn =>
      tryCatch
        (let parentPath := getParentPath path in
         (if truthy parentPath && negb (String.eqb parentPath "/") then
            tryCatch
              (let! _ := invoke (Stat parentPath) (dav_stat (client conn) parentPath) in
               ret tt)
              (fun error =>
                 if hasStatus error 404 then createDirectory this parentPath
                 else ret tt)
          else ret tt) >>>
         invoke (PutFileContents path content overwrite)
                (dav_putFileContents (client conn) path content overwrite))
        (fun error => throw error)
  end.

(** [async getFileContents(path, options)] *)
Definition getFileContents (this : MyWebDAVClient) (path : string)
    (format : option Format) : M (Net W) Content :=
  match connection this with
  | None => throw notConnected
  | Some conn =>
      tryCatch
        (match format with
         | Some binary =>
             invoke (GetFileContents path binary)
                    (dav_getFileContents (client conn) path binary)
         | _ =>
             invoke (GetFileContents path text)
                    (dav_getFileContents (client conn) path text)
         end)
        (fun error =>
           if hasStatus error 404 then
             throw (newError ("文件不存在: " +:+ path))
           else if hasStatus error 403 then
             throw (newError "没有权限访问此文件")
           else throw error)
  end.

(** [async deleteFile(path)] *)
Definition deleteFile (this : MyWebDAVClient) (path : string) : M (Net W) unit :=
  match connection this with
  | None => throw notConnected
  | Some conn =>
      tryCatch (invoke (DeleteFile path) (dav_deleteFile (client conn) path))
               (fun error => throw error)
  end.

(** [async deleteDirectory(path)]: the children first, then the
    directory itself.  [fuel] bounds the depth of the nested calls. *)
Fixpoint deleteDirectory (fuel : nat) (this : MyWebDAVClient) (path : string)
  : M (Net W) unit :=
  match fuel with
  | O => fun n => (n, OutOfFuel)
  | S fuel' =>
      match connection this with
      | None => throw notConnected
      | Some conn =>
          tryCatch
            (let! contents := getDirectoryContents this path in
             forEach contents (fun item =>
               let itemPath :=
                 if String.eqb path "/" then "/" +:+ basename item
                 else path +:+ "/" +:+ basename item in
               if String.eqb (type item) "directory" then
                 deleteDirectory fuel' this itemPath
               else deleteFile this itemPath) >>>
             invoke (DeleteFile path) (dav_deleteFile (client conn) path))
            (fun error => throw error)
      end
  end.

(** [private async testConnectionInternal(client, basePath)].  The
    probe goes through the new [client]; the test for the server
    name reads [this.connection], the session from before. *)
Definition probeBasePath (client : WebDAVClient) (basePath : string) : M (Net W) unit :=
  tryCatch
    (let! _ := invoke (GetDirectoryContents basePath)
                      (dav_getDirectoryContents client basePath) in
     ret tt)
    (fun pathError =>
       if hasStatus pathError 404 then
         invoke (CreateDirectory basePath false)
                (dav_createDirectory client basePath false)
       else throw pathError).

Definition testConnectionInternal (this : MyWebDAVClient) (client : WebDAVClient)
    (basePath : string) : M (Net W) unit :=
  tryCatch
    (let! _ := invoke (GetDirectoryContents "/")
                      (dav_getDirectoryContents client "/") in
     if truthy basePath && negb (String.eqb basePath "/") then
       probeBasePath client basePath
     else ret tt)
    (fun error =>
       if match connection this with
          | Some c => includes (serverUrl c) "jianguoyun.com"
          | None => false
          end
       then
         if truthy basePath && negb (String.eqb basePath "/") then
           probeBasePath client basePath
         else ret tt
       else throw error).

(** The [catch (testError)] of [connectInternal]. *)
Definition timeoutMessage : string := "连接超时，请检查网络连接或服务器状态".

(** [Promise.race([work, timeoutPromise])] where the work spans several
    calls: by the clock, the timer of [ms] milliseconds has fired when
    the work settles [ms] or more after its start, and the race is then
    rejected with the timer's error.  The work is not cancelled; what it
    does to the world is done all the same. *)
Definition race {A} (ms : Z) (timerError : JsError) (work : M (Net W) A)
  : M (Net W) A :=
  fun n =>
    let (n', r) := work n in
    match r with
    | OutOfFuel => (n', OutOfFuel)
    | _ =>
        if (Date_now (world n') - Date_now (world n) >=? ms)%Z
        then (n', Throw timerError) else (n', r)
    end.

Definition classifyTestError (testError : JsError) : JsError :=
  if String.eqb (message testError) timeoutMessage then testError
  else if hasStatus testError 401 || hasStatus testError 403 then
    newError "认证失败，请检查用户名和密码"
  else if hasStatus testError 404 then newError "服务器地址不存在或无法访问"
  else if hasStatus testError 0 then newError "网络连接失败，请检查网络设置"
  else if hasCode testError "ENOTFOUND" then
    newError "无法解析服务器地址，请检查网络连接"
  else if hasCode testError "ECONNREFUSED" then
    newError "连接被拒绝，请检查服务器地址和端口"
  else if hasCode testError "ETIMEDOUT" then newError "连接超时，请检查网络连接"
  else if hasCode testError "CERT_HAS_EXPIRED" then
    newError "SSL证书已过期，请联系服务器管理员"
  else newError ("连接测试失败: " +:+ orElse (message testError) "未知错误").

Definition onNet {A} (m : M (Net W) A) : M (Net W * MyWebDAVClient) A :=
  zoom fst (fun n s => (n, snd s)) m.

Definition setConnection (c : option WebDAVConnection)
  : M (Net W * MyWebDAVClient) unit :=
  modify (fun s => (fst s, {| connection := c;
                              connectionPromise := connectionPromise (snd s) |})).

Definition setConnectionPromise (p : option Settled) (s : Net W * MyWebDAVClient)
  : Net W * MyWebDAVClient :=
  (fst s, {| connection := connection (snd s); connectionPromise := p |}).

(** The [try] block of [connectInternal]: the arguments are checked,
    a client is made, the connection is probed through it, and the
    session is stored. *)
Definition attemptConnect (serverUrl username password basePath : string)
  : M (Net W * MyWebDAVClient) bool :=
  (if negb (truthy serverUrl) || negb (truthy username) || negb (truthy password)
   then throw (newError "服务器地址、用户名或密码不能为空") else ret tt) >>>
  (if negb (startsWith serverUrl "http://") && negb (startsWith serverUrl "https://")
   then throw (newError "服务器地址必须以 http:// 或 https:// 开头") else ret tt) >>>
  let cleanedServerUrl :=
    let t := trim serverUrl in
    if endsWithSlash t then dropLast t else t in
  let client :=
    {| remoteURL := cleanedServerUrl;
       authUsername := trim username;
       authPassword := trim password |} in
  let! this := gets snd in
  tryCatch (onNet (race 30000 (newError timeoutMessage)
                     (testConnectionInternal this client basePath)))
           (fun testError => throw (classifyTestError testError)) >>>
  let! now := gets (fun s => Date_now (world (fst s))) in
  setConnection
    (Some {| client := client;
             connected := true;
             serverUrl := cleanedServerUrl;
             basePath := basePath;
             username := username;
             lastConnected := now |}) >>>
  ret true.

(** [private async connectInternal(serverUrl, username, password, basePath)] *)
Definition connectInternal (serverUrl username password basePath : string)
  : M (Net W * MyWebDAVClient) bool :=
  tryCatch (attemptConnect serverUrl username password basePath)
           (fun error => setConnection None >>> throw error).

(** Calling an [async] function gives its promise.  Calls do not
    overlap here: the function has run to its end when the promise is
    handed over, and the promise is settled with its result. *)
Definition start {S} (m : M S bool) : M S Settled :=
  fun s =>
    match m s with
    | (s', Ok result) => (s', Ok (Fulfilled result))
    | (s', Throw error) => (s', Ok (Rejected error))
    | (s', OutOfFuel) => (s', OutOfFuel)
    end.

(** [await promise] *)
Definition await {S} (promise : Settled) : M S bool :=
  match promise with
  | Fulfilled result => ret result
  | Rejected error => throw error
  end.

(** [async connect(...)].  While a [connect] is in flight, which is to
    say that [connectionPromise] is set, a further call does nothing of
    its own: it awaits that promise and ends as it ends.  Otherwise the
    promise of [connectInternal] is stored, awaited, and dropped again. *)
Definition connect (serverUrl username password basePath : string)
  : M (Net W * MyWebDAVClient) bool :=
  let! inFlight := gets (fun s => connectionPromise (snd s)) in
  match inFlight with
  | Some promise => await promise
  | None =>
      let! promise := start (connectInternal serverUrl username password basePath) in
      modify (setConnectionPromise (Some promise)) >>>
      finally (await promise) (setConnectionPromise None)
  end.

(** [async disconnect()] *)
Definition disconnect (this : MyWebDAVClient) : MyWebDAVClient :=
  match connection this with
  | Some _ => {| connection := None; connectionPromise := connectionPromise this |}
  | None => this
  end.

(** [get isConnected()] *)
Definition isConnected (this : MyWebDAVClient) : bool :=
  match connection this with Some c => connected c | None => false end.

End Methods.
End WebdavClient.

(* ===================================================================== *)
(** * webdavFileSystemProvider.ts: [WebDAVFileSystemProvider] *)
(* ===================================================================== *)

Module FileSystemProvider.
Import Js Dav Promise WebdavClient.
Local Open Scope promise_scope.

Record VirtualFile := {
  webdavPath : string;
  fileName : string;
  content : list Byte.byte;
  mtime : Z;
  ctime : Z;
  size : Z;
  isDirty : bool
}.

(** The provider: its client, the tracked documents (keyed by
    [uri.toString()]), the cache directory, and the local disk the cache
    files are on. *)
Record StateOf (W D : Type) := {
  net : Net W;
  webdavClient : option MyWebDAVClient;
  virtualFiles : gmap string VirtualFile;
  tempDir : string;
  disk : D
}.
Arguments net {W D} s.
Arguments webdavClient {W D} s.
Arguments virtualFiles {W D} s.
Arguments tempDir {W D} s.
Arguments disk {W D} s.

(** The provider in an environment: its disk is that of the environment. *)
Definition State (W : Type) {E : Environment W} : Type := StateOf W LocalDisk.

Section Methods.
Context {W : Type} {E : Environment W}.

Definition setNet (n : Net W) (s : State W) : State W :=
  {| net := n; webdavClient := webdavClient s; virtualFiles := virtualFiles s;
     tempDir := tempDir s; disk := disk s |}.

Definition setVirtualFiles (m : gmap string VirtualFile) (s : State W) : State W :=
  {| net := net s; webdavClient := webdavClient s; virtualFiles := m;
     tempDir := tempDir s; disk := disk s |}.

Definition setDisk (d : LocalDisk) (s : State W) : State W :=
  {| net := net s; webdavClient := webdavClient s; virtualFiles := virtualFiles s;
     tempDir := tempDir s; disk := d |}.

Definition remote {A} (m : M (Net W) A) : M (State W) A := zoom net setNet m.

Definition now : M (State W) Z := gets (fun s => Date_now (world (net s))).

(** [createVirtualFileUri(webdavPath, fileName)] *)
Definition createVirtualFileUri (webdavPath fileName : string) : Uri :=
  let encodedPath := encodeURIComponent webdavPath in
  Uri_parse ("webdav-file://" +:+ encodedPath +:+ "/" +:+ fileName).

(** [private hashString(str)]: the loop over [str.charCodeAt(i)] *)
Fixpoint hashLoop (chars : list Z) (hash : Z) : Z :=
  match chars with
  | [] => hash
  | char :: r =>
      let hash1 := (toInt32 (hash * 32) - hash + char)%Z in
      hashLoop r (toInt32 hash1)
  end.

Definition hashString (str : string) : string :=
  substring 0 8 (toHex (Z.abs (hashLoop (codeUnits str) 0))).

(** [private getCachePath(uri)] *)
Definition getCachePath (s : State W) (uri : Uri) : string :=
  let uriString := Uri_toString uri in
  let hash := hashString uriString in
  let cacheFileName := "cache_" +:+ hash +:+ ".tmp" in
  tempDir s +:+ "/" +:+ cacheFileName.

(** [fs.writeFileSync(getCachePath(uri), content, 'utf-8')]; what the
    disk throws is thrown on. *)
Definition writeCache (uri : Uri) (content : string) : M (State W) unit :=
  fun s =>
    let (d, thrown) := fs_writeFileSync (getCachePath s uri) content (disk s) in
    (setDisk d s, match thrown with Some error => Throw error | None => Ok tt end).

(** [if (fs.existsSync(cachePath)) { fs.unlinkSync(cachePath); }] *)
Definition removeCache (uri : Uri) : M (State W) unit :=
  fun s =>
    let cachePath := getCachePath s uri in
    if fs_existsSync cachePath (disk s) then
      let (d, thrown) := fs_unlinkSync cachePath (disk s) in
      (setDisk d s, match thrown with Some error => Throw error | None => Ok tt end)
    else (s, Ok tt).

(** [typeof c === 'string' ? c : String(c)] *)
Definition contentToString (c : Content) : string :=
  match c with
  | StringContent s => s
  | BufferContent b => utf8ToString b
  end.

(** [new TextEncoder().encode(s)] / [new TextDecoder().decode(b)] *)
Definition encode (s : string) : list Byte.byte := list_byte_of_string s.
Definition decode (b : list Byte.byte) : string := textDecode b.

(** The inner [try] of [openFile]: the remote content as a string; a
    fetch turned down with a not-found message counts as an empty file. *)
Definition fetchContent (client : MyWebDAVClient) (webdavPath : string)
  : M (State W) string :=
  tryCatch
    (let! fileContent := remote (getFileContents client webdavPath (Some text)) in
     ret (contentToString fileContent))
    (fun error =>
       let errorMessage := message error in
       if includes errorMessage "404" || includes errorMessage "Not Found"
       then ret EmptyString
       else throw error).

(** The rest of [openFile]: the document is put into [virtualFiles]
    under its URI, clean, and then its cache file is written. *)
Definition register (webdavPath fileName content : string) : M (State W) Uri :=
  let uri := createVirtualFileUri webdavPath fileName in
  let uriString := Uri_toString uri in
  let! now := now in
  modify (fun s =>
    setVirtualFiles
      (<[uriString := {| webdavPath := webdavPath;
                         fileName := fileName;
                         content := encode content;
                         mtime := now;
                         ctime := now;
                         size := Z.of_nat (utf16Length content);
                         isDirty := false |}]> (virtualFiles s)) s) >>>
  writeCache uri content >>>
  ret uri.

(** [async openFile(webdavPath, fileName)] *)
Definition openFile (webdavPath fileName : string) : M (State W) Uri :=
  let! wc := gets webdavClient in
  match wc with
  | None => throw (newError "WebDAV客户端未初始化")
  | Some client =>
      tryCatch
        (let! content := fetchContent client webdavPath in
         register webdavPath fileName content)
        (fun error => throw error)
  end.

(** [async saveFile(uri, content)] *)
Definition saveFile (uri : Uri) (content : string) : M (State W) unit :=
  let! files := gets virtualFiles in
  let! wc := gets webdavClient in
  match files !! Uri_toString uri, wc with
  | Some virtualFile, Some client =>
      tryCatch
        (remote (createFile client (webdavPath virtualFile) (StringContent content) true) >>>
         let! now := now in
         modify (fun s =>
           setVirtualFiles
             (<[Uri_toString uri := {| webdavPath := webdavPath virtualFile;
                                       fileName := fileName virtualFile;
                                       content := encode content;
                                       mtime := now;
                                       ctime := ctime virtualFile;
                                       size := Z.of_nat (utf16Length content);
                                       isDirty := false |}]> (virtualFiles s)) s) >>>
         writeCache uri content)
        (fun error => throw error)
  | _, _ => throw (newError "文件未找到或WebDAV客户端未初始化")
  end.

(** The last element of [uri.path.split('/')] *)
Definition lastSegment (p : string) : string :=
  string_of_list_ascii
    (rev (NodePath.takeSegment (rev (list_ascii_of_string p)))).

(** [writeFile(uri, content, options)]: the editor writing the buffer
    of a document.  [FileSystemError]s are thrown as errors; a cache
    file that cannot be written is passed over. *)
Definition writeFile (uri : Uri) (newContent : list Byte.byte)
    (create overwrite : bool) : M (State W) unit :=
  let! files := gets virtualFiles in
  let virtualFile := files !! Uri_toString uri in
  let present := match virtualFile with Some _ => true | None => false end in
  if negb present && negb create then throw (newError "FileNotFound")
  else if present && negb overwrite then throw (newError "FileExists")
  else
    let! now := now in
    match virtualFile with
    | None =>
        match decodeURIComponent (authority uri) with
        | None => throw (newError "URIError: URI malformed")
        | Some webdavPath =>
            modify (fun s =>
              setVirtualFiles
                (<[Uri_toString uri := {| webdavPath := webdavPath;
                                          fileName := lastSegment (path uri);
                                          content := newContent;
                                          mtime := now;
                                          ctime := now;
                                          size := Z.of_nat (List.length newContent);
                                          isDirty := true |}]> (virtualFiles s)) s)
        end
    | Some vf =>
        modify (fun s =>
          setVirtualFiles
            (<[Uri_toString uri := {| webdavPath := webdavPath vf;
                                      fileName := fileName vf;
                                      content := newContent;
                                      mtime := now;
                                      ctime := ctime vf;
                                      size := Z.of_nat (List.length newContent);
                                      isDirty := true |}]> (virtualFiles s)) s)
    end >>>
    tryCatch (writeCache uri (decode newContent)) (fun error => ret tt).

(** [delete(uri, options)]: the document is closed; a cache file that
    cannot be removed is left where it is. *)
Definition delete (uri : Uri) : M (State W) unit :=
  let! files := gets virtualFiles in
  match files !! Uri_toString uri with
  | None => throw (newError "FileNotFound")
  | Some _ =>
      modify (fun s => setVirtualFiles (base.delete (Uri_toString uri) (virtualFiles s)) s) >>>
      tryCatch (removeCache uri) (fun error => ret tt)
  end.

(** [getVirtualFile(uri)] *)
Definition getVirtualFile (s : State W) (uri : Uri) : option VirtualFile :=
  virtualFiles s !! Uri_toString uri.

End Methods.
End FileSystemProvider.

(* ===================================================================== *)
(** * treeDataProvider.ts: [WebDAVTreeDataProvider] *)
(* ===================================================================== *)

Module TreeDataProvider.
Import Js Dav Promise WebdavClient.
Local Open Scope promise_scope.

Inductive ItemType := file | directory.

Definition ItemType_eqb (a b : ItemType) : bool :=
  match a, b with
  | file, file | directory, directory => true
  | _, _ => false
  end.

(** [interface WebDAVTreeItem]; an absent optional flag is [false], an
    absent optional string is empty.  [modified] and [children] are not
    read by any operation below and are left out. *)
Record WebDAVTreeItem := {
  id : string;
  label : string;
  type : ItemType;
  path : string;
  relativePath : string;
  isDownloadable : bool;
  fileType : string;
  size : Z;
  isSpecialItem : bool;
  specialAction : string;
  isRootDirectory : bool;
  isFromTopToolbar : bool
}.

Inductive Operation := cut | copy.

Record Clipboard := {
  item : WebDAVTreeItem;
  operation : Operation;
  sourcePath : string;
  timestamp : Z
}.

(** What [vscode.window.show...Message] puts in front of the user. *)
Inductive Notice :=
| Information (m : string)
| Warning (m : string)
| ErrorMessage (m : string).

(** The provider.  [webdavClipboardNotEmpty] is the context key
    [updateContext] sets; [notices] is the list of messages shown so
    far, oldest first. *)
Record State (W : Type) := {
  net : Net W;
  webdavClient : option MyWebDAVClient;
  isConnected : bool;
  currentBasePath : string;
  treeItems : list WebDAVTreeItem;
  clipboard : option Clipboard;
  webdavClipboardNotEmpty : bool;
  notices : list Notice
}.
Arguments net {W} s.
Arguments webdavClient {W} s.
Arguments isConnected {W} s.
Arguments currentBasePath {W} s.
Arguments treeItems {W} s.
Arguments clipboard {W} s.
Arguments webdavClipboardNotEmpty {W} s.
Arguments notices {W} s.

Definition expiry : Z := 10 * 60 * 1000.

Section Methods.
Context {W : Type} {E : Environment W}.

Definition setNet (n : Net W) (s : State W) : State W :=
  {| net := n; webdavClient := webdavClient s; isConnected := isConnected s;
     currentBasePath := currentBasePath s; treeItems := treeItems s;
     clipboard := clipboard s;
     webdavClipboardNotEmpty := webdavClipboardNotEmpty s; notices := notices s |}.

Definition setClipboard (c : option Clipboard) (s : State W) : State W :=
  {| net := net s; webdavClient := webdavClient s; isConnected := isConnected s;
     currentBasePath := currentBasePath s; treeItems := treeItems s;
     clipboard := c;
     webdavClipboardNotEmpty := webdavClipboardNotEmpty s; notices := notices s |}.

Definition setTreeItems (l : list WebDAVTreeItem) (s : State W) : State W :=
  {| net := net s; webdavClient := webdavClient s; isConnected := isConnected s;
     currentBasePath := currentBasePath s; treeItems := l;
     clipboard := clipboard s;
     webdavClipboardNotEmpty := webdavClipboardNotEmpty s; notices := notices s |}.

Definition setContext (b : bool) (s : State W) : State W :=
  {| net := net s; webdavClient := webdavClient s; isConnected := isConnected s;
     currentBasePath := currentBasePath s; treeItems := treeItems s;
     clipboard := clipboard s;
     webdavClipboardNotEmpty := b; notices := notices s |}.

Definition notify (n : Notice) (s : State W) : State W :=
  {| net := net s; webdavClient := webdavClient s; isConnected := isConnected s;
     currentBasePath := currentBasePath s; treeItems := treeItems s;
     clipboard := clipboard s;
     webdavClipboardNotEmpty := webdavClipboardNotEmpty s;
     notices := notices s ++ [n] |}.

Definition remote {A} (m : M (Net W) A) : M (State W) A := zoom net setNet m.

Definition now : M (State W) Z := gets (fun s => Date_now (world (net s))).

Definition showInformationMessage (m : string) : M (State W) unit :=
  modify (notify (Information m)).
Definition showWarningMessage (m : string) : M (State W) unit :=
  modify (notify (Warning m)).
Definition showErrorMessage (m : string) : M (State W) unit :=
  modify (notify (ErrorMessage m)).

(** The modal [showWarningMessage(..., { modal: true }, '覆盖', '取消')] *)
Definition askOverwrite (m : string) : M (State W) (option string) :=
  fun s =>
    let (w', choice) := showModalWarning m (world (net s)) in
    (setNet {| world := w'; calls := calls (net s) |} s, Ok choice).

Definition notFoundMessage (m : string) : bool :=
  includes m "404" || includes m "Not Found".

(** ** Listing a directory *)

Definition isDir (a : FileStat) : bool :=
  String.eqb (Dav.type a) "directory"
  || (truthy (mime a) && includes (mime a) "directory").

Definition sortName (a : FileStat) : string :=
  orElse (orElse (basename a) (filename a)) EmptyString.

(** The comparator handed to [items.sort] *)
Definition compareEntries (a b : FileStat) : Z :=
  let aIsDir := isDir a in
  let bIsDir := isDir b in
  if aIsDir && negb bIsDir then (-1)%Z
  else if negb aIsDir && bIsDir then 1%Z
  else localeCompareBase (sortName a) (sortName b).

(** [Array.prototype.sort] is stable; with a consistent comparator
    every stable sort returns the list this insertion sort returns. *)
Fixpoint insertBy (cmp : FileStat -> FileStat -> Z) (x : FileStat)
    (l : list FileStat) : list FileStat :=
  match l with
  | [] => [x]
  | y :: r => if (cmp x y <=? 0)%Z then x :: l else y :: insertBy cmp x r
  end.

Fixpoint sortBy (cmp : FileStat -> FileStat -> Z) (l : list FileStat) : list FileStat :=
  match l with
  | [] => []
  | x :: r => insertBy cmp x (sortBy cmp r)
  end.

(** [basename.split('.').pop()?.toLowerCase()] *)
Fixpoint takeUntilDot (l : list ascii) : list ascii :=
  match l with
  | c :: r => if Ascii.eqb c "." then [] else c :: takeUntilDot r
  | [] => []
  end.

Definition extension (name : string) : string :=
  toLowerCase (string_of_list_ascii
    (rev (takeUntilDot (rev (list_ascii_of_string name))))).

Definition isOneOf (x : string) (l : list string) : bool := existsb (String.eqb x) l.

Definition fileTypeOf (name : string) : string :=
  let ext := extension name in
  if isOneOf ext ["md"; "markdown"] then "markdown"
  else if isOneOf ext ["txt"] then "text"
  else if isOneOf ext ["json"] then "json"
  else if isOneOf ext ["js"] then "javascript"
  else if isOneOf ext ["ts"] then "typescript"
  else if isOneOf ext ["py"] then "python"
  else if isOneOf ext ["html"; "htm"] then "html"
  else if isOneOf ext ["css"] then "css"
  else if isOneOf ext ["xml"] then "xml"
  else if isOneOf ext ["yaml"; "yml"] then "yaml"
  else if isOneOf ext ["jpg"; "jpeg"; "png"; "gif"; "bmp"; "webp"] then "image"
  else if isOneOf ext ["pdf"] then "pdf"
  else if isOneOf ext ["zip"; "rar"; "7z"; "tar"; "gz"] then "archive"
  else EmptyString.

(** The callback of [sortedContents.map] *)
Definition toTreeItem (currentBasePath path : string) (entry : FileStat)
  : WebDAVTreeItem :=
  let isDirectory := isDir entry in
  let basename := orElse (orElse (basename entry) (filename entry)) "未知" in
  let itemPath :=
    if String.eqb path "/" then "/" +:+ basename else path +:+ "/" +:+ basename in
  let relativePath :=
    if truthy currentBasePath && negb (String.eqb currentBasePath "/")
       && startsWith itemPath currentBasePath
    then
      let r := substringFrom (String.length currentBasePath) itemPath in
      let r := if negb (truthy r) then "/" else r in
      if negb (String.eqb r "/") && negb (startsWith r "/") then "/" +:+ r else r
    else itemPath in
  {| id := itemPath;
     label := basename;
     type := if isDirectory then directory else file;
     path := itemPath;
     relativePath := relativePath;
     isDownloadable := negb isDirectory;
     fileType := if isDirectory then EmptyString else fileTypeOf basename;
     size := Dav.size entry;
     isSpecialItem := false;
     specialAction := EmptyString;
     isRootDirectory := false;
     isFromTopToolbar := false |}.

(** [private async getRemoteFiles(path)]; the client hands back an
    array, so [items] is [contents]. *)
Definition getRemoteFiles (path : string) : M (State W) (list WebDAVTreeItem) :=
  let! wc := gets webdavClient in
  match wc with
  | None => throw (newError "WebDAV客户端未初始化")
  | Some client =>
      tryCatch
        (let! contents := remote (getDirectoryContents client path) in
         let items := contents in
         let sortedContents := sortBy compareEntries items in
         let! base := gets currentBasePath in
         ret (List.map (toTreeItem base path) sortedContents))
        (fun error => throw error)
  end.

(** A placeholder row of the tree. *)
Definition specialItem (id label path relativePath : string) (special : bool)
    (action : string) : WebDAVTreeItem :=
  {| id := id; label := label; type := directory; path := path;
     relativePath := relativePath; isDownloadable := false;
     fileType := EmptyString; size := 0; isSpecialItem := special;
     specialAction := action; isRootDirectory := false;
     isFromTopToolbar := false |}.

(** [disconnect()] *)
Definition disconnect (s : State W) : State W :=
  {| net := net s;
     webdavClient :=
       match webdavClient s with
       | Some c => if WebdavClient.isConnected c
                   then Some (WebdavClient.disconnect c) else Some c
       | None => None
       end;
     isConnected := false;
     currentBasePath := "/";
     treeItems := [];
     clipboard := clipboard s;
     webdavClipboardNotEmpty := webdavClipboardNotEmpty s;
     notices := notices s |}.

(** [async refresh()] *)
Definition refresh : M (State W) unit :=
  let! connected := gets isConnected in
  if negb connected then
    modify (setTreeItems
      [specialItem "connect" "点击连接 WebDAV 服务器" "/" "/" true "connect"])
  else
    let! wc := gets webdavClient in
    match wc with
    | None =>
        modify (setTreeItems
          [specialItem "error" "WebDAV客户端未初始化" "/" "/" true "openSettings"])
    | Some _ =>
        tryCatch
          (let! base := gets currentBasePath in
           let! files := getRemoteFiles base in
           modify (setTreeItems files) >>>
           (if Nat.eqb (List.length files) 0 then
              modify (setTreeItems
                [specialItem "empty" "目录为空，点击创建文件或上传文件" base "/" false
                   EmptyString])
            else ret tt))
          (fun error =>
             let m := message error in
             let! base := gets currentBasePath in
             if includes m "401" || includes m "认证失败" then
               modify disconnect >>>
               modify (setTreeItems
                 [specialItem "auth-error" "认证失败，请重新连接" "/" "/" true "connect"]) >>>
               showErrorMessage "认证失败，请检查用户名和密码"
             else if includes m "404" || includes m "Not Found" then
               modify (setTreeItems
                 [specialItem "path-error"
                    ("路径 " +:+ dq +:+ base +:+ dq +:+ " 不存在") "/" "/" true
                    "openSettings"]) >>>
               showWarningMessage
                 ("路径 " +:+ dq +:+ base +:+ dq +:+ " 不存在，请检查基础路径设置")
             else if includes m "timeout" then
               modify (setTreeItems
                 [specialItem "timeout-error" "请求超时，请检查网络连接" "/" "/" true
                    "refresh"]) >>>
               showErrorMessage "请求超时，请检查网络连接"
             else if includes m "ECONNREFUSED" then
               modify (setTreeItems
                 [specialItem "connection-error" "连接被拒绝，请检查服务器状态" "/" "/"
                    true "openSettings"]) >>>
               showErrorMessage "连接被拒绝，请检查服务器地址和端口"
             else if includes m "ENOTFOUND" then
               modify (setTreeItems
                 [specialItem "dns-error" "无法解析服务器地址" "/" "/" true
                    "openSettings"]) >>>
               showErrorMessage "无法解析服务器地址，请检查网络连接"
             else
               modify (setTreeItems
                 [specialItem "error" "获取文件列表失败，点击刷新重试" "/" "/" true
                    "refresh"]) >>>
               showErrorMessage ("获取文件列表失败: " +:+ orElse m "未知错误"))
    end.

(** ** The clipboard *)

Definition expired (now : Z) (c : Clipboard) : bool :=
  (now - timestamp c >? expiry)%Z.

(** [getClipboardStatus()].  The [updateContext] it calls after
    emptying an expired clipboard finds the clipboard empty and sets
    the context key to [false]. *)
Definition getClipboardStatus : M (State W) (option string) :=
  let! cb := gets clipboard in
  match cb with
  | None => ret None
  | Some c =>
      let action := match operation c with copy => "复制" | cut => "剪切" end in
      let! now := now in
      if expired now c then
        modify (setClipboard None) >>>
        modify (setContext false) >>>
        ret None
      else ret (Some (action +:+ ": " +:+ label (item c)))
  end.

(** [updateContext()] *)
Definition updateContext : M (State W) unit :=
  let! clipboardStatus := getClipboardStatus in
  modify (setContext (match clipboardStatus with
                      | Some st => truthy st
                      | None => false
                      end)).

(** [clearClipboard()] *)
Definition clearClipboard : M (State W) unit :=
  modify (setClipboard None) >>>
  showInformationMessage "已清空剪贴板" >>>
  updateContext.

(** [async cutItem(item)] *)
Definition cutItem (item : WebDAVTreeItem) : M (State W) unit :=
  let! connected := gets isConnected in
  if negb connected then showErrorMessage "未连接到WebDAV服务器"
  else
    let! wc := gets webdavClient in
    match wc with
    | None => showErrorMessage "WebDAV客户端未初始化"
    | Some client =>
        tryCatch
          (let! _ := remote (stat client (path item)) in
           let! now := now in
           modify (setClipboard
             (Some {| item := item; operation := cut;
                      sourcePath := path item; timestamp := now |})) >>>
           showInformationMessage
             ("已剪切 " +:+ dq +:+ label item +:+ dq +:+ "，请在目标位置粘贴") >>>
           updateContext)
          (fun error =>
             if notFoundMessage (message error) then
               showErrorMessage ("文件不存在: " +:+ label item) >>>
               modify (setClipboard None) >>>
               updateContext
             else showErrorMessage ("剪切失败: " +:+ message error))
    end.

(** [async copyItem(item)] *)
Definition copyItem (item : WebDAVTreeItem) : M (State W) unit :=
  let! connected := gets isConnected in
  if negb connected then showErrorMessage "未连接到WebDAV服务器"
  else
    let! now := now in
    modify (setClipboard
      (Some {| item := item; operation := copy;
               sourcePath := path item; timestamp := now |})) >>>
    showInformationMessage
      ("已复制 " +:+ dq +:+ label item +:+ dq +:+ "，请在目标位置粘贴") >>>
    updateContext.


(** ** Copying and moving *)

Definition noClient : JsError := newError "WebDAV客户端未初始化".

(** The reading half of [copyOrMoveFile]: text mode first, binary
    mode on failure; the result is the content and [isBinary]. *)
Definition readSource (client : MyWebDAVClient) (sourcePath : string)
    (operation : Operation) : M (State W) (Content * bool) :=
  tryCatch
    (let! content := remote (getFileContents client sourcePath (Some text)) in
     ret (content, false))
    (fun error =>
       tryCatch
         (let! content := remote (getFileContents client sourcePath (Some binary)) in
          ret (content, true))
         (fun binaryError =>
            if notFoundMessage (message binaryError) then
              match operation with
              | cut => ret (StringContent EmptyString, false)
              | copy =>
                  throw (newError ("复制操作失败：源文件不存在: " +:+ sourcePath))
              end
            else
              throw (newError ("无法读取文件内容: "
                               +:+ orElse (message binaryError) "未知错误")))).

(** [private async copyOrMoveFile(sourcePath, targetPath, operation, progress)] *)
Definition copyOrMoveFile (sourcePath targetPath : string) (operation : Operation)
  : M (State W) unit :=
  let! wc := gets webdavClient in
  match wc with
  | None => throw noClient
  | Some webdavClient =>
      let! read := readSource webdavClient sourcePath operation in
      let content := fst read in
      let isBinary := snd read in
      tryCatch
        (if isBinary then
           match getClient webdavClient with
           | None => throw (newError "WebDAV客户端未正确初始化")
           | Some client =>
               remote (invoke (PutFileContents targetPath content true)
                              (dav_putFileContents client targetPath content true))
           end
         else remote (createFile webdavClient targetPath content true))
        (fun writeError => throw writeError) >>>
      match operation with
      | cut =>
          tryCatch
            (remote (deleteFile webdavClient sourcePath))
            (fun deleteError =>
               if negb (includes (message deleteError) "404")
                  && negb (includes (message deleteError) "Not Found")
               then throw deleteError
               else ret tt)
      | copy => ret tt
      end
  end.

(** [private async copyOrMoveDirectory(sourcePath, targetPath, operation, progress)].
    [fuel] bounds the depth of the nested calls. *)
Fixpoint copyOrMoveDirectory (fuel : nat) (sourcePath targetPath : string)
    (operation : Operation) : M (State W) unit :=
  match fuel with
  | O => fun s => (s, OutOfFuel)
  | S fuel' =>
      let! wc := gets webdavClient in
      match wc with
      | None => throw noClient
      | Some webdavClient =>
          remote (createDirectory webdavClient targetPath) >>>
          let! contents := remote (getDirectoryContents webdavClient sourcePath) in
          forEach contents (fun item =>
            let itemSourcePath := sourcePath +:+ "/" +:+ basename item in
            let itemTargetPath := targetPath +:+ "/" +:+ basename item in
            if String.eqb (Dav.type item) "directory" then
              copyOrMoveDirectory fuel' itemSourcePath itemTargetPath operation
            else copyOrMoveFile itemSourcePath itemTargetPath operation) >>>
          match operation with
          | cut => remote (deleteDirectory fuel' webdavClient sourcePath)
          | copy => ret tt
          end
      end
  end.

(** [moveDirectory] and [moveFile], used by rename *)
Definition moveDirectory (fuel : nat) (sourcePath targetPath : string) : M (State W) unit :=
  copyOrMoveDirectory fuel sourcePath targetPath cut.

Definition moveFile (sourcePath targetPath : string) : M (State W) unit :=
  copyOrMoveFile sourcePath targetPath cut.

(** ** Paste *)

(** The target directory of a paste *)
Definition resolveTargetPath (currentBasePath : string)
    (targetDirectory : option WebDAVTreeItem) : string :=
  match targetDirectory with
  | None => currentBasePath
  | Some t =>
      if isFromTopToolbar t then currentBasePath
      else match type t with
           | directory => path t
           | file => NodePath.dirname (path t)
           end
  end.

(** The destination of a paste: [target/basename(source)] *)
Definition destinationPath (targetPath sourcePath : string) : string :=
  let targetName := NodePath.basename sourcePath in
  if String.eqb targetPath "/" then "/" +:+ targetName
  else targetPath +:+ "/" +:+ targetName.

(** The inner [try] of [pasteItem]: an existing destination is
    removed after the user agrees; the result says whether the paste
    goes on ([false]: the user declined). *)
Definition clearDestination (fuel : nat) (client : MyWebDAVClient)
    (newPath targetName : string) : M (State W) bool :=
  tryCatch
    (let! exists_ := remote (stat client newPath) in
     let! choice :=
       askOverwrite ("目标位置已存在 " +:+ dq +:+ targetName +:+ dq +:+ "，是否覆盖？") in
     match choice with
     | Some c =>
         if String.eqb c "覆盖" then
           (if String.eqb (Dav.type exists_) "directory"
            then remote (deleteDirectory fuel client newPath)
            else remote (deleteFile client newPath)) >>>
           ret true
         else ret false
     | None => ret false
     end)
    (fun error =>
       if negb (includes (message error) "404")
          && negb (includes (message error) "Not Found")
       then throw error
       else ret true).

Definition actionName (operation : Operation) : string :=
  match operation with copy => "复制" | cut => "移动" end.

(** The first [try] of [pasteItem]: the source is looked up again;
    when that fails the clipboard is emptied and the paste is over
    ([false]). *)
Definition sourceStillExists (client : MyWebDAVClient) (clip : Clipboard)
  : M (State W) bool :=
  tryCatch
    (let! _ := remote (stat client (sourcePath clip)) in ret true)
    (fun error =>
       showErrorMessage ("源文件不存在，可能已被删除: " +:+ label (item clip)) >>>
       modify (setClipboard None) >>>
       updateContext >>>
       ret false).

Definition pastedMessage (clip : Clipboard) : string :=
  "已" +:+ actionName (operation clip) +:+ " " +:+ dq +:+ label (item clip)
  +:+ dq +:+ " 到目标位置".

(** The callback of [withProgress]: the branch on [item.type]. *)
Definition copyOrMoveEntry (fuel : nat) (clip : Clipboard) (newPath : string)
  : M (State W) unit :=
  match type (item clip) with
  | directory => copyOrMoveDirectory fuel (sourcePath clip) newPath (operation clip)
  | file => copyOrMoveFile (sourcePath clip) newPath (operation clip)
  end.

(** What follows a copy or move that went through. *)
Definition finishPaste (clip : Clipboard) : M (State W) unit :=
  showInformationMessage (pastedMessage clip) >>>
  match operation clip with
  | cut => modify (setClipboard None)
  | copy => ret tt
  end >>>
  updateContext >>>
  refresh.

(** The [catch (error)] of the second [try]. *)
Definition failPaste (clip : Clipboard) (error : JsError) : M (State W) unit :=
  let errorMsg := orElse (message error) "未知错误" in
  showErrorMessage ("粘贴失败: " +:+ errorMsg) >>>
  match operation clip with
  | cut => modify (setClipboard None) >>> updateContext
  | copy => ret tt
  end.

(** The second [try] of [pasteItem]: the copy or move itself. *)
Definition performPaste (fuel : nat) (client : MyWebDAVClient) (clip : Clipboard)
    (newPath targetName : string) : M (State W) unit :=
  tryCatch
    (let! goOn := clearDestination fuel client newPath targetName in
     if negb goOn then ret tt
     else copyOrMoveEntry fuel clip newPath >>> finishPaste clip)
    (failPaste clip).

(** [async pasteItem(targetDirectory?)] *)
Definition pasteItem (fuel : nat) (targetDirectory : option WebDAVTreeItem)
  : M (State W) unit :=
  let! connected := gets isConnected in
  let! wc := gets webdavClient in
  match connected, wc with
  | true, Some client =>
      let! cb := gets clipboard in
      match cb with
      | None => showWarningMessage "剪贴板为空"
      | Some clip =>
          let! t := now in
          if expired t clip then
            showWarningMessage "剪贴板内容已过期" >>>
            modify (setClipboard None) >>>
            updateContext
          else
            let! sourceExists := sourceStillExists client clip in
            if negb sourceExists then ret tt
            else
              let! base := gets currentBasePath in
              let targetPath := resolveTargetPath base targetDirectory in
              let targetName := NodePath.basename (sourcePath clip) in
              let newPath := destinationPath targetPath (sourcePath clip) in
              if String.eqb (sourcePath clip) newPath then
                showWarningMessage "不能将项目复制到自身"
              else if ItemType_eqb (type (item clip)) directory
                      && startsWith newPath (sourcePath clip +:+ "/") then
                showWarningMessage "不能将目录复制到自身的子目录中"
              else performPaste fuel client clip newPath targetName
      end
  | _, _ => showErrorMessage "未连接到WebDAV服务器"
  end.

(** [async pasteToRoot()] *)
Definition pasteToRoot (fuel : nat) : M (State W) unit :=
  let! connected := gets isConnected in
  let! wc := gets webdavClient in
  match connected, wc with
  | true, Some _ =>
      let! cb := gets clipboard in
      match cb with
      | None => showWarningMessage "剪贴板为空"
      | Some _ =>
          let! base := gets currentBasePath in
          pasteItem fuel
            (Some {| id := "root-directory-toolbar"; label := "根目录";
                     type := directory; path := base; relativePath := "/";
                     isDownloadable := false; fileType := EmptyString; size := 0;
                     isSpecialItem := false; specialAction := EmptyString;
                     isRootDirectory := true; isFromTopToolbar := true |})
      end
  | _, _ => showErrorMessage "未连接到WebDAV服务器"
  end.

End Methods.
End TreeDataProvider.

(* ===================================================================== *)
(** * A reference environment: an in-memory remote store *)
(* ===================================================================== *)

(** The general theorems below hold for every [Environment].  To run the
    operations on concrete inputs, this module provides one: a remote tree
    kept in a finite map from absolute paths to nodes, a clock that
    advances by a fixed latency with every protocol call, a user who
    always gives the same answer to the overwrite dialog, and a collation
    that compares the ASCII letters without regard to case. *)
Module Store.
Import Js Dav.

Inductive Node := FileNode (content : string) | DirNode.

Record World := {
  tree : gmap string Node;
  clock : Z;
  latency : Z;
  answer : option string
}.

Definition tick (w : World) (t : gmap string Node) : World :=
  {| tree := t; clock := (clock w + latency w)%Z; latency := latency w;
     answer := answer w |}.

Definition notFound : JsError :=
  {| message := "Invalid response: 404 Not Found"; status := Some 404%Z; code := None |}.

Definition conflict : JsError :=
  {| message := "Invalid response: 409 Conflict"; status := Some 409%Z; code := None |}.

Definition entryOf (p : string) (n : Node) : FileStat :=
  {| basename := NodePath.basename p;
     filename := p;
     type := match n with DirNode => "directory" | FileNode _ => "file" end;
     mime := EmptyString;
     size := match n with DirNode => 0%Z | FileNode c => Z.of_nat (String.length c) end |}.

Definition isChildOf (dir : string) (entry : string * Node) : bool :=
  String.eqb (NodePath.dirname (fst entry)) dir && negb (String.eqb (fst entry) dir).

Definition isWithin (dir p : string) : bool :=
  String.eqb p dir || String.prefix (dir +:+ "/") p.

Definition contentString (c : Content) : string :=
  match c with
  | StringContent s => s
  | BufferContent b => string_of_list_byte b
  end.

Definition store_stat (_ : WebDAVClient) (p : string) (w : World)
  : World * (JsError + FileStat) :=
  match tree w !! p with
  | Some n => (tick w (tree w), inr (entryOf p n))
  | None => (tick w (tree w), inl notFound)
  end.

Definition store_list (_ : WebDAVClient) (p : string) (w : World)
  : World * (JsError + Listing) :=
  match tree w !! p with
  | Some DirNode =>
      (tick w (tree w),
       inr (AsArray (List.map (fun e => entryOf (fst e) (snd e))
                       (List.filter (isChildOf p) (map_to_list (tree w))))))
  | _ => (tick w (tree w), inl notFound)
  end.

Definition store_get (_ : WebDAVClient) (p : string) (f : Format) (w : World)
  : World * (JsError + Content) :=
  match tree w !! p with
  | Some (FileNode c) =>
      (tick w (tree w),
       inr (match f with
            | text => StringContent c
            | binary => BufferContent (list_byte_of_string c)
            end))
  | _ => (tick w (tree w), inl notFound)
  end.

Definition store_put (_ : WebDAVClient) (p : string) (c : Content) (overwrite : bool)
    (w : World) : World * (JsError + unit) :=
  match tree w !! NodePath.dirname p with
  | Some DirNode =>
      match tree w !! p with
      | Some _ =>
          if overwrite then (tick w (<[p := FileNode (contentString c)]> (tree w)), inr tt)
          else (tick w (tree w), inr tt)
      | None => (tick w (<[p := FileNode (contentString c)]> (tree w)), inr tt)
      end
  | _ => (tick w (tree w), inl conflict)
  end.

Definition store_delete (_ : WebDAVClient) (p : string) (w : World)
  : World * (JsError + unit) :=
  match tree w !! p with
  | Some _ =>
      (tick w (filter (fun e => isWithin p (fst e) = false) (tree w)), inr tt)
  | None => (tick w (tree w), inl notFound)
  end.

(** The ancestors of a path, nearest first, by repeated [dirname]. *)
Fixpoint ancestors (fuel : nat) (p : string) : list string :=
  match fuel with
  | O => []
  | S fuel' =>
      let d := NodePath.dirname p in
      if String.eqb d p then [] else d :: ancestors fuel' d
  end.

Definition addDir (t : gmap string Node) (p : string) : gmap string Node :=
  match t !! p with
  | Some _ => t
  | None => <[p := DirNode]> t
  end.

Definition store_mkdir (_ : WebDAVClient) (p : string) (recursive : bool) (w : World)
  : World * (JsError + unit) :=
  if recursive then
    (tick w (fold_left addDir (p :: ancestors (String.length p) p) (tree w)), inr tt)
  else
    match tree w !! NodePath.dirname p with
    | Some DirNode => (tick w (addDir (tree w) p), inr tt)
    | _ => (tick w (tree w), inl conflict)
    end.

(** ** Collation

    A stand-in for [localeCompare] with base sensitivity.  On ASCII
    texts it follows the root collation at its first level: control
    characters are passed over, white space comes before punctuation,
    punctuation before the other symbols, these before the digits, the
    digits before the letters, and a letter and its capital count as the
    same.  Beyond ASCII the bytes are compared, after the letters; the
    root collation orders those characters otherwise (an accented letter
    counts as its base letter), so the store stands for [localeCompare]
    on ASCII names only. *)
Definition symbolOrder : list ascii :=
  list_ascii_of_string " _-,;:!?.'"
  ++ [ascii_of_nat 34]
  ++ list_ascii_of_string "()[]{}@*/\&#%`^+<=>|~$0123456789".

Fixpoint indexIn (c : ascii) (l : list ascii) (i : nat) : option nat :=
  match l with
  | [] => None
  | x :: r => if Ascii.eqb c x then Some i else indexIn c r (S i)
  end.

(** The weight of a byte; [None]: the byte is passed over. *)
Definition weight (c : ascii) : option nat :=
  let n := nat_of_ascii (lowerChar c) in
  if Nat.leb 97 n && Nat.leb n 122 then Some (100 + n)
  else if Nat.leb 9 n && Nat.leb n 13 then Some (n - 9)
  else
    match indexIn c symbolOrder 10 with
    | Some i => Some i
    | None => if Nat.leb 128 n then Some (300 + n) else None
    end.

Fixpoint weights (s : string) : list nat :=
  match s with
  | EmptyString => []
  | String c r =>
      match weight c with
      | Some w => w :: weights r
      | None => weights r
      end
  end.

Fixpoint compareWeights (a b : list nat) : Z :=
  match a, b with
  | [], [] => 0
  | [], _ :: _ => -1
  | _ :: _, [] => 1
  | x :: a', y :: b' =>
      if Nat.ltb x y then -1
      else if Nat.ltb y x then 1
      else compareWeights a' b'
  end%Z.

Definition compareBase (a b : string) : Z := compareWeights (weights a) (weights b).

(** ** [vscode.Uri]

    [Uri.parse] and [uri.toString()] of VS Code, for ASCII texts: the
    parser splits the text into a scheme (up to the first colon), an
    authority (behind two slashes, up to the next slash, question mark
    or hash), a path, a query (behind a question mark) and a fragment
    (behind a hash), and percent-decodes the components; the printer
    puts the authority in lower case and percent-encodes what is not
    unreserved. *)
Definition isDelimiter (stops : string) (c : ascii) : bool :=
  existsb (Ascii.eqb c) (list_ascii_of_string stops).

(** The longest prefix without a character of [stops], and the rest. *)
Fixpoint splitAt (stops : string) (s : string) : string * string :=
  match s with
  | EmptyString => (EmptyString, EmptyString)
  | String c r =>
      if isDelimiter stops c then (EmptyString, s)
      else let (a, p) := splitAt stops r in (String c a, p)
  end.

Definition hexValue (c : ascii) : option nat :=
  let n := nat_of_ascii c in
  if Nat.leb 48 n && Nat.leb n 57 then Some (n - 48)
  else if Nat.leb 65 n && Nat.leb n 70 then Some (n - 55)
  else if Nat.leb 97 n && Nat.leb n 102 then Some (n - 87)
  else None.

(** Whether a list of bytes is UTF-8: no stray or missing continuation
    byte, no overlong form, no surrogate, nothing beyond U+10FFFF. *)
Definition between (lo hi : nat) (c : ascii) : bool :=
  Nat.leb lo (nat_of_ascii c) && Nat.leb (nat_of_ascii c) hi.

Fixpoint validUtf8 (l : list ascii) : bool :=
  match l with
  | [] => true
  | a :: r =>
      if between 0 127 a then validUtf8 r
      else
        match r with
        | b :: r1 =>
            if between 194 223 a then between 128 191 b && validUtf8 r1
            else
              match r1 with
              | c :: r2 =>
                  if between 224 239 a then
                    (if between 224 224 a then between 160 191 b
                     else if between 237 237 a then between 128 159 b
                     else between 128 191 b)
                    && between 128 191 c && validUtf8 r2
                  else
                    match r2 with
                    | d :: r3 =>
                        between 240 244 a
                        && (if between 240 240 a then between 144 191 b
                            else if between 244 244 a then between 128 143 b
                            else between 128 191 b)
                        && between 128 191 c && between 128 191 d && validUtf8 r3
                    | [] => false
                    end
              | [] => false
              end
        | [] => false
        end
  end.

(** The bytes a text with escapes stands for; [None]: a [%] without
    two hexadecimal digits behind it. *)
Fixpoint unescape (s : string) : option (list ascii) :=
  match s with
  | EmptyString => Some []
  | String c r =>
      if Ascii.eqb c "%" then
        match r with
        | String h (String l r') =>
            match hexValue h, hexValue l, unescape r' with
            | Some a, Some b, Some d => Some (ascii_of_nat (16 * a + b) :: d)
            | _, _, _ => None
            end
        | _ => None
        end
      else
        match unescape r with
        | Some d => Some (c :: d)
        | None => None
        end
  end.

(** [decodeURIComponent(s)] *)
Definition percentDecode (s : string) : option string :=
  match unescape s with
  | Some bytes => if validUtf8 bytes then Some (string_of_list_ascii bytes) else None
  | None => None
  end.

(** The [percentDecode] of [vscode.Uri]: every run of escapes (a
    percent sign and two letters or digits, one or more times) is
    replaced by what [decodeURIComponent] makes of it; where that
    throws, the first escape of the run stays as it is, and the rest of
    the run is tried. *)
Definition isAlphanumeric (c : ascii) : bool :=
  between 48 57 c || between 65 90 c || between 97 122 c.

Fixpoint takeRun (s : string) : list (ascii * ascii) * string :=
  match s with
  | String c (String h (String l r)) =>
      if Ascii.eqb c "%" && isAlphanumeric h && isAlphanumeric l then
        let (run, rest) := takeRun r in ((h, l) :: run, rest)
      else ([], s)
  | _ => ([], s)
  end.

Fixpoint printRun (run : list (ascii * ascii)) : string :=
  match run with
  | [] => EmptyString
  | (h, l) :: r => String "%" (String h (String l (printRun r)))
  end.

Fixpoint decodeRun (run : list (ascii * ascii)) : string :=
  match run with
  | [] => EmptyString
  | (h, l) :: r =>
      match percentDecode (printRun run) with
      | Some decoded => decoded
      | None => String "%" (String h (String l (decodeRun r)))
      end
  end.

Fixpoint decodeRuns (fuel : nat) (s : string) : string :=
  match fuel with
  | O => s
  | S fuel' =>
      match s with
      | EmptyString => EmptyString
      | String c r =>
          match takeRun s with
          | ([], _) => String c (decodeRuns fuel' r)
          | (run, rest) => decodeRun run +:+ decodeRuns fuel' rest
          end
      end
  end.

Definition decodeComponent (s : string) : string := decodeRuns (String.length s) s.

(** The scheme in front of the first colon, when there is one before
    any of [/ ? #] and it is not empty. *)
Definition splitScheme (s : string) : string * string :=
  match splitAt ":/?#" s with
  | (EmptyString, _) => (EmptyString, s)
  | (name, String c rest) => if Ascii.eqb c ":" then (name, rest) else (EmptyString, s)
  | (_, EmptyString) => (EmptyString, s)
  end.

Definition afterMark (mark : ascii) (stops : string) (s : string) : string * string :=
  match s with
  | String c r => if Ascii.eqb c mark then splitAt stops r else (EmptyString, s)
  | EmptyString => (EmptyString, s)
  end.

(** [_referenceResolution] *)
Definition resolvePath (scheme path : string) : string :=
  if String.eqb scheme "https" || String.eqb scheme "http" || String.eqb scheme "file" then
    match path with
    | EmptyString => "/"
    | String c _ => if Ascii.eqb c "/" then path else "/" +:+ path
    end
  else path.

(** [vscode.Uri.parse(value)]; no text is turned down. *)
Definition parseUri (value : string) : Uri :=
  let (name, s1) := splitScheme value in
  let (auth, s2) :=
    if String.prefix "//" s1 then splitAt "/?#" (substringFrom 2 s1)
    else (EmptyString, s1) in
  let (p, s3) := splitAt "?#" s2 in
  let (q, s4) := afterMark "?" "#" s3 in
  let (f, _) := afterMark "#" EmptyString s4 in
  let scheme := if String.eqb name EmptyString then "file" else name in
  {| scheme := scheme;
     authority := decodeComponent auth;
     path := resolvePath scheme (decodeComponent p);
     query := decodeComponent q;
     fragment := decodeComponent f |}.

(** [encodeURIComponentFast(component, isPath, isAuthority)] *)
Definition keptAsIs (isPath isAuthority : bool) (c : ascii) : bool :=
  isAlphanumeric c
  || existsb (Ascii.eqb c) (list_ascii_of_string "-._~")
  || (isPath && Ascii.eqb c "/")
  || (isAuthority && existsb (Ascii.eqb c) (list_ascii_of_string "[]:")).

Fixpoint encodeFast (isPath isAuthority : bool) (s : string) : string :=
  match s with
  | EmptyString => EmptyString
  | String c r =>
      if keptAsIs isPath isAuthority c then String c (encodeFast isPath isAuthority r)
      else
        let n := nat_of_ascii c in
        String "%" (String (hexDigit (n / 16)) (String (hexDigit (n mod 16))
          (encodeFast isPath isAuthority r)))
  end.

(** [s.indexOf(c)] and [s.lastIndexOf(c)], as the two parts around the
    character found. *)
Fixpoint cutAtFirst (c : ascii) (s : string) : option (string * string) :=
  match s with
  | EmptyString => None
  | String x r =>
      if Ascii.eqb x c then Some (EmptyString, r)
      else match cutAtFirst c r with
           | Some (a, b) => Some (String x a, b)
           | None => None
           end
  end.

Fixpoint cutAtLast (c : ascii) (s : string) : option (string * string) :=
  match s with
  | EmptyString => None
  | String x r =>
      match cutAtLast c r with
      | Some (a, b) => Some (String x a, b)
      | None => if Ascii.eqb x c then Some (EmptyString, r) else None
      end
  end.

Definition printAuthority (authority : string) : string :=
  let (userinfo, host) :=
    match cutAtFirst "@" authority with
    | Some (user, host) =>
        (match cutAtLast ":" user with
         | None => encodeFast false false user
         | Some (name, password) =>
             encodeFast false false name +:+ ":" +:+ encodeFast false true password
         end +:+ "@", host)
    | None => (EmptyString, authority)
    end in
  let host := toLowerCase host in
  userinfo +:+
  match cutAtLast ":" host with
  | None => encodeFast false true host
  | Some (name, port) => encodeFast false true name +:+ ":" +:+ port
  end.

(** The drive letter of [/C:/...] and [C:/...] is put in lower case. *)
Definition printPath (path : string) : string :=
  let path :=
    match path with
    | String a (String b (String c r)) =>
        if Ascii.eqb a "/" && Ascii.eqb c ":" && between 65 90 b
        then String a (String (lowerChar b) (String c r))
        else if Ascii.eqb b ":" && between 65 90 a
             then String (lowerChar a) (String b (String c r))
             else path
    | String a (String b EmptyString) =>
        if Ascii.eqb b ":" && between 65 90 a
        then String (lowerChar a) (String b EmptyString)
        else path
    | _ => path
    end in
  encodeFast true false path.

(** [uri.toString()] *)
Definition printUri (u : Uri) : string :=
  (if truthy (scheme u) then scheme u +:+ ":" else EmptyString)
  +:+ (if truthy (authority u) || String.eqb (scheme u) "file" then "//" else EmptyString)
  +:+ (if truthy (authority u) then printAuthority (authority u) else EmptyString)
  +:+ (if truthy (path u) then printPath (path u) else EmptyString)
  +:+ (if truthy (query u) then "?" +:+ encodeFast false false (query u) else EmptyString)
  +:+ (if truthy (fragment u) then "#" +:+ encodeFast false false (fragment u)
       else EmptyString).

(** ** The local disk

    The files by their paths, and the paths that cannot be written:
    writing or removing there throws [EACCES] and changes nothing. *)
Record Disk := {
  files : gmap string string;
  readOnly : list string
}.

Definition isReadOnly (p : string) (d : Disk) : bool := existsb (String.eqb p) (readOnly d).

Definition fsError (kind p : string) : JsError :=
  {| message := kind +:+ ": " +:+ p; status := None; code := Some kind |}.

Definition disk_exists (p : string) (d : Disk) : bool :=
  match files d !! p with Some _ => true | None => false end.

Definition disk_read (p : string) (d : Disk) : JsError + string :=
  match files d !! p with
  | Some content => inr content
  | None => inl (fsError "ENOENT" p)
  end.

Definition disk_write (p content : string) (d : Disk) : Disk * option JsError :=
  if isReadOnly p d then (d, Some (fsError "EACCES" p))
  else ({| files := <[p := content]> (files d); readOnly := readOnly d |}, None).

Definition disk_unlink (p : string) (d : Disk) : Disk * option JsError :=
  if isReadOnly p d then (d, Some (fsError "EACCES" p))
  else
    match files d !! p with
    | Some _ => ({| files := base.delete p (files d); readOnly := readOnly d |}, None)
    | None => (d, Some (fsError "ENOENT" p))
    end.

#[export] Instance environment : Environment World := {
  dav_stat := store_stat;
  dav_getDirectoryContents := store_list;
  dav_getFileContents := store_get;
  dav_putFileContents := store_put;
  dav_deleteFile := store_delete;
  dav_createDirectory := store_mkdir;
  Date_now := clock;
  showModalWarning := fun _ w => (w, answer w);
  localeCompareBase := compareBase;
  Uri_parse := parseUri;
  Uri_toString := printUri;
  decodeURIComponent := percentDecode;
  LocalDisk := Disk;
  fs_existsSync := disk_exists;
  fs_readFileSync := disk_read;
  fs_writeFileSync := disk_write;
  fs_unlinkSync := disk_unlink
}.

End Store.

(* ===================================================================== *)
(** * webdavClient.ts: the connection check *)
(* ===================================================================== *)

Module ClientStatus.
Import Js Dav Promise WebdavClient.
Local Open Scope promise_scope.

(** The [details] of the answer of [checkConnection]. *)
Inductive Details :=
| NoDetails
| RootInfo (serverUrl basePath username : string) (rootInfo : FileStat)
| Failure (error : JsError).

Record ConnectionCheck := {
  success : bool;
  message : string;
  details : Details
}.

Section Methods.
Context {W : Type} {E : Environment W}.

(** [getCurrentConnection()] *)
Definition getCurrentConnection (this : MyWebDAVClient) : option WebDAVConnection :=
  connection this.

(** [get serverUrl()] *)
Definition serverUrl (this : MyWebDAVClient) : string :=
  match connection this with
  | Some c => orElse (WebdavClient.serverUrl c) EmptyString
  | None => EmptyString
  end.

(** [public async checkConnection()] *)
Definition checkConnection (this : MyWebDAVClient) : M (Net W) ConnectionCheck :=
  match connection this with
  | None => ret {| success := false; message := "未连接"; details := NoDetails |}
  | Some conn =>
      tryCatch
        (let! stat := invoke (Stat "/") (dav_stat (client conn) "/") in
         ret {| success := true;
                message := "连接正常";
                details := RootInfo (WebdavClient.serverUrl conn) (basePath conn)
                             (username conn) stat |})
        (fun error =>
           ret {| success := false;
                  message := orElse (Dav.message error) "连接测试失败";
                  details := Failure error |})
  end.

End Methods.
End ClientStatus.

(* ===================================================================== *)
(** * webdavFileSystemProvider.ts: reading, saving all, closing all *)
(* ===================================================================== *)

Module FileSystemReads.
Import Js Dav Promise WebdavClient FileSystemProvider.
Local Open Scope promise_scope.

(** A [vscode.FileStat] of type [File] *)
Record FileInfo := { ctime : Z; mtime : Z; size : Z }.

(** [{ success, fail }] of [saveAll] *)
Record SaveCount := { success : nat; fail : nat }.

Section Methods.
Context {W : Type} {E : Environment W}.

(** [stat(uri)] *)
Definition stat (uri : Uri) : M (State W) FileInfo :=
  let! files := gets virtualFiles in
  match files !! Uri_toString uri with
  | None => throw (newError "FileNotFound")
  | Some virtualFile =>
      ret {| ctime := FileSystemProvider.ctime virtualFile;
             mtime := FileSystemProvider.mtime virtualFile;
             size := FileSystemProvider.size virtualFile |}
  end.

(** [readFile(uri)]: the tracked content, or else what the cache file
    of the URI holds, when there is one and it can be read. *)
Definition readFile (uri : Uri) : M (State W) (list Byte.byte) :=
  let! files := gets virtualFiles in
  match files !! Uri_toString uri with
  | Some virtualFile => ret (content virtualFile)
  | None =>
      let! cachePath := gets (fun s => getCachePath s uri) in
      let! disk := gets disk in
      if fs_existsSync cachePath disk then
        match fs_readFileSync cachePath disk with
        | inr content => ret (encode content)
        | inl error => throw (newError "FileNotFound")
        end
      else throw (newError "FileNotFound")
  end.

(** [readDirectory], [createDirectory], [rename] and [copy] *)
Definition noPermissions {A} : M (State W) A := throw (newError "NoPermissions").

(** [getOpenFiles()]; the order of the [Map] is not kept. *)
Definition getOpenFiles (s : State W) : list VirtualFile :=
  snd <$> map_to_list (virtualFiles s).

(** [getWebDAVPath(uri)] *)
Definition getWebDAVPath (s : State W) (uri : Uri) : option string :=
  webdavPath <$> (virtualFiles s !! Uri_toString uri).

(** One round of the loop of [saveAll], for the document tracked under
    [key]: a dirty document is written to the server; when that goes
    through it is marked clean and [success] is counted, and [fail]
    otherwise. *)
Definition saveOne (client : MyWebDAVClient) (key : string) (file : VirtualFile)
    (count : SaveCount) : M (State W) SaveCount :=
  if isDirty file then
    tryCatch
      (let content := decode (FileSystemProvider.content file) in
       remote (createFile client (webdavPath file) (StringContent content) true) >>>
       let! now := now in
       modify (fun s =>
         setVirtualFiles
           (<[key := {| webdavPath := webdavPath file;
                        fileName := fileName file;
                        content := FileSystemProvider.content file;
                        FileSystemProvider.mtime := now;
                        FileSystemProvider.ctime := FileSystemProvider.ctime file;
                        FileSystemProvider.size := FileSystemProvider.size file;
                        isDirty := false |}]> (virtualFiles s)) s) >>>
       ret {| success := S (success count); fail := fail count |})
      (fun error => ret {| success := success count; fail := S (fail count) |})
  else ret count.

(** The loop of [saveAll] over the documents in the order given. *)
Fixpoint saveEach (client : MyWebDAVClient) (files : list (string * VirtualFile))
    (count : SaveCount) : M (State W) SaveCount :=
  match files with
  | [] => ret count
  | (key, file) :: rest =>
      let! count' := saveOne client key file count in
      saveEach client rest count'
  end.

(** [public async saveAll()]; the documents are visited in the order
    of [map_to_list], the order of the [Map] not being kept. *)
Definition saveAll : M (State W) SaveCount :=
  let! wc := gets webdavClient in
  match wc with
  | None => throw (newError "WebDAV客户端未初始化")
  | Some client =>
      let! files := gets (fun s => map_to_list (virtualFiles s)) in
      if Nat.eqb (List.length files) 0 then ret {| success := 0; fail := 0 |}
      else saveEach client files {| success := 0; fail := 0 |}
  end.

(** One round of the loop of [closeAll]: the content goes to the cache
    file of the URI the key parses to; a failure is passed over. *)
Definition cacheOne (key : string) (file : VirtualFile) : M (State W) unit :=
  tryCatch (writeCache (Uri_parse key) (decode (content file))) (fun error => ret tt).

(** [public closeAll()]: every document is written to its cache file,
    and then all are dropped, saved or not. *)
Definition closeAll : M (State W) unit :=
  let! files := gets (fun s => map_to_list (virtualFiles s)) in
  forEach files (fun entry => cacheOne (fst entry) (snd entry)) >>>
  modify (setVirtualFiles ∅).

End Methods.
End FileSystemReads.

(* ===================================================================== *)
(** * treeDataProvider.ts: the commands on rows of the tree *)
(* ===================================================================== *)

Module TreeCommands.
Import Js Dav Promise WebdavClient TreeDataProvider.
Local Open Scope promise_scope.

(** The [parentPath?: any] the create commands are called with:
    nothing, a path, or a row of the tree. *)
Inductive ParentArgument :=
| NoParent
| ParentPath (p : string)
| ParentItem (item : WebDAVTreeItem).

(** [s.split('/')] *)
Fixpoint splitSlash (s : string) : list string :=
  match s with
  | EmptyString => [EmptyString]
  | String c r =>
      if Ascii.eqb c "/" then EmptyString :: splitSlash r
      else
        match splitSlash r with
        | h :: t => String c h :: t
        | [] => [String c EmptyString]
        end
  end.

(** The [validateInput] of the input box of [createFile] *)
Definition validateFileName (value : string) : option string :=
  if negb (truthy (trim value)) then Some "文件名不能为空"
  else if includes value "/" || includes value "\" then Some "文件名不能包含路径分隔符"
  else if includes value ".." then Some "文件名不能包含上级目录符号"
  else None.

(** The [validateInput] of the input box of [createFolder] *)
Definition validateFolderName (value : string) : option string :=
  if negb (truthy (trim value)) then Some "文件夹名不能为空"
  else if includes value "/" || includes value "\" then Some "文件夹名不能包含路径分隔符"
  else if includes value ".." then Some "文件夹名不能包含上级目录符号"
  else None.

(** The path of the new entry: [parent/name], without a doubled slash. *)
Definition childPath (actualParentPath name : string) : string :=
  if String.eqb actualParentPath "/" || String.eqb actualParentPath EmptyString then
    "/" +:+ name
  else if endsWithSlash actualParentPath then actualParentPath +:+ name
  else actualParentPath +:+ "/" +:+ name.

Section Methods.
Context {W : Type} {E : Environment W}.

(** [private getFullPath(relativePath)] *)
Definition getFullPath (s : State W) (relativePath : string) : string :=
  if negb (truthy relativePath) || String.eqb relativePath "/"
     || String.eqb relativePath EmptyString then currentBasePath s
  else
    let base :=
      if endsWithSlash (currentBasePath s) then dropLast (currentBasePath s)
      else currentBasePath s in
    let relative :=
      if startsWith relativePath "/" then substringFrom 1 relativePath
      else relativePath in
    base +:+ "/" +:+ relative.

(** [private getRelativePath(fullPath)] *)
Definition getRelativePath (s : State W) (fullPath : string) : string :=
  if String.eqb (currentBasePath s) "/"
     || negb (startsWith fullPath (currentBasePath s)) then fullPath
  else
    let relative := substringFrom (String.length (currentBasePath s)) fullPath in
    let relative := if negb (truthy relative) then "/" else relative in
    if negb (String.eqb relative "/") && negb (startsWith relative "/")
    then "/" +:+ relative else relative.

(** [getRootDirectoryItem()] *)
Definition getRootDirectoryItem (s : State W) : WebDAVTreeItem :=
  {| id := "root"; label := "根目录"; type := directory; path := currentBasePath s;
     relativePath := "/"; isDownloadable := false; fileType := EmptyString;
     size := 0; isSpecialItem := false; specialAction := EmptyString;
     isRootDirectory := true; isFromTopToolbar := false |}.

(** [isTopLevel()] *)
Definition isTopLevel (s : State W) : bool :=
  match treeItems s with
  | first :: _ => negb (isSpecialItem first)
  | [] => false
  end.

(** [getClipboardItem()] *)
Definition getClipboardItem (s : State W) : option WebDAVTreeItem :=
  item <$> clipboard s.

(** [async getChildren(element?)] *)
Definition getChildren (element : option WebDAVTreeItem)
  : M (State W) (list WebDAVTreeItem) :=
  match element with
  | None => gets treeItems
  | Some element =>
      if isSpecialItem element then ret []
      else
        let! connected := gets isConnected in
        let! wc := gets webdavClient in
        match type element, connected, wc with
        | directory, true, Some _ =>
            tryCatch
              (getRemoteFiles (path element))
              (fun error =>
                 ret [specialItem "error-child" "获取子项失败" (path element)
                        (relativePath element) true "refresh"])
        | _, _, _ => ret []
        end
  end.

(** The modal [showWarningMessage(..., { modal: true }, '确定删除', '取消')] *)
Definition askDelete (m : string) : M (State W) (option string) :=
  fun s =>
    let (w', choice) := showModalWarning m (world (net s)) in
    (setNet {| world := w'; calls := calls (net s) |} s, Ok choice).

(** [async deleteItem(item)].  [fuel] bounds the depth of the nested
    calls of [deleteDirectory]. *)
Definition deleteItem (fuel : nat) (item : WebDAVTreeItem) : M (State W) unit :=
  let! confirm :=
    askDelete ("确定要删除 " +:+ dq +:+ label item +:+ dq +:+ " 吗？此操作不可恢复！") in
  match confirm with
  | Some choice =>
      if String.eqb choice "确定删除" then
        let! wc := gets webdavClient in
        let! connected := gets isConnected in
        match wc, connected with
        | Some client, true =>
            tryCatch
              (match type item with
               | directory => remote (deleteDirectory fuel client (path item))
               | file => remote (deleteFile client (path item))
               end >>>
               refresh >>>
               showInformationMessage ("已删除: " +:+ label item))
              (fun error => showErrorMessage ("删除失败: " +:+ Dav.message error))
        | _, _ => showErrorMessage "未连接到WebDAV服务器"
        end
      else ret tt
  | None => ret tt
  end.

(** The first [try] of [renameItem]: an existing target is an error,
    unless the catch takes the error for a not-found answer. *)
Definition targetIsFree (client : MyWebDAVClient) (newPath newName : string)
  : M (State W) unit :=
  tryCatch
    (let! exists_ := remote (stat client newPath) in
     throw (newError ("目标路径 " +:+ dq +:+ newName +:+ dq +:+ " 已存在")))
    (fun error =>
       if negb (includes (Dav.message error) "404")
          && negb (includes (Dav.message error) "Not Found")
       then throw error
       else ret tt).

(** The path a rename moves the item to *)
Definition renamedPath (item : WebDAVTreeItem) (newName : string) : string :=
  let parentPath := NodePath.dirname (path item) in
  if String.eqb parentPath "/" then "/" +:+ newName
  else parentPath +:+ "/" +:+ newName.

(** [public async renameItem(item)]; [newName] is what the input box
    returned ([None]: dismissed). *)
Definition renameItem (fuel : nat) (item : WebDAVTreeItem) (newName : option string)
  : M (State W) unit :=
  let! connected := gets isConnected in
  let! wc := gets webdavClient in
  match connected, wc with
  | true, Some client =>
      match newName with
      | None => ret tt
      | Some newName =>
          if negb (truthy newName) || String.eqb newName (label item) then ret tt
          else
            tryCatch
              (let newPath := renamedPath item newName in
               targetIsFree client newPath newName >>>
               match type item with
               | directory => moveDirectory fuel (path item) newPath
               | file => moveFile (path item) newPath
               end >>>
               refresh >>>
               showInformationMessage ("已重命名为: " +:+ dq +:+ newName +:+ dq))
              (fun error =>
                 showErrorMessage
                   ("重命名失败: " +:+ orElse (Dav.message error) "未知错误"))
      end
  | _, _ => showErrorMessage "未连接到WebDAV服务器"
  end.

(** The parent directory the create commands settle on *)
Definition resolveParent (s : State W) (parentPath : ParentArgument) : string :=
  let actualParentPath :=
    match parentPath with
    | NoParent => currentBasePath s
    | ParentPath p => p
    | ParentItem item =>
        match type item with
        | file => NodePath.dirname (path item)
        | directory => path item
        end
    end in
  if String.eqb actualParentPath "/" && truthy (currentBasePath s)
     && negb (String.eqb (currentBasePath s) "/")
  then currentBasePath s
  else actualParentPath.

(** [async createFile(parentPath?)]; [fileName] is what the input box
    returned.  The button of the first message starts [webdav.connect],
    a command of its own. *)
Definition createFile (parentPath : ParentArgument) (fileName : option string)
  : M (State W) unit :=
  let! connected := gets isConnected in
  if negb connected then showInformationMessage "请先连接WebDAV服务器"
  else
    let! wc := gets webdavClient in
    match wc with
    | None => showErrorMessage "WebDAV客户端未初始化"
    | Some _ =>
        let! actualParentPath := gets (fun s => resolveParent s parentPath) in
        match fileName with
        | None => ret tt
        | Some fileName =>
            if negb (truthy fileName) then ret tt
            else
              let! wc := gets webdavClient in
              let! connected := gets isConnected in
              match wc, connected with
              | Some client, true =>
                  tryCatch
                    (let fullPath := childPath actualParentPath fileName in
                     remote (WebdavClient.createFile client fullPath
                               (StringContent EmptyString) true) >>>
                     refresh >>>
                     showInformationMessage ("已创建文件: " +:+ fileName))
                    (fun error =>
                       showErrorMessage ("创建文件失败: " +:+ Dav.message error))
              | _, _ => showErrorMessage "未连接到WebDAV服务器"
              end
        end
    end.

(** The first [try] inside [createFolder]: a parent that is a file
    gives way to its directory. *)
Definition parentDirectory (client : MyWebDAVClient) (actualParentPath : string)
  : M (State W) string :=
  tryCatch
    (let! stat := remote (stat client actualParentPath) in
     if String.eqb (Dav.type stat) "file" then ret (NodePath.dirname actualParentPath)
     else ret actualParentPath)
    (fun error => ret actualParentPath).

(** One round of the loop over the ancestors of the new folder: the
    error thrown for an ancestor that is a file is caught on the spot. *)
Definition checkAncestor (client : MyWebDAVClient) (pathParts : list string) (i : nat)
  : M (State W) unit :=
  let checkPath := "/" +:+ String.concat "/" (firstn (i - 1) (skipn 1 pathParts)) in
  if truthy checkPath then
    tryCatch
      (let! stat := remote (stat client checkPath) in
       if String.eqb (Dav.type stat) "file" then
         throw (newError ("路径包含文件作为父目录: " +:+ checkPath))
       else ret tt)
      (fun error => ret tt)
  else ret tt.

(** [async createFolder(parentPath?)]; [folderName] is what the input
    box returned. *)
Definition createFolder (parentPath : ParentArgument) (folderName : option string)
  : M (State W) unit :=
  let! connected := gets isConnected in
  if negb connected then showInformationMessage "请先连接WebDAV服务器"
  else
    let! wc := gets webdavClient in
    match wc with
    | None => showErrorMessage "WebDAV客户端未初始化"
    | Some _ =>
        let! actualParentPath := gets (fun s => resolveParent s parentPath) in
        match folderName with
        | None => ret tt
        | Some folderName =>
            if negb (truthy folderName) then ret tt
            else
              let! wc := gets webdavClient in
              let! connected := gets isConnected in
              match wc, connected with
              | Some client, true =>
                  tryCatch
                    (let! actualParentPath := parentDirectory client actualParentPath in
                     let fullPath := childPath actualParentPath folderName in
                     let pathParts := splitSlash fullPath in
                     forEach (seq 1 (List.length pathParts - 1))
                       (checkAncestor client pathParts) >>>
                     remote (createDirectory client fullPath) >>>
                     refresh >>>
                     showInformationMessage ("已创建文件夹: " +:+ folderName))
                    (fun error =>
                       let errorMsg := Dav.message error in
                       let errorMsg :=
                         if includes errorMsg "Path includes a file"
                         then "不能在文件路径下创建文件夹，请选择一个目录作为父目录"
                         else errorMsg in
                       showErrorMessage ("创建文件夹失败: " +:+ errorMsg))
              | _, _ => showErrorMessage "未连接到WebDAV服务器"
              end
        end
    end.

End Methods.
End TreeCommands.

(* ===================================================================== *)
(** * Vocabulary of the statements *)
(* ===================================================================== *)

(** ** Strings the replace chain leaves alone *)

Module NormalForm.
Import Js.

Definition headIsSlash (s : string) : bool :=
  match s with String c _ => Ascii.eqb c "/" | EmptyString => false end.

(** No backslash and no two slashes in a row. *)
Fixpoint tidy (s : string) : bool :=
  match s with
  | EmptyString => true
  | String c r =>
      negb (Ascii.eqb c "\")
      && (if Ascii.eqb c "/" then negb (headIsSlash r) else true)
      && tidy r
  end.

Definition normal (s : string) : bool :=
  tidy s && negb (headIsSlash s) && negb (endsWithSlash s).

Fixpoint noBackslash (s : string) : bool :=
  match s with
  | EmptyString => true
  | String c r => negb (Ascii.eqb c "\") && noBackslash r
  end.

End NormalForm.

(** ** States reached along a paste *)

Module PasteStates.
Import Js Dav Promise WebdavClient TreeDataProvider.

Section States.
Context {W : Type} {E : Environment W}.

(** The destination [pasteItem] computes in state [s]. *)
Definition newPathOf (s : State W) (target : option WebDAVTreeItem)
    (clip : Clipboard) : string :=
  destinationPath (resolveTargetPath (currentBasePath s) target) (sourcePath clip).

(** The state after protocol call [c] has been answered in world [w']. *)
Definition afterCall (c : Call) (w' : W) (s : State W) : State W :=
  setNet {| world := w'; calls := (calls (net s) ++ [c])%list |} s.

(** The state in which the missing-source path leaves the provider. *)
Definition missingSource (clip : Clipboard) (s : State W) : State W :=
  setContext false (setClipboard None
    (notify (ErrorMessage ("源文件不存在，可能已被删除: " +:+ label (item clip))) s)).

(** The state in which the expiry path leaves the provider. *)
Definition expiredClipboard (s : State W) : State W :=
  setContext false (setClipboard None (notify (Warning "剪贴板内容已过期") s)).

(** The state in which the copy or move of the entry leaves the
    provider: the source has been looked up once more, the destination
    has been cleared, and the entry has been copied or moved.  The
    message and the context update of a paste that went through come
    next, in the world of this state. *)
Definition transferred (fuel : nat) (target : option WebDAVTreeItem)
    (clip : Clipboard) (s : State W) : State W :=
  match webdavClient s with
  | Some client =>
      let s1 := fst (sourceStillExists client clip s) in
      let newPath := newPathOf s1 target clip in
      let s2 := fst (clearDestination fuel client newPath
                       (NodePath.basename (sourcePath clip)) s1) in
      fst (copyOrMoveEntry fuel clip newPath s2)
  | None => s
  end.

(** A step that leaves the clipboard and the messages alone. *)
Definition silent (s s' : State W) : Prop :=
  clipboard s' = clipboard s /\ notices s' = notices s.

(** A step that leaves the clipboard alone and only adds messages. *)
Definition quiet (s s' : State W) : Prop :=
  clipboard s' = clipboard s /\ exists l, notices s' = (notices s ++ l)%list.

Definition keeps {A} (R : State W -> State W -> Prop) (m : M (State W) A) : Prop :=
  forall s, R s (fst (m s)).

End States.
End PasteStates.

(** ** Sessions *)

Module Sessions.
Import Js Dav Promise WebdavClient.

(** The server URL [connectInternal] keeps: trimmed, without one
    trailing slash. *)
Definition cleanedUrl (serverUrl : string) : string :=
  let t := trim serverUrl in
  if endsWithSlash t then dropLast t else t.

(** The client [connectInternal] makes for its arguments. *)
Definition clientFor (serverUrl username password : string) : WebDAVClient :=
  {| remoteURL := cleanedUrl serverUrl;
     authUsername := trim username;
     authPassword := trim password |}.

(** The session a [connect] that went through at time [now] leaves. *)
Definition newSession (serverUrl username password basePath : string) (now : Z)
  : WebDAVConnection :=
  {| client := clientFor serverUrl username password;
     connected := true;
     serverUrl := cleanedUrl serverUrl;
     basePath := basePath;
     username := username;
     lastConnected := now |}.

(** The arguments pass the two checks [connectInternal] starts with. *)
Definition usable (serverUrl username password : string) : bool :=
  truthy serverUrl && truthy username && truthy password
  && (startsWith serverUrl "http://" || startsWith serverUrl "https://").

(** What the one who awaits a settled promise gets. *)
Definition outcome (promise : Settled) : Result bool :=
  match promise with
  | Fulfilled result => Ok result
  | Rejected error => Throw error
  end.

Section Probe.
Context {W : Type} {E : Environment W}.

(** The probe of the server a [connect] runs through its new client,
    raced against the timer of thirty seconds. *)
Definition probe (this : MyWebDAVClient) (serverUrl username password basePath : string)
  : M (Net W) unit :=
  race 30000 (newError timeoutMessage)
    (testConnectionInternal this (clientFor serverUrl username password) basePath).

End Probe.

End Sessions.

(** ** The order of a listing *)

Module ListingOrder.
Import Js Dav TreeDataProvider.

(** A name with its letters [A-Z] in lower case. *)
Fixpoint foldCase (s : string) : string :=
  match s with
  | EmptyString => EmptyString
  | String c r => String (lowerChar c) (foldCase r)
  end.

Section Order.
Context {W : Type} {E : Environment W}.

(** [a] comes no later than [b] in the order of the names, letter case
    set aside. *)
Definition nameOrder (a b : string) : Prop :=
  (localeCompareBase (foldCase a) (foldCase b) <= 0)%Z.

(** Directories before files; within a kind, names in collation order,
    letter case set aside. *)
Definition listingOrder (a b : FileStat) : Prop :=
  (isDir a = true /\ isDir b = false)
  \/ (isDir a = isDir b /\ nameOrder (sortName a) (sortName b)).

(** The same order, read off the rows of the tree. *)
Definition itemOrder (x y : WebDAVTreeItem) : Prop :=
  (type x = directory /\ type y = file)
  \/ (type x = type y /\ nameOrder (label x) (label y)).

(** [a] may come before [b] according to the comparator of the sort. *)
Definition entryLe (a b : FileStat) : Prop := (compareEntries a b <= 0)%Z.

(** What [localeCompare] with [{ sensitivity: 'base' }] is taken to be:
    any two strings are comparable, the comparison is transitive, and it
    does not see the case of a letter. *)
Class Collation : Prop := {
  compare_total : forall a b,
    (localeCompareBase a b <= 0)%Z \/ (localeCompareBase b a <= 0)%Z;
  compare_trans : forall a b c,
    (localeCompareBase a b <= 0)%Z -> (localeCompareBase b c <= 0)%Z ->
    (localeCompareBase a c <= 0)%Z;
  compare_case : forall a b,
    localeCompareBase (foldCase a) (foldCase b) = localeCompareBase a b
}.

End Order.
End ListingOrder.

(** ** Concrete situations in the reference store *)

Module Scenario.
Import Js Dav Promise WebdavClient Store.

Definition davClient : WebDAVClient :=
  {| remoteURL := "https://dav.example.org";
     authUsername := "olivia";
     authPassword := "secret" |}.

Definition link : WebDAVConnection :=
  {| client := davClient; connected := true;
     serverUrl := "https://dav.example.org"; basePath := "/notes";
     username := "olivia"; lastConnected := 0 |}.

Definition session : MyWebDAVClient :=
  {| connection := Some link; connectionPromise := None |}.

(** [session] while a further [connect] is in flight, one that will be
    turned down. *)
Definition busySession : MyWebDAVClient :=
  {| connection := Some link;
     connectionPromise := Some (Rejected (newError "认证失败，请检查用户名和密码")) |}.

(** [/notes] with a file, an empty [archive] and a directory [sub]. *)
Definition notesTree : gmap string Node :=
  list_to_map
    [("/", DirNode); ("/notes", DirNode);
     ("/notes/todo.md", FileNode "- buy milk");
     ("/notes/archive", DirNode);
     ("/notes/sub", DirNode);
     ("/notes/sub/x.txt", FileNode "x")].

(** A file that bears the name of the directory it lies in. *)
Definition nestedTree : gmap string Node :=
  list_to_map
    [("/", DirNode); ("/a", DirNode); ("/a/b", DirNode);
     ("/a/b/b", FileNode "precious")].

(** Names that differ in the case of their first letter. *)
Definition caseTree : gmap string Node :=
  list_to_map
    [("/", DirNode); ("/case", DirNode);
     ("/case/C.txt", FileNode "c");
     ("/case/a.txt", FileNode "a");
     ("/case/B.txt", FileNode "b")].

(** A directory with the three entries of the listing example. *)
Definition mixedTree : gmap string Node :=
  list_to_map
    [("/", DirNode); ("/mixed", DirNode);
     ("/mixed/b.txt", FileNode "b");
     ("/mixed/A", DirNode);
     ("/mixed/a.txt", FileNode "a")].

Definition worldAt (t : gmap string Node) (time step : Z) : World :=
  {| tree := t; clock := time; latency := step; answer := Some "覆盖" |}.

Definition fileItem (p name : string) : TreeDataProvider.WebDAVTreeItem :=
  {| TreeDataProvider.id := p; TreeDataProvider.label := name;
     TreeDataProvider.type := TreeDataProvider.file; TreeDataProvider.path := p;
     TreeDataProvider.relativePath := p; TreeDataProvider.isDownloadable := true;
     TreeDataProvider.fileType := EmptyString; TreeDataProvider.size := 0;
     TreeDataProvider.isSpecialItem := false;
     TreeDataProvider.specialAction := EmptyString;
     TreeDataProvider.isRootDirectory := false;
     TreeDataProvider.isFromTopToolbar := false |}.

Definition directoryItem (p name : string) : TreeDataProvider.WebDAVTreeItem :=
  {| TreeDataProvider.id := p; TreeDataProvider.label := name;
     TreeDataProvider.type := TreeDataProvider.directory; TreeDataProvider.path := p;
     TreeDataProvider.relativePath := p; TreeDataProvider.isDownloadable := false;
     TreeDataProvider.fileType := EmptyString; TreeDataProvider.size := 0;
     TreeDataProvider.isSpecialItem := false;
     TreeDataProvider.specialAction := EmptyString;
     TreeDataProvider.isRootDirectory := false;
     TreeDataProvider.isFromTopToolbar := false |}.

(** A provider bound to [session], looking at base path [base]. *)
Definition provider (w : World) (base : string) (connected : bool)
    (clip : option TreeDataProvider.Clipboard) : TreeDataProvider.State World :=
  {| TreeDataProvider.net := {| world := w; calls := [] |};
     TreeDataProvider.webdavClient := Some session;
     TreeDataProvider.isConnected := connected;
     TreeDataProvider.currentBasePath := base;
     TreeDataProvider.treeItems := [];
     TreeDataProvider.clipboard := clip;
     TreeDataProvider.webdavClipboardNotEmpty :=
       match clip with Some _ => true | None => false end;
     TreeDataProvider.notices := [] |}.

Definition entry (i : TreeDataProvider.WebDAVTreeItem) (op : TreeDataProvider.Operation)
    (takenAt : Z) : TreeDataProvider.Clipboard :=
  {| TreeDataProvider.item := i; TreeDataProvider.operation := op;
     TreeDataProvider.sourcePath := TreeDataProvider.path i;
     TreeDataProvider.timestamp := takenAt |}.

Definition todo := fileItem "/notes/todo.md" "todo.md".
Definition archive := directoryItem "/notes/archive" "archive".
Definition sub := directoryItem "/notes/sub" "sub".

(** Ten minutes and one millisecond after a cut at time 0. *)
Definition staleCut (connected : bool) : TreeDataProvider.State World :=
  provider (worldAt notesTree 600001 5) "/notes" connected
    (Some (entry todo TreeDataProvider.cut 0)).

(** A copy taken at time 0 is pasted one second before it expires; every
    protocol call takes a second. *)
Definition slowCopy : TreeDataProvider.State World :=
  provider (worldAt notesTree 599000 1000) "/notes" true
    (Some (entry todo TreeDataProvider.copy 0)).

(** [sub] is on the clipboard and the paste goes to the base path. *)
Definition selfPaste : TreeDataProvider.State World :=
  provider (worldAt notesTree 1000 5) "/notes" true
    (Some (entry sub TreeDataProvider.copy 900)).

(** Nothing on the clipboard. *)
Definition idle (t : gmap string Node) (base : string) : TreeDataProvider.State World :=
  provider (worldAt t 1000 5) base true None.

(** The file [/a/b/b] has just been cut; the paste will go to [/a]. *)
Definition nestedCut : TreeDataProvider.State World :=
  fst (TreeDataProvider.cutItem (fileItem "/a/b/b" "b") (idle nestedTree "/")).

(** [nestedCut] once the entry has been pasted into [/a], the overwrite
    of [/a/b] confirmed. *)
Definition nestedPaste : TreeDataProvider.State World :=
  fst (TreeDataProvider.pasteItem 5 (Some (directoryItem "/a" "a")) nestedCut).

(** [session] after a further connect, with a trailing slash on the
    address and a trailing blank on the user name, has gone through; the
    base path [/fresh] did not exist. *)
Definition reconnected : Net World * MyWebDAVClient :=
  fst (connect "https://dav.example.org/" "olive " "secret" "/fresh"
         ({| world := worldAt notesTree 1000 5; calls := [] |}, session)).

(** The overlay of open documents, with nothing open. *)
Definition overlay : FileSystemProvider.State World :=
  {| FileSystemProvider.net := {| world := worldAt notesTree 1000 5; calls := [] |};
     FileSystemProvider.webdavClient := Some session;
     FileSystemProvider.virtualFiles := ∅;
     FileSystemProvider.tempDir := "/tmp/vscode-webdav-fs";
     FileSystemProvider.disk := {| files := ∅; readOnly := [] |} |}.


(** [/notes/todo.md] is opened, and then edited in the editor without
    being saved. *)
Definition todoUri : Uri :=
  FileSystemProvider.createVirtualFileUri "/notes/todo.md" "todo.md".

Definition opened : FileSystemProvider.State World :=
  fst (FileSystemProvider.openFile "/notes/todo.md" "todo.md" overlay).

Definition edited : FileSystemProvider.State World :=
  fst (FileSystemProvider.writeFile todoUri
         (FileSystemProvider.encode "- buy milk and eggs") false true opened).


(** The three entries of the listing example, in the order given. *)
Definition exampleEntries : list FileStat :=
  [ {| basename := "b.txt"; filename := "/mixed/b.txt"; type := "file";
       mime := EmptyString; size := 1 |};
    {| basename := "A"; filename := "/mixed/A"; type := "directory";
       mime := EmptyString; size := 0 |};
    {| basename := "a.txt"; filename := "/mixed/a.txt"; type := "file";
       mime := EmptyString; size := 1 |} ].

End Scenario.

(** ** What a step adds to the call log *)

Module CallLog.
Import Dav Promise WebdavClient.

Section Log.
Context {W : Type}.

(** From [n] to [n'] the log has only grown, by calls that satisfy [P]. *)
Definition adds (P : Call -> Prop) (n n' : Net W) : Prop :=
  exists l, calls n' = (calls n ++ l)%list /\ Forall P l.

(** Whatever the state it starts in and however it ends, [m] only adds
    calls that satisfy [P]; [netOf] finds the net in the state. *)
Definition issues {S A} (netOf : S -> Net W) (P : Call -> Prop) (m : M S A) : Prop :=
  forall s, adds P (netOf s) (netOf (fst (m s))).

End Log.

(** The calls that leave the remote tree as it is. *)
Definition reads (c : Call) : Prop := mutating c = false.

Definition isDelete (c : Call) : bool :=
  match c with DeleteFile _ => true | _ => false end.

Definition isPut (c : Call) : bool :=
  match c with PutFileContents _ _ _ => true | _ => false end.

End CallLog.

(** ** Texts looked for in error messages *)

Module Needles.
Import Js.

(** What [refresh] looks for in the message of a failed listing. *)
Definition refreshNeedles : list string :=
  ["401"; "认证失败"; "404"; "Not Found"; "timeout"; "ECONNREFUSED"; "ENOTFOUND"].

(** [p] contains none of the [needles]. *)
Definition mentionsNone (p : string) (needles : list string) : bool :=
  forallb (fun needle => negb (includes p needle)) needles.

End Needles.

(** ** The calls of the commands that create and copy *)

Module CommandCalls.
Import Js Dav Promise WebdavClient.

(** The calls [createFile] may issue for the new file [fullPath]: a look
    at its parent directory and the creation of that, the put of the
    empty file with [overwrite] on, and listings.  No look at the path
    itself, no read, no delete. *)
Definition createFileCall (fullPath : string) (c : Call) : Prop :=
  match c with
  | Stat p => p = getParentPath fullPath
  | CreateDirectory p recursive => p = getParentPath fullPath /\ recursive = true
  | PutFileContents p content overwrite =>
      p = fullPath /\ content = StringContent EmptyString /\ overwrite = true
  | GetDirectoryContents _ => True
  | GetFileContents _ _ => False
  | DeleteFile _ => False
  end.

(** [p] is [dir] or lies below it, going by the text of the paths. *)
Definition within (dir p : string) : Prop :=
  p = dir \/ String.prefix (dir +:+ "/") p = true
  \/ (dir = "/" /\ String.prefix "/" p = true).

(** Deletes stay within [dir]. *)
Definition deletesWithin (dir : string) (c : Call) : Prop :=
  match c with
  | DeleteFile p => within dir p
  | _ => True
  end.

End CommandCalls.

(** ** Texts *)

Module Texts.

(** Every byte of [s] is ASCII. *)
Definition isAscii (s : string) : bool :=
  forallb (fun c => Nat.ltb (nat_of_ascii c) 128) (list_ascii_of_string s).

(** The bytes of [s], as numbers. *)
Definition bytesOf (s : string) : list Z :=
  List.map (fun c => Z.of_nat (nat_of_ascii c)) (list_ascii_of_string s).

End Texts.

(** ** Unsaved documents of the overlay *)

Module Unsaved.
Import FileSystemProvider FileSystemReads.

(** How many of the open documents carry edits not yet saved. *)
Definition dirtyCount {W : Type} {E : Dav.Environment W} (s : State W) : nat :=
  List.length (List.filter isDirty (getOpenFiles s)).

End Unsaved.

(** ** More states of the reference environment *)

Module MoreScenario.
Import Js Dav Promise WebdavClient Store Scenario.

(** A site with a page named after the status code, and a hidden draft. *)
Definition siteTree : gmap string Node :=
  list_to_map
    [("/", DirNode); ("/site", DirNode);
     ("/site/index.md", FileNode "home");
     ("/site/404.md", FileNode "lost");
     ("/site/.draft.md", FileNode "wip")].

Definition index := fileItem "/site/index.md" "index.md".

(** The net before any call. *)
Definition quietNet (t : gmap string Node) : Net World :=
  {| world := worldAt t 1000 5; calls := [] |}.

(** What the client lists in [/site]. *)
Definition siteListing : list FileStat :=
  match snd (getDirectoryContents session "/site" (quietNet siteTree)) with
  | Ok entries => entries
  | _ => []
  end.

(** The edited document of [edited], saved, and closed without saving. *)
Definition saved : FileSystemProvider.State World :=
  fst (FileSystemProvider.saveFile todoUri "- buy milk and eggs" edited).

Definition closed : FileSystemProvider.State World :=
  fst (FileSystemProvider.delete todoUri edited).

(** [edited] on a disk that does not let the cache file of the
    document be written or removed. *)
Definition guarded : FileSystemProvider.State World :=
  FileSystemProvider.setDisk
    {| files := files (FileSystemProvider.disk edited);
       readOnly := [FileSystemProvider.getCachePath edited todoUri] |}
    edited.

(** [guarded] after its document has been closed. *)
Definition held : FileSystemProvider.State World :=
  fst (FileSystemProvider.delete todoUri guarded).

(** Two remote files named [a~] and [b_], opened under their names. *)
Definition uriA : Uri := FileSystemProvider.createVirtualFileUri "/notes/a~" "a~".
Definition uriB : Uri := FileSystemProvider.createVirtualFileUri "/notes/b_" "b_".

End MoreScenario.

(* ===================================================================== *)
(** * Facts about strings *)
(* ===================================================================== *)

Module StringFacts.
Import Js PathUtils NormalForm.

Lemma append_nil (b : string) : EmptyString +:+ b = b.
Proof. reflexivity. Qed.

Lemma append_cons (c : ascii) (a b : string) : String c a +:+ b = String c (a +:+ b).
Proof. reflexivity. Qed.

Ltac unfold_append := rewrite ?append_cons, ?append_nil in *.

Lemma prefix_append (a b : string) : String.prefix a (a +:+ b) = true.
Proof.
induction a as [|c a IH]; unfold_append; simpl.
- destruct b; reflexivity.
- destruct (ascii_dec c c) as [_|n]; [exact IH | congruence].
Qed.

Lemma prefix_split (a s : string) :
String.prefix a s = true -> exists b, s = a +:+ b.
Proof.
revert s. induction a as [|c a IH]; intros s H.
- exists s. reflexivity.
- destruct s as [|d s]; simpl in H; [discriminate|].
  destruct (ascii_dec c d) as [->|n]; [|discriminate].
  destruct (IH _ H) as [b ->]. exists b. reflexivity.
Qed.

Lemma substringFrom_append (a b : string) :
substringFrom (String.length a) (a +:+ b) = b.
Proof.
induction a as [|c a IH]; unfold_append; simpl; [destruct b; reflexivity| exact IH].
Qed.

Lemma length_append (a b : string) :
String.length (a +:+ b) = String.length a + String.length b.
Proof.
induction a as [|c a IH]; unfold_append; simpl; [reflexivity|]. rewrite IH. reflexivity.
Qed.

Lemma append_assoc (a b c : string) : (a +:+ b) +:+ c = a +:+ (b +:+ c).
Proof. induction a as [|x a IH]; unfold_append; [reflexivity|]. rewrite IH. reflexivity. Qed.

Lemma append_empty_r (a : string) : a +:+ EmptyString = a.
Proof. induction a as [|x a IH]; unfold_append; [reflexivity|]. rewrite IH. reflexivity. Qed.

Lemma noBackslash_replace (s : string) : noBackslash (replaceBackslashes s) = true.
Proof.
induction s as [|c s IH]; simpl; [reflexivity|].
rewrite IH, andb_true_r.
destruct (Ascii.eqb c "\") eqn:Hc; [reflexivity|]. rewrite Hc. reflexivity.
Qed.

Lemma collapse_cons (c : ascii) (r : string) :
collapseSlashes (String c r) =
if Ascii.eqb c "/" && headIsSlash r then collapseSlashes r
else String c (collapseSlashes r).
Proof.
simpl. destruct (Ascii.eqb c "/"); [|reflexivity].
destruct r as [|d r]; [reflexivity|]. simpl.
destruct (Ascii.eqb d "/"); reflexivity.
Qed.

Lemma headIsSlash_collapse (s : string) :
headIsSlash (collapseSlashes s) = headIsSlash s.
Proof.
induction s as [|c s IH]; [reflexivity|].
rewrite collapse_cons.
destruct (Ascii.eqb c "/") eqn:Hc; simpl; [|reflexivity].
destruct (headIsSlash s) eqn:Hs.
- rewrite ?IH, ?Hc. reflexivity.
- reflexivity.
Qed.

Lemma tidy_collapse (s : string) :
noBackslash s = true -> tidy (collapseSlashes s) = true.
Proof.
induction s as [|c s IH]; [reflexivity|].
intros H. simpl in H. apply andb_true_iff in H as [Hc Hs].
rewrite collapse_cons.
destruct (Ascii.eqb c "/" && headIsSlash s) eqn:Hd.
- apply IH, Hs.
- simpl. rewrite Hc, (IH Hs), headIsSlash_collapse, andb_true_r. simpl.
  destruct (Ascii.eqb c "/"); [|reflexivity].
  simpl in Hd. rewrite Hd. reflexivity.
Qed.

Lemma tidy_stripLeading (s : string) :
tidy s = true ->
tidy (stripLeadingSlash s) = true /\ headIsSlash (stripLeadingSlash s) = false.
Proof.
destruct s as [|c s]; simpl; [auto|].
intros H. destruct (Ascii.eqb c "/") eqn:Hc.
- apply andb_true_iff in H as [H Hs]. apply andb_true_iff in H as [_ H].
  split; [exact Hs|]. apply negb_true_iff in H. exact H.
- split; [|exact Hc]. simpl. rewrite Hc. exact H.
Qed.

Lemma tidy_cons (c : ascii) (r : string) :
tidy (String c r) =
negb (Ascii.eqb c "\")
&& (if Ascii.eqb c "/" then negb (headIsSlash r) else true)
&& tidy r.
Proof. reflexivity. Qed.

Lemma stripTrailing_cons (c d : ascii) (s : string) :
stripTrailingSlash (String c (String d s)) = String c (stripTrailingSlash (String d s)).
Proof. reflexivity. Qed.

Lemma endsWithSlash_cons (c d : ascii) (s : string) :
endsWithSlash (String c (String d s)) = endsWithSlash (String d s).
Proof. reflexivity. Qed.

Lemma head_stripTrailing (s : string) :
headIsSlash s = false -> headIsSlash (stripTrailingSlash s) = false.
Proof.
destruct s as [|c s]; [auto|]. intros Hc.
destruct s as [|d s]; [|rewrite stripTrailing_cons; exact Hc].
simpl in *. rewrite Hc. simpl. exact Hc.
Qed.

(** In a tidy string a slash is followed by something other than a
  slash, so stripping one trailing slash cannot expose another. *)
Lemma tidy_stripTrailing (s : string) :
tidy s = true ->
tidy (stripTrailingSlash s) = true /\ endsWithSlash (stripTrailingSlash s) = false
/\ (headIsSlash s = false -> headIsSlash (stripTrailingSlash s) = false)
/\ (stripTrailingSlash s = EmptyString -> s = EmptyString \/ s = "/").
Proof.
induction s as [|c s IH]; [simpl; auto|].
intros H. rewrite tidy_cons in H.
apply andb_true_iff in H as [H Hs]. apply andb_true_iff in H as [Hb Hh].
destruct s as [|d s].
- simpl. destruct (Ascii.eqb c "/") eqn:Hc.
  + apply Ascii.eqb_eq in Hc. subst c. simpl. auto.
  + simpl. rewrite Hb, Hc. simpl. repeat split; auto; discriminate.
- rewrite stripTrailing_cons.
  destruct (IH Hs) as (IH1 & IH2 & IH3 & IH4).
  repeat split.
  + rewrite tidy_cons, Hb, IH1, andb_true_r, andb_true_l.
    destruct (Ascii.eqb c "/"); [|reflexivity].
    apply negb_true_iff in Hh. rewrite (IH3 Hh). reflexivity.
  + destruct (stripTrailingSlash (String d s)) as [|e t] eqn:Ht.
    * destruct (IH4 eq_refl) as [Hd|Hd]; [discriminate|].
      injection Hd as -> ->. simpl.
      destruct (Ascii.eqb c "/"); [discriminate Hh | reflexivity].
    * rewrite endsWithSlash_cons. exact IH2.
  + intros Hc. exact Hc.
  + discriminate.
Qed.

Lemma normal_replaceChain (s : string) : normal (replaceChain s) = true.
Proof.
unfold replaceChain, normal.
pose proof (tidy_collapse _ (noBackslash_replace s)) as H1.
destruct (tidy_stripLeading _ H1) as [H2 H3].
destruct (tidy_stripTrailing _ H2) as (H4 & H5 & H6 & _).
rewrite H4, H5, (H6 H3). reflexivity.
Qed.

Lemma tidy_noBackslash (s : string) : tidy s = true -> replaceBackslashes s = s.
Proof.
induction s as [|c s IH]; simpl; [reflexivity|].
intros H. apply andb_true_iff in H as [H Hs]. apply andb_true_iff in H as [Hb _].
apply negb_true_iff in Hb. rewrite Hb, (IH Hs). reflexivity.
Qed.

Lemma tidy_collapse_id (s : string) : tidy s = true -> collapseSlashes s = s.
Proof.
induction s as [|c s IH]; [reflexivity|].
intros H. simpl in H.
apply andb_true_iff in H as [H Hs]. apply andb_true_iff in H as [_ Hh].
rewrite collapse_cons, (IH Hs).
destruct (Ascii.eqb c "/"); [|reflexivity].
apply negb_true_iff in Hh. rewrite Hh. reflexivity.
Qed.

Lemma stripLeading_id (s : string) : headIsSlash s = false -> stripLeadingSlash s = s.
Proof. destruct s as [|c s]; simpl; [auto|]. intros ->. reflexivity. Qed.

Lemma stripTrailing_id (s : string) : endsWithSlash s = false -> stripTrailingSlash s = s.
Proof.
induction s as [|c s IH]; simpl; [reflexivity|].
destruct s as [|d s]; [intros ->; reflexivity|].
intros H. rewrite (IH H). reflexivity.
Qed.

Lemma normal_parts (s : string) :
normal s = true -> tidy s = true /\ headIsSlash s = false /\ endsWithSlash s = false.
Proof.
unfold normal. intros H.
apply andb_true_iff in H as [H He]. apply andb_true_iff in H as [Ht Hh].
apply negb_true_iff in He, Hh. auto.
Qed.

(** The replace chain is the identity on its own results. *)
Lemma replaceChain_normal (s : string) : normal s = true -> replaceChain s = s.
Proof.
intros H. destruct (normal_parts _ H) as (Ht & Hh & He).
unfold replaceChain.
rewrite (tidy_noBackslash _ Ht), (tidy_collapse_id _ Ht),
  (stripLeading_id _ Hh), (stripTrailing_id _ He).
reflexivity.
Qed.

Lemma replaceChain_slash_normal (s : string) :
normal s = true -> s <> EmptyString -> replaceChain ("/" +:+ s) = s.
Proof.
intros H Hne. destruct (normal_parts _ H) as (Ht & Hh & He).
unfold replaceChain.
unfold_append.
assert (Htidy : tidy (String "/" s) = true).
{ simpl. rewrite Hh, Ht. reflexivity. }
rewrite (tidy_noBackslash _ Htidy), (tidy_collapse_id _ Htidy).
simpl. apply stripTrailing_id, He.
Qed.

Lemma tidy_suffix (a s : string) : tidy (a +:+ s) = true -> tidy s = true.
Proof.
induction a as [|c a IH]; unfold_append; simpl; [auto|].
intros H. apply andb_true_iff in H as [_ H]. apply IH, H.
Qed.

Lemma ends_suffix (a s : string) :
s <> EmptyString -> endsWithSlash (a +:+ s) = endsWithSlash s.
Proof.
intros Hs. induction a as [|c a IH]; unfold_append; simpl; [reflexivity|].
destruct (a +:+ s) as [|d t] eqn:Hd.
- destruct a; unfold_append; [contradiction | discriminate].
- exact IH.
Qed.

(** What follows a slash inside a normal string is normal, and not empty. *)
Lemma normal_after_slash (a b : string) :
normal (a +:+ "/" +:+ b) = true -> b <> EmptyString /\ normal b = true.
Proof.
intros H. destruct (normal_parts _ H) as (Ht & _ & He).
apply tidy_suffix in Ht. unfold_append. simpl in Ht.
apply andb_true_iff in Ht as [Hh Ht]. apply negb_true_iff in Hh.
rewrite ends_suffix in He by discriminate.
destruct b as [|c b]; [simpl in He; discriminate|].
split; [discriminate|].
unfold normal. rewrite Ht, Hh. 
change (endsWithSlash (String "/" (String c b))) with (endsWithSlash (String c b)) in He.
rewrite He. reflexivity.
Qed.

End StringFacts.

Module PathFacts.
Import Js PathUtils NormalForm StringFacts.

Lemma normal_not_slash (s : string) : normal s = true -> String.eqb s "/" = false.
Proof.
intros H. apply String.eqb_neq. intros ->. discriminate H.
Qed.

Lemma append_longer (a b : string) : a <> a +:+ "/" +:+ b.
Proof.
intros H. apply (f_equal String.length) in H.
rewrite !length_append in H. simpl in H. lia.
Qed.

Lemma startsWith_self_slash (a : string) : startsWith a (a +:+ "/") = false.
Proof.
unfold startsWith. destruct (String.prefix (a +:+ "/") a) eqn:H; [|reflexivity].
apply prefix_split in H as [b H]. rewrite append_assoc in H.
exfalso. exact (append_longer _ _ H).
Qed.

Lemma startsWith_slash_iff (s a : string) :
startsWith s (a +:+ "/") = true <-> exists rest, s = a +:+ "/" +:+ rest.
Proof.
unfold startsWith. split.
- intros H. apply prefix_split in H as [b H]. exists b. rewrite H. apply append_assoc.
- intros [rest ->]. rewrite <- append_assoc. apply prefix_append.
Qed.

Lemma substringFrom_after_slash (a rest : string) :
substringFrom (String.length a + 1) (a +:+ "/" +:+ rest) = rest.
Proof.
rewrite <- append_assoc.
replace (String.length a + 1) with (String.length (a +:+ "/"))
  by (rewrite length_append; reflexivity).
apply substringFrom_append.
Qed.

(** The four cases of [getRelativePathFromBase], on the two arguments
  after the replace chain. *)
Lemma getRelativePathFromBase_cases (fullPath basePath : string) :
let A := replaceChain fullPath in
let B := replaceChain basePath in
let r := getRelativePathFromBase fullPath basePath in
(B = EmptyString /\ r = A)
\/ (B <> EmptyString /\ exists rest, A = B +:+ "/" +:+ rest /\ r = rest)
\/ (B <> EmptyString /\ A = B /\ r = EmptyString)
\/ (B <> EmptyString /\ A <> B /\ (forall rest, A <> B +:+ "/" +:+ rest) /\ r = A).
Proof.
intros A B r. unfold r, getRelativePathFromBase. fold A B.
rewrite (normal_not_slash B (normal_replaceChain basePath)), orb_false_r.
destruct (String.eqb B EmptyString) eqn:HB.
- left. apply String.eqb_eq in HB. auto.
- apply String.eqb_neq in HB. right.
  destruct (startsWith A (B +:+ "/")) eqn:Hp.
  + left. split; [exact HB|].
    apply startsWith_slash_iff in Hp as [rest Hrest]. exists rest.
    split; [exact Hrest|]. rewrite Hrest. apply substringFrom_after_slash.
  + right. destruct (String.eqb A B) eqn:HAB.
    * left. apply String.eqb_eq in HAB. auto.
    * right. apply String.eqb_neq in HAB. repeat split; auto.
      intros rest Hrest.
      assert (startsWith A (B +:+ "/") = true) by (apply startsWith_slash_iff; eauto).
      congruence.
Qed.

Lemma getRelativePathFromBase_normal (fullPath basePath : string) :
normal (getRelativePathFromBase fullPath basePath) = true.
Proof.
destruct (getRelativePathFromBase_cases fullPath basePath)
  as [[_ ->] | [(_ & rest & HA & ->) | [(_ & _ & ->) | (_ & _ & _ & ->)]]].
- apply normal_replaceChain.
- pose proof (normal_replaceChain fullPath) as H. rewrite HA in H.
  apply normal_after_slash in H. apply H.
- reflexivity.
- apply normal_replaceChain.
Qed.

Lemma normalizeWebDAVPath_empty (basePath : string) :
normalizeWebDAVPath EmptyString basePath = basePath.
Proof.
unfold normalizeWebDAVPath. simpl.
destruct (String.eqb basePath "/") eqn:H; [|reflexivity].
apply String.eqb_eq in H. auto.
Qed.

Lemma normalizeWebDAVPath_normal (p basePath : string) :
normal p = true -> p <> EmptyString -> normalizeWebDAVPath p basePath = "/" +:+ p.
Proof.
intros Hn Hp. unfold normalizeWebDAVPath, truthy.
apply String.eqb_neq in Hp. rewrite Hp. simpl.
rewrite (replaceChain_normal _ Hn), Hp. reflexivity.
Qed.

Lemma round_trip_characterised (absolutePath basePath : string) :
let r := getRelativePathFromBase absolutePath basePath in
getRelativePathFromBase absolutePath (normalizeWebDAVPath r basePath) = r
<-> (r = EmptyString \/ replaceChain absolutePath = r +:+ "/" +:+ r).
Proof.
intros r.
destruct (String.eqb r EmptyString) eqn:Hr.
- apply String.eqb_eq in Hr. rewrite Hr, normalizeWebDAVPath_empty.
  fold r. rewrite Hr. split; auto.
- apply String.eqb_neq in Hr.
  pose proof (getRelativePathFromBase_normal absolutePath basePath) as Hn. fold r in Hn.
  rewrite (normalizeWebDAVPath_normal _ _ Hn Hr).
  unfold getRelativePathFromBase at 1.
  rewrite (replaceChain_slash_normal _ Hn Hr).
  rewrite (normal_not_slash _ Hn), orb_false_r.
  apply String.eqb_neq in Hr. rewrite Hr. apply String.eqb_neq in Hr.
  set (A := replaceChain absolutePath).
  destruct (startsWith A (r +:+ "/")) eqn:Hp.
  + apply startsWith_slash_iff in Hp as [rest Hrest].
    rewrite Hrest, substringFrom_after_slash. split.
    * intros ->. auto.
    * intros [H|H]; [contradiction|].
      apply (f_equal (substringFrom (String.length r + 1))) in H.
      rewrite !substringFrom_after_slash in H. exact H.
  + split.
    * intros H. exfalso. destruct (String.eqb A r) eqn:HA; [congruence|].
      apply String.eqb_neq in HA. congruence.
    * intros [H|H]; [contradiction|].
      assert (startsWith A (r +:+ "/") = true) by (apply startsWith_slash_iff; eauto).
      congruence.
Qed.

End PathFacts.

(* ===================================================================== *)
(** * Facts about promises *)
(* ===================================================================== *)

Module PromiseFacts.
Import Dav Promise.

Section Facts.
Context {S : Type}.

Lemma bind_ok {A B} (m : M S A) (k : A -> M S B) (s s' : S) (b : B) :
  bind m k s = (s', Ok b) -> exists s1 a, m s = (s1, Ok a) /\ k a s1 = (s', Ok b).
Proof.
  unfold bind. destruct (m s) as [s1 [a|e|]]; try discriminate. eauto.
Qed.

Lemma bind_returns {A B} (m : M S A) (k : A -> M S B) :
  (forall s, snd (m s) <> OutOfFuel) -> (forall a s, snd (k a s) <> OutOfFuel) ->
  forall s, snd (bind m k s) <> OutOfFuel.
Proof.
  intros Hm Hk s. unfold bind. specialize (Hm s).
  destruct (m s) as [s1 [a|e|]]; simpl in *;
    [apply Hk | discriminate | exfalso; apply Hm; reflexivity].
Qed.

Lemma tryCatch_returns {A} (m : M S A) (h : JsError -> M S A) :
  (forall s, snd (m s) <> OutOfFuel) -> (forall e s, snd (h e s) <> OutOfFuel) ->
  forall s, snd (tryCatch m h s) <> OutOfFuel.
Proof.
  intros Hm Hh s. unfold tryCatch. specialize (Hm s).
  destruct (m s) as [s1 [a|e|]]; simpl in *; [discriminate | apply Hh | exact Hm].
Qed.

Lemma zoom_returns {T A} (get : S -> T) (set : T -> S -> S) (m : M T A) :
  (forall t, snd (m t) <> OutOfFuel) -> forall s, snd (zoom get set m s) <> OutOfFuel.
Proof.
  intros Hm s. unfold zoom. specialize (Hm (get s)).
  destruct (m (get s)) as [t r]. exact Hm.
Qed.

End Facts.
End PromiseFacts.

(* ===================================================================== *)
(** * The clipboard state machine *)
(* ===================================================================== *)

Module ClipboardFacts.
Import Js Dav Promise WebdavClient TreeDataProvider.
Import NormalForm StringFacts PathFacts PasteStates.

Section Facts.
Context {W : Type} {E : Environment W}.

Lemma remote_stat_eq (client : MyWebDAVClient) (p : string) (s : State W) :
  remote (stat client p) s =
  match connection client with
  | None => (s, Throw notConnected)
  | Some conn =>
      let (w', r) := dav_stat (WebdavClient.client conn) p (world (net s)) in
      (afterCall (Stat p) w' s,
       match r with inl e => Throw e | inr a => Ok a end)
  end.
Proof.
  unfold remote, zoom, stat. destruct (connection client) as [conn|].
  - unfold tryCatch, invoke, throw, afterCall.
    destruct (dav_stat (WebdavClient.client conn) p (world (net s))) as [w' [e|a]];
      reflexivity.
  - unfold throw. destruct s as [[]]; reflexivity.
Qed.

Lemma updateContext_empty (s : State W) :
  clipboard s = None -> updateContext s = (setContext false s, Ok tt).
Proof.
  intros H. unfold updateContext, getClipboardStatus, bind, gets. rewrite H. reflexivity.
Qed.

Lemma sourceStillExists_eq (client : MyWebDAVClient) (clip : Clipboard) (s : State W) :
  sourceStillExists client clip s =
  match connection client with
  | None => (missingSource clip s, Ok false)
  | Some conn =>
      let (w', r) :=
        dav_stat (WebdavClient.client conn) (sourcePath clip) (world (net s)) in
      match r with
      | inl _ => (missingSource clip (afterCall (Stat (sourcePath clip)) w' s), Ok false)
      | inr _ => (afterCall (Stat (sourcePath clip)) w' s, Ok true)
      end
  end.
Proof.
  unfold sourceStillExists, tryCatch, bind. rewrite remote_stat_eq.
  destruct (connection client) as [conn|].
  - destruct (dav_stat _ _ _) as [w' [e|a]]; reflexivity.
  - reflexivity.
Qed.

(** One of the two self-reference tests of [pasteItem] fires. *)
Lemma self_reference_tests (target : option WebDAVTreeItem) (clip : Clipboard)
    (s s1 : State W) :
  currentBasePath s1 = currentBasePath s ->
  (newPathOf s target clip = sourcePath clip
   \/ (type (item clip) = directory
       /\ exists rest, newPathOf s target clip = sourcePath clip +:+ "/" +:+ rest)) ->
  String.eqb (sourcePath clip) (newPathOf s1 target clip) = true
  \/ ItemType_eqb (type (item clip)) directory
     && startsWith (newPathOf s1 target clip) (sourcePath clip +:+ "/") = true.
Proof.
  intros Hbase Hself. unfold newPathOf in *. rewrite Hbase.
  destruct Hself as [Heq | [Hdir [rest Hrest]]].
  - left. rewrite Heq. apply String.eqb_refl.
  - right. rewrite Hdir. simpl ItemType_eqb.
    apply startsWith_slash_iff. eauto.
Qed.

Lemma pasteItem_unfold (fuel : nat) (target : option WebDAVTreeItem) (s : State W) :
  pasteItem fuel target s =
  match isConnected s, webdavClient s with
  | true, Some client =>
      match clipboard s with
      | None => (notify (Warning "剪贴板为空") s, Ok tt)
      | Some clip =>
          if expired (Date_now (world (net s))) clip then (expiredClipboard s, Ok tt)
          else
            match sourceStillExists client clip s with
            | (s1, Ok true) =>
                (if String.eqb (sourcePath clip) (newPathOf s1 target clip)
                 then showWarningMessage "不能将项目复制到自身"
                 else if ItemType_eqb (type (item clip)) directory
                         && startsWith (newPathOf s1 target clip) (sourcePath clip +:+ "/")
                      then showWarningMessage "不能将目录复制到自身的子目录中"
                      else performPaste fuel client clip (newPathOf s1 target clip)
                             (NodePath.basename (sourcePath clip))) s1
            | (s1, Ok false) => (s1, Ok tt)
            | (s1, Throw e) => (s1, Throw e)
            | (s1, OutOfFuel) => (s1, OutOfFuel)
            end
      end
  | _, _ => (notify (ErrorMessage "未连接到WebDAV服务器") s, Ok tt)
  end.
Proof.
  unfold pasteItem, bind, now, gets. cbv beta iota.
  destruct (isConnected s); [|reflexivity].
  destruct (webdavClient s) as [client|]; [|reflexivity].
  destruct (clipboard s) as [clip|]; [|reflexivity].
  destruct (expired _ clip); [reflexivity|].
  destruct (sourceStillExists client clip s) as [s1 [[|]|e|]]; reflexivity.
Qed.


Lemma setNet_net (s : State W) : setNet (net s) s = s.
Proof. destruct s; reflexivity. Qed.


(** C4, as amended.  Take a clipboard entry whose timestamp is [T] and a
    paste attempted at a time later than [T] plus the ten-minute window.
    While the provider is connected and has its client, the paste is
    turned down with the expiry warning, the clipboard is emptied, and
    the world and the call log are what they were: no remote operation.
    When the provider is not connected (or has no client) the paste is
    turned down just the same without any remote operation, but the
    clipboard entry is kept. *)
Theorem pasteItem_expired (fuel : nat) (target : option WebDAVTreeItem)
    (s : State W) (clip : Clipboard) :
  clipboard s = Some clip ->
  (Date_now (world (net s)) > timestamp clip + expiry)%Z ->
  let s' := fst (pasteItem fuel target s) in
  snd (pasteItem fuel target s) = Ok tt
  /\ net s' = net s
  /\ (isConnected s = true -> webdavClient s <> None ->
      clipboard s' = None
      /\ notices s' = (notices s ++ [Warning "剪贴板内容已过期"])%list)
  /\ (isConnected s = false \/ webdavClient s = None ->
      clipboard s' = Some clip
      /\ notices s' = (notices s ++ [ErrorMessage "未连接到WebDAV服务器"])%list).
Proof.
  intros Hclip Hlate s'. subst s'. rewrite pasteItem_unfold, Hclip.
  assert (Hexp : expired (Date_now (world (net s))) clip = true).
  { unfold expired. apply Z.gtb_lt. lia. }
  rewrite Hexp.
  destruct (isConnected s); [destruct (webdavClient s) as [client|]|]; simpl;
    (split; [reflexivity|]); (split; [reflexivity|]);
    (split; [intros Hc Hw | intros [Hc|Hw]]); try discriminate; try congruence; auto.
Qed.


(** ** Steps that leave the clipboard alone *)

#[local] Abbreviation quietly := (keeps (@quiet W)).

Lemma quiet_refl (s : State W) : quiet s s.
Proof. split; [reflexivity|]. exists []. symmetry. apply app_nil_r. Qed.

Lemma quiet_trans (s1 s2 s3 : State W) : quiet s1 s2 -> quiet s2 s3 -> quiet s1 s3.
Proof.
  intros [Hc1 [l1 Hn1]] [Hc2 [l2 Hn2]]. split; [congruence|].
  exists (l1 ++ l2)%list. rewrite Hn2, Hn1. symmetry. apply app_assoc.
Qed.

Lemma keeps_ret {A} (a : A) : quietly (ret a).
Proof. intros s. apply quiet_refl. Qed.

Lemma keeps_throw {A} (e : JsError) : quietly (@throw (State W) A e).
Proof. intros s. apply quiet_refl. Qed.

Lemma keeps_gets {A} (f : State W -> A) : quietly (gets f).
Proof. intros s. apply quiet_refl. Qed.

Lemma keeps_outOfFuel {A} : quietly (fun s : State W => (s, @OutOfFuel A)).
Proof. intros s. apply quiet_refl. Qed.

Lemma keeps_bind {A B} (m : M (State W) A) (k : A -> M (State W) B) :
  quietly m -> (forall a, quietly (k a)) -> quietly (bind m k).
Proof.
  intros Hm Hk s. unfold bind. specialize (Hm s).
  destruct (m s) as [s1 [a|e|]]; simpl in *; auto.
  eapply quiet_trans; [exact Hm | apply Hk].
Qed.

Lemma keeps_tryCatch {A} (m : M (State W) A) (h : JsError -> M (State W) A) :
  quietly m -> (forall e, quietly (h e)) -> quietly (tryCatch m h).
Proof.
  intros Hm Hh s. unfold tryCatch. specialize (Hm s).
  destruct (m s) as [s1 [a|e|]]; simpl in *; auto.
  eapply quiet_trans; [exact Hm | apply Hh].
Qed.

Lemma keeps_forEach {A} (l : list A) (body : A -> M (State W) unit) :
  (forall x, quietly (body x)) -> quietly (forEach l body).
Proof.
  intros Hb. induction l as [|x l IH]; simpl.
  - apply keeps_ret.
  - apply keeps_bind; auto.
Qed.

Lemma keeps_remote {A} (m : M (Net W) A) : quietly (remote m).
Proof.
  intros s. unfold remote, zoom. destruct (m (net s)) as [n r]. simpl.
  split; [reflexivity|]. exists []. symmetry. apply app_nil_r.
Qed.

Lemma keeps_askOverwrite (m : string) : quietly (askOverwrite m).
Proof.
  intros s. unfold askOverwrite. destruct (showModalWarning _ _) as [w' c]. simpl.
  split; [reflexivity|]. exists []. symmetry. apply app_nil_r.
Qed.

Lemma keeps_notify (n : Notice) : quietly (modify (notify n)).
Proof. intros s. simpl. split; [reflexivity|]. exists [n]. reflexivity. Qed.

Lemma keeps_setTreeItems (l : list WebDAVTreeItem) : quietly (modify (setTreeItems l)).
Proof. intros s. simpl. split; [reflexivity|]. exists []. symmetry. apply app_nil_r. Qed.

Lemma keeps_disconnect : quietly (modify (@disconnect W)).
Proof. intros s. simpl. split; [reflexivity|]. exists []. symmetry. apply app_nil_r. Qed.

Create HintDb quiet.
#[local] Hint Resolve keeps_ret keeps_throw keeps_gets keeps_outOfFuel keeps_remote
  keeps_askOverwrite keeps_notify keeps_setTreeItems keeps_disconnect : quiet.
#[local] Hint Extern 2 (quietly (bind _ _)) => apply keeps_bind; [|intros] : quiet.
#[local] Hint Extern 2 (quietly (tryCatch _ _)) => apply keeps_tryCatch; [|intros] : quiet.
#[local] Hint Extern 2 (quietly (forEach _ _)) => apply keeps_forEach; intros : quiet.
#[local] Hint Extern 3 (quietly (if ?b then _ else _)) => destruct b : quiet.
#[local] Hint Extern 3 (quietly (match ?x with _ => _ end)) => destruct x : quiet.

Ltac quiet_step := unfold showErrorMessage, showWarningMessage, showInformationMessage;
  auto 20 with quiet.

Lemma keeps_readSource (client : MyWebDAVClient) (sourcePath : string) (op : Operation) :
  quietly (readSource client sourcePath op).
Proof. unfold readSource. quiet_step. Qed.

Lemma keeps_copyOrMoveFile (sourcePath targetPath : string) (op : Operation) :
  quietly (copyOrMoveFile sourcePath targetPath op).
Proof.
  unfold copyOrMoveFile. pose proof keeps_readSource. quiet_step.
Qed.

Lemma keeps_copyOrMoveDirectory (fuel : nat) (sourcePath targetPath : string)
    (op : Operation) :
  quietly (copyOrMoveDirectory fuel sourcePath targetPath op).
Proof.
  revert sourcePath targetPath.
  induction fuel as [|fuel IH]; intros sourcePath targetPath; simpl.
  - apply keeps_outOfFuel.
  - pose proof keeps_copyOrMoveFile. quiet_step.
Qed.

Lemma keeps_clearDestination (fuel : nat) (client : MyWebDAVClient)
    (newPath targetName : string) :
  quietly (clearDestination fuel client newPath targetName).
Proof. unfold clearDestination. quiet_step. Qed.

Lemma keeps_getRemoteFiles (path : string) : quietly (getRemoteFiles path).
Proof. unfold getRemoteFiles. quiet_step. Qed.

Lemma keeps_refresh : quietly (@refresh W E).
Proof. unfold refresh. pose proof keeps_getRemoteFiles. quiet_step. Qed.


(** [updateContext] shows nothing, never throws, and touches the
    clipboard only to empty it. *)
Lemma updateContext_spec (s : State W) :
  snd (updateContext s) = Ok tt
  /\ notices (fst (updateContext s)) = notices s
  /\ net (fst (updateContext s)) = net s
  /\ (clipboard (fst (updateContext s)) = clipboard s
      \/ clipboard (fst (updateContext s)) = None).
Proof.
  unfold updateContext, getClipboardStatus, bind, gets, now.
  destruct (clipboard s) as [c|] eqn:Hc; simpl; [|auto].
  destruct (expired _ c); simpl; auto.
Qed.

(** [updateContext] empties the clipboard exactly when its entry is
    expired by the clock of the moment. *)
Lemma updateContext_clipboard (s : State W) (clip : Clipboard) :
  clipboard s = Some clip ->
  clipboard (fst (updateContext s))
  = if expired (Date_now (world (net s))) clip then None else Some clip.
Proof.
  intros Hc. unfold updateContext, getClipboardStatus, bind, gets, now. rewrite Hc.
  simpl. destruct (expired _ clip); simpl; [reflexivity | exact Hc].
Qed.

Lemma quiet_In (s s' : State W) (n : Notice) (l : list Notice) :
  notices s' = (notices s ++ l)%list -> In n l ->
  forall s'', quiet s' s'' ->
  exists new, notices s'' = (notices s ++ new)%list /\ In n new.
Proof.
  intros Hn Hin s'' [_ [l' Hl']]. exists (l ++ l')%list.
  split; [rewrite Hl', Hn; symmetry; apply app_assoc | apply in_or_app; auto].
Qed.

Lemma keeps_copyOrMoveEntry (fuel : nat) (clip : Clipboard) (newPath : string) :
  quietly (copyOrMoveEntry fuel clip newPath).
Proof.
  unfold copyOrMoveEntry.
  destruct (type (item clip)); [apply keeps_copyOrMoveFile | apply keeps_copyOrMoveDirectory].
Qed.

Lemma getDirectoryContents_returns (client : MyWebDAVClient) (p : string) (n : Net W) :
  snd (getDirectoryContents client p n) <> OutOfFuel.
Proof.
  unfold getDirectoryContents. destruct (connection client) as [conn|]; [|discriminate].
  unfold tryCatch, bind, invoke.
  destruct (dav_getDirectoryContents _ _ _) as [w' [e|l]]; simpl; [|discriminate].
  repeat match goal with |- context [if ?b then _ else _] => destruct b end;
    discriminate.
Qed.

Lemma getRemoteFiles_returns (p : string) (s : State W) :
  snd (getRemoteFiles p s) <> OutOfFuel.
Proof.
  unfold getRemoteFiles, bind, gets. destruct (webdavClient s) as [client|]; [|discriminate].
  unfold tryCatch, remote, zoom.
  pose proof (getDirectoryContents_returns client p (net s)) as H.
  destruct (getDirectoryContents client p (net s)) as [n [l|e|]]; simpl in *;
    [discriminate | discriminate | contradiction].
Qed.

(** [refresh] always returns: whatever goes wrong ends up in the tree. *)
Lemma refresh_returns (s : State W) : snd (refresh s) = Ok tt.
Proof.
  unfold refresh, bind, gets. cbv beta iota.
  destruct (isConnected s); cbn [negb]; cbv iota; [|reflexivity].
  destruct (webdavClient s) as [client|]; [|reflexivity].
  unfold tryCatch. cbv beta iota.
  pose proof (getRemoteFiles_returns (currentBasePath s) s) as H.
  destruct (getRemoteFiles (currentBasePath s) s) as [s1 [files|e|]]; simpl in *.
  - destruct (Nat.eqb _ 0); reflexivity.
  - repeat match goal with |- context [if ?b then _ else _] => destruct b end;
      reflexivity.
  - contradiction.
Qed.

(** After a copy or move that went through: the message is shown, and
    the clipboard is emptied for a cut, and for a copy only when the
    context update finds the entry expired. *)
Lemma finishPaste_spec (clip : Clipboard) (s : State W) :
  clipboard s = Some clip ->
  snd (finishPaste clip s) = Ok tt
  /\ (exists l, notices (fst (finishPaste clip s))
                = (notices s ++ Information (pastedMessage clip) :: l)%list)
  /\ (operation clip = cut -> clipboard (fst (finishPaste clip s)) = None)
  /\ (clipboard (fst (finishPaste clip s)) = Some clip
      \/ clipboard (fst (finishPaste clip s)) = None)
  /\ (clipboard (fst (finishPaste clip s)) = None ->
      operation clip = cut \/ expired (Date_now (world (net s))) clip = true).
Proof.
  intros Hclip. unfold finishPaste.
  set (s1 := notify (Information (pastedMessage clip)) s).
  assert (Hgo : forall s2 : State W,
            notices s2 = notices s1 ->
            snd (bind updateContext (fun _ => refresh) s2) = Ok tt
            /\ (exists l, notices (fst (bind updateContext (fun _ => refresh) s2))
                          = (notices s1 ++ l)%list)
            /\ clipboard (fst (bind updateContext (fun _ => refresh) s2))
               = clipboard (fst (updateContext s2))).
  { intros s2 Hn2. unfold bind.
    destruct (updateContext_spec s2) as (Hr & Hn3 & _ & Hc3).
    destruct (updateContext s2) as [s3 r3]. simpl in Hr, Hn3, Hc3. subst r3.
    pose proof (keeps_refresh s3) as [Hc4 [l Hn4]].
    pose proof (refresh_returns s3) as Hr4.
    destruct (refresh s3) as [s4 r4]. simpl in *.
    split; [exact Hr4|]. split.
    - exists l. rewrite Hn4, Hn3, Hn2. reflexivity.
    - exact Hc4. }
  destruct (operation clip) eqn:Hop.
  - destruct (Hgo (setClipboard None s1) eq_refl) as (Hr & [l Hn] & Hc).
    change ((showInformationMessage (pastedMessage clip) >>>
             modify (setClipboard None) >>> updateContext >>> refresh)%promise s)
      with (bind updateContext (fun _ => refresh) (setClipboard None s1)).
    rewrite updateContext_empty in Hc by reflexivity. simpl in Hc.
    split; [exact Hr|]. split.
    + exists l. rewrite Hn. simpl. rewrite <- app_assoc. reflexivity.
    + split; [intros _; exact Hc|]. split; [right; exact Hc|]. intros _. left. reflexivity.
  - destruct (Hgo s1 eq_refl) as (Hr & [l Hn] & Hc).
    change ((showInformationMessage (pastedMessage clip) >>>
             ret tt >>> updateContext >>> refresh)%promise s)
      with (bind updateContext (fun _ => refresh) s1).
    rewrite (updateContext_clipboard s1 clip Hclip) in Hc.
    change (net s1) with (net s) in Hc.
    split; [exact Hr|]. split.
    + exists l. rewrite Hn. simpl. rewrite <- app_assoc. reflexivity.
    + split; [discriminate|]. rewrite Hc.
      destruct (expired (Date_now (world (net s))) clip).
      * split; [right; reflexivity|]. intros _. right. reflexivity.
      * split; [left; reflexivity|]. discriminate.
Qed.

(** The [catch] of the paste: the failure is shown; a cut entry is
    dropped, a copy entry stays. *)
Lemma failPaste_spec (clip : Clipboard) (e : JsError) (s : State W) :
  clipboard s = Some clip ->
  snd (failPaste clip e s) = Ok tt
  /\ notices (fst (failPaste clip e s))
     = (notices s ++ [ErrorMessage ("粘贴失败: " +:+ orElse (message e) "未知错误")])%list
  /\ clipboard (fst (failPaste clip e s))
     = match operation clip with cut => None | copy => Some clip end.
Proof.
  intros Hclip. unfold failPaste, bind, showErrorMessage, modify.
  destruct (operation clip); simpl; auto.
Qed.

(** The copy or move itself only adds messages, and what it takes for
    it to leave the clipboard empty. *)
Lemma performPaste_spec (fuel : nat) (client : MyWebDAVClient) (clip : Clipboard)
    (newPath targetName : string) (s : State W) :
  clipboard s = Some clip ->
  exists new,
    notices (fst (performPaste fuel client clip newPath targetName s))
      = (notices s ++ new)%list
    /\ (clipboard (fst (performPaste fuel client clip newPath targetName s)) = None ->
        (In (Information (pastedMessage clip)) new
         /\ (operation clip = cut
             \/ expired
                  (Date_now (world (net
                     (fst (copyOrMoveEntry fuel clip newPath
                             (fst (clearDestination fuel client newPath targetName s)))))))
                  clip = true))
        \/ (operation clip = cut
            /\ exists m, In (ErrorMessage ("粘贴失败: " +:+ m)) new)).
Proof.
  intros Hclip. unfold performPaste, tryCatch, bind.
  pose proof (keeps_clearDestination fuel client newPath targetName s) as Hq1.
  destruct (clearDestination fuel client newPath targetName s) as [s1 r1].
  simpl in Hq1. cbn [fst].
  set (after := fst (copyOrMoveEntry fuel clip newPath s1)).
  assert (Hfail : forall (s2 : State W) (e : JsError), quiet s s2 ->
    exists new,
      notices (fst (failPaste clip e s2)) = (notices s ++ new)%list
      /\ (clipboard (fst (failPaste clip e s2)) = None ->
          (In (Information (pastedMessage clip)) new
           /\ (operation clip = cut
               \/ expired (Date_now (world (net after))) clip = true))
          \/ (operation clip = cut
              /\ exists m, In (ErrorMessage ("粘贴失败: " +:+ m)) new))).
  { intros s2 e [Hc2 [l2 Hn2]].
    destruct (failPaste_spec clip e s2) as (_ & Hn & Hc); [congruence|].
    exists (l2 ++ [ErrorMessage ("粘贴失败: " +:+ orElse (message e) "未知错误")])%list.
    split; [rewrite Hn, Hn2; symmetry; apply app_assoc|].
    rewrite Hc. intros Hnone.
    right. split; [destruct (operation clip); [reflexivity|discriminate]|].
    eexists. apply in_or_app. right. left. reflexivity. }
  assert (Hstay : forall s2 : State W, quiet s s2 ->
    exists new,
      notices s2 = (notices s ++ new)%list
      /\ (clipboard s2 = None ->
          (In (Information (pastedMessage clip)) new
           /\ (operation clip = cut
               \/ expired (Date_now (world (net after))) clip = true))
          \/ (operation clip = cut
              /\ exists m, In (ErrorMessage ("粘贴失败: " +:+ m)) new))).
  { intros s2 [Hc2 [l2 Hn2]]. exists l2. split; [exact Hn2|]. congruence. }
  destruct r1 as [goOn|e|]; cbv beta iota.
  - destruct goOn; cbn [negb]; cbv beta iota.
    + pose proof (keeps_copyOrMoveEntry fuel clip newPath s1) as Hq2.
      subst after.
      destruct (copyOrMoveEntry fuel clip newPath s1) as [s2 r2].
      simpl in Hq2. pose proof (quiet_trans _ _ _ Hq1 Hq2) as Hq.
      cbn [fst] in *.
      destruct r2 as [[]|e|]; cbv beta iota.
      * destruct Hq as [Hc [l Hn]].
        destruct (finishPaste_spec clip s2) as (Hr & [l' Hn'] & _ & _ & Hnone);
          [congruence|].
        destruct (finishPaste clip s2) as [s3 r3]. simpl in Hr, Hn', Hnone. subst r3.
        exists (l ++ Information (pastedMessage clip) :: l')%list.
        simpl fst.
        split; [rewrite Hn', Hn; symmetry; apply app_assoc|].
        intros H. left. split; [apply in_or_app; right; left; reflexivity|].
        exact (Hnone H).
      * apply (Hfail s2 e Hq).
      * apply (Hstay s2 Hq).
    + apply (Hstay s1 Hq1).
  - apply (Hfail s1 e Hq1).
  - apply (Hstay s1 Hq1).
Qed.


End Facts.
End ClipboardFacts.

(* ===================================================================== *)
(** * The path mapper *)
(* ===================================================================== *)

Module PathMapperFacts.
Import Js PathUtils NormalForm StringFacts PathFacts.

Lemma append_cancel (a b c : string) : a +:+ b = a +:+ c -> b = c.
Proof.
  induction a as [|x a IH]; unfold_append; [auto|].
  intros H. injection H as H. auto.
Qed.

(** C2: the claim fails on each of its three clauses.  For equal
    arguments the result is the empty string, not ["/"]; the remainder
    comes without a leading separator; and a path outside the base comes
    back without its leading separator, not unchanged. *)
Lemma relativeTo_counterexample :
  getRelativePathFromBase "/notes" "/notes" = EmptyString
  /\ getRelativePathFromBase "/notes" "/notes" <> "/"
  /\ getRelativePathFromBase "/notes/todo.md" "/notes" = "todo.md"
  /\ getRelativePathFromBase "/notes/todo.md" "/notes" <> "/todo.md"
  /\ getRelativePathFromBase "/other/x" "/notes" = "other/x"
  /\ getRelativePathFromBase "/other/x" "/notes" <> "/other/x".
Proof. vm_compute. repeat split; discriminate. Qed.

(** C2, as amended.  Let [A] and [B] be the two arguments after the
    replace chain (backslashes turned into slashes, runs of slashes
    collapsed, one leading and one trailing slash dropped).  Then
    [getRelativePathFromBase] returns [A] when [B] is empty; the empty
    string when [A = B]; the remainder, without a leading separator, when
    [A] is [B], a slash and a remainder; and [A] otherwise.  In particular
    equal arguments give the empty string. *)
Theorem getRelativePathFromBase_spec (absolutePath basePath : string) :
  let A := replaceChain absolutePath in
  let B := replaceChain basePath in
  let r := getRelativePathFromBase absolutePath basePath in
  (B = EmptyString -> r = A)
  /\ (B <> EmptyString -> A = B -> r = EmptyString)
  /\ (B <> EmptyString -> forall rest, A = B +:+ "/" +:+ rest -> r = rest)
  /\ (B <> EmptyString -> A <> B -> (forall rest, A <> B +:+ "/" +:+ rest) -> r = A)
  /\ (absolutePath = basePath -> r = EmptyString).
Proof.
  intros A B r.
  pose proof (getRelativePathFromBase_cases absolutePath basePath) as Hcases.
  cbv zeta in Hcases. fold A B r in Hcases.
  split; [|split; [|split; [|split]]].
  - intros HB0.
    destruct Hcases as [[HB Hr] | [(HB & _) | [(HB & _) | (HB & _)]]]; congruence.
  - intros HB0 HAB.
    destruct Hcases
      as [[HB Hr] | [(HB & rest0 & HA & Hr) | [(HB & HA & Hr) | (HB & HA & Hno & Hr)]]];
      try congruence;
      try (exfalso; rewrite HAB in HA; exact (append_longer _ _ HA)).
  - intros HB0 rest Hrest.
    destruct Hcases
      as [[HB Hr] | [(HB & rest0 & HA & Hr) | [(HB & HA & Hr) | (HB & HA & Hno & Hr)]]];
      try congruence;
      try (exfalso; exact (Hno _ Hrest));
      try (exfalso; rewrite HA in Hrest; exact (append_longer _ _ Hrest)).
    rewrite Hr. rewrite HA in Hrest.
    apply append_cancel in Hrest. apply append_cancel in Hrest. exact Hrest.
  - intros HB0 HAB Hnone.
    destruct Hcases
      as [[HB Hr] | [(HB & rest0 & HA & Hr) | [(HB & HA & Hr) | (HB & HA & Hno & Hr)]]];
      try congruence; try (exfalso; exact (Hnone _ HA)).
  - intros Heq.
    assert (HAB : A = B) by (unfold A, B; rewrite Heq; reflexivity).
    destruct Hcases
      as [[HB Hr] | [(HB & rest0 & HA & Hr) | [(HB & HA & Hr) | (HB & HA & Hno & Hr)]]];
      try congruence;
      try (exfalso; rewrite HAB in HA; exact (append_longer _ _ HA)).
Qed.

(** C6: the round trip fails for a file right below the base path. *)
Lemma round_trip_counterexample :
  getRelativePathFromBase "/notes/todo.md"
    (normalizeWebDAVPath (getRelativePathFromBase "/notes/todo.md" "/notes") "/notes")
  = "notes/todo.md"
  /\ getRelativePathFromBase "/notes/todo.md" "/notes" = "todo.md"
  /\ getRelativePathFromBase "/notes/todo.md"
       (normalizeWebDAVPath (getRelativePathFromBase "/notes/todo.md" "/notes") "/notes")
     <> getRelativePathFromBase "/notes/todo.md" "/notes".
Proof. vm_compute. repeat split; discriminate. Qed.

(** C6, as amended.  With [r] the relative path of [absolutePath]
    against [basePath], the round trip
    [relativeTo(absolutePath, normalize(r, basePath)) = r] holds exactly
    when [r] is empty (the path is the base path itself, or normalises to
    nothing) or the normalised [absolutePath] is [r/r]; for every other
    pair it fails. *)
Theorem round_trip_stability (absolutePath basePath : string) :
  let r := getRelativePathFromBase absolutePath basePath in
  getRelativePathFromBase absolutePath (normalizeWebDAVPath r basePath) = r
  <-> (r = EmptyString \/ replaceChain absolutePath = r +:+ "/" +:+ r).
Proof. apply round_trip_characterised. Qed.

End PathMapperFacts.

(* ===================================================================== *)
(** * The overlay of open documents *)
(* ===================================================================== *)

Module OverlayFacts.
Import Js Dav Promise WebdavClient FileSystemProvider.

Section Facts.
Context {W : Type} {E : Environment W}.

(** What [openFile] makes of the answer to its fetch: the content, or
    nothing when the fetch is turned down. *)
Lemma fetch_eq (client : MyWebDAVClient) (p : string) (s : State W) :
  remote (getFileContents client p (Some text)) s =
  match connection client with
  | None => (s, Throw notConnected)
  | Some conn =>
      let (w', r) := dav_getFileContents (WebdavClient.client conn) p text (world (net s)) in
      (setNet {| world := w'; calls := (calls (net s) ++ [GetFileContents p text])%list |} s,
       match r with
       | inr c => Ok c
       | inl error =>
           if hasStatus error 404 then Throw (newError ("文件不存在: " +:+ p))
           else if hasStatus error 403 then Throw (newError "没有权限访问此文件")
           else Throw error
       end)
  end.
Proof.
  unfold remote, zoom, getFileContents. destruct (connection client) as [conn|].
  - unfold tryCatch, invoke.
    destruct (dav_getFileContents _ _ _ _) as [w' [e|c]]; simpl; [|reflexivity].
    destruct (hasStatus e 404); [reflexivity|].
    destruct (hasStatus e 403); reflexivity.
  - unfold throw. destruct s as [[]]; reflexivity.
Qed.

(** When [register] returns, the document is in the overlay as it
    was fetched; the disk apart, nothing else has changed. *)
Lemma register_ok (webdavPath fileName fetched : string) (s1 s' : State W) (uri : Uri) :
  register webdavPath fileName fetched s1 = (s', Ok uri) ->
  uri = createVirtualFileUri webdavPath fileName
  /\ net s' = net s1
  /\ virtualFiles s'
     = <[Uri_toString (createVirtualFileUri webdavPath fileName) :=
           {| webdavPath := webdavPath; fileName := fileName;
              content := encode fetched;
              mtime := Date_now (world (net s1)); ctime := Date_now (world (net s1));
              size := Z.of_nat (utf16Length fetched); isDirty := false |}]>
         (virtualFiles s1).
Proof.
  unfold register, bind, now, gets, modify, writeCache, ret. cbv beta iota.
  destruct (fs_writeFileSync _ _ _) as [d [e|]]; [discriminate|].
  intros H. injection H as <- <-. repeat split.
Qed.

(** C3, as amended.  Every [openFile] that returns, returns the
    virtual-file URI built from [(webdavPath, fileName)], so two opens of
    the same pair resolve to the same handle.  But it does so after
    fetching the remote content once more: the call log grows by the
    fetch, and the document is registered anew under that handle, holding
    what was fetched (nothing when the fetch was turned down as not
    found), its size the length of that text in UTF-16 code units, with
    [isDirty = false] and fresh times, whatever the overlay held for it
    before. *)
Theorem openFile_registers (webdavPath fileName : string) (s s' : State W) (uri : Uri) :
  openFile webdavPath fileName s = (s', Ok uri) ->
  uri = createVirtualFileUri webdavPath fileName
  /\ calls (net s') = (calls (net s) ++ [GetFileContents webdavPath text])%list
  /\ exists fetched,
      virtualFiles s' !! Uri_toString uri =
        Some {| webdavPath := webdavPath;
                fileName := fileName;
                content := encode fetched;
                mtime := Date_now (world (net s'));
                ctime := Date_now (world (net s'));
                size := Z.of_nat (utf16Length fetched);
                isDirty := false |}
      /\ forall client conn,
          webdavClient s = Some client -> connection client = Some conn ->
          match snd (dav_getFileContents (WebdavClient.client conn) webdavPath text
                       (world (net s))) with
          | inr c => fetched = contentToString c
          | inl _ => fetched = EmptyString
          end.
Proof.
  intros Hopen.
  unfold openFile, bind at 1, gets in Hopen.
  destruct (webdavClient s) as [client|] eqn:Hwc; [|discriminate].
  unfold tryCatch at 1, bind at 1 in Hopen.
  unfold fetchContent, tryCatch at 1, bind at 1 in Hopen.
  rewrite fetch_eq in Hopen.
  destruct (connection client) as [conn|] eqn:Hconn; [|discriminate].
  destruct (dav_getFileContents _ _ _ _) as [w' [e|c]] eqn:Hget.
  - (* the fetch is turned down *)
    set (s1 := setNet _ s) in Hopen.
    assert (Hdone : register webdavPath fileName EmptyString s1 = (s', Ok uri)).
    { destruct (hasStatus e 404); [|destruct (hasStatus e 403)];
        cbv beta iota in Hopen;
        match type of Hopen with
        | context [includes ?m "404" || includes ?m "Not Found"] =>
            destruct (includes m "404" || includes m "Not Found")
        end;
        cbv beta iota in Hopen; unfold throw in Hopen; try discriminate;
        unfold ret in Hopen;
        destruct (register webdavPath fileName EmptyString s1) as [s2 [u| |]];
        congruence. }
    apply register_ok in Hdone. destruct Hdone as (-> & Hnet & Hfiles).
    split; [reflexivity|]. split; [rewrite Hnet; reflexivity|].
    exists EmptyString. split; [rewrite Hfiles, Hnet; apply lookup_insert_eq|].
    intros client' conn' Hc' Hconn'. injection Hc' as <-.
    rewrite Hconn in Hconn'. injection Hconn' as <-. rewrite Hget. reflexivity.
  - set (s1 := setNet _ s) in Hopen. cbv beta iota in Hopen. unfold ret, throw in Hopen.
    assert (Hdone : register webdavPath fileName (contentToString c) s1 = (s', Ok uri)).
    { destruct (register webdavPath fileName (contentToString c) s1) as [s2 [u| |]];
        congruence. }
    apply register_ok in Hdone. destruct Hdone as (-> & Hnet & Hfiles).
    split; [reflexivity|]. split; [rewrite Hnet; reflexivity|].
    exists (contentToString c). split; [rewrite Hfiles, Hnet; apply lookup_insert_eq|].
    intros client' conn' Hc' Hconn'. injection Hc' as <-.
    rewrite Hconn in Hconn'. injection Hconn' as <-. rewrite Hget. reflexivity.
Qed.

End Facts.

Import Store Scenario.

(** The witness: the edited, unsaved document is opened once more. *)
Lemma openFile_registers_witness :
  todoUri = createVirtualFileUri "/notes/todo.md" "todo.md"
  /\ calls (net (fst (openFile "/notes/todo.md" "todo.md" edited)))
     = (calls (net edited) ++ [GetFileContents "/notes/todo.md" text])%list
  /\ exists fetched,
      virtualFiles (fst (openFile "/notes/todo.md" "todo.md" edited))
        !! Uri_toString todoUri =
        Some {| webdavPath := "/notes/todo.md";
                fileName := "todo.md";
                content := encode fetched;
                mtime := Date_now (world (net (fst (openFile "/notes/todo.md" "todo.md" edited))));
                ctime := Date_now (world (net (fst (openFile "/notes/todo.md" "todo.md" edited))));
                size := Z.of_nat (utf16Length fetched);
                isDirty := false |}
      /\ forall client conn,
          webdavClient edited = Some client -> connection client = Some conn ->
          match snd (dav_getFileContents (WebdavClient.client conn) "/notes/todo.md" text
                       (world (net edited))) with
          | inr c => fetched = contentToString c
          | inl _ => fetched = EmptyString
          end.
Proof.
  apply (openFile_registers "/notes/todo.md" "todo.md" edited
           (fst (openFile "/notes/todo.md" "todo.md" edited)) todoUri).
  vm_compute. reflexivity.
Defined.

(** C3: the second open of a tracked document does fetch again, and it
    does not leave the document as it was.  [/notes/todo.md] is open and
    has been edited ([isDirty = true], nineteen bytes in memory); opening
    it again issues a fetch and leaves the ten bytes of the remote file
    and [isDirty = false]. *)
Lemma second_open_refetches :
  (isDirty <$> getVirtualFile edited todoUri) = Some true
  /\ (content <$> getVirtualFile edited todoUri) = Some (encode "- buy milk and eggs")
  /\ snd (openFile "/notes/todo.md" "todo.md" edited) = Ok todoUri
  /\ calls (net (fst (openFile "/notes/todo.md" "todo.md" edited)))
     = (calls (net edited) ++ [GetFileContents "/notes/todo.md" text])%list
  /\ (isDirty <$> getVirtualFile (fst (openFile "/notes/todo.md" "todo.md" edited)) todoUri)
     = Some false
  /\ (content <$> getVirtualFile (fst (openFile "/notes/todo.md" "todo.md" edited)) todoUri)
     = Some (encode "- buy milk").
Proof. vm_compute. repeat split; reflexivity. Qed.

End OverlayFacts.

(* ===================================================================== *)
(** * Directory listings *)
(* ===================================================================== *)

Module ListingFacts.
Import Js Dav Promise WebdavClient TreeDataProvider ListingOrder.

Section Sorting.
Context {W : Type} {E : Environment W} {C : Collation}.

(** The comparison orders the names as it orders them in lower case. *)
Lemma nameOrder_compare (a b : string) :
  nameOrder a b <-> (localeCompareBase a b <= 0)%Z.
Proof. unfold nameOrder. rewrite compare_case. reflexivity. Qed.

Lemma entryLe_listingOrder (a b : FileStat) : entryLe a b <-> listingOrder a b.
Proof.
  unfold entryLe, listingOrder, compareEntries. rewrite nameOrder_compare.
  destruct (isDir a), (isDir b); simpl; split; intros H;
    try lia; auto;
    destruct H as [[H1 H2]|[H1 H2]]; try discriminate; try lia.
Qed.

Lemma entryLe_total (a b : FileStat) : entryLe a b \/ entryLe b a.
Proof.
  unfold entryLe, compareEntries.
  destruct (isDir a), (isDir b); simpl; try lia; apply compare_total.
Qed.

Lemma entryLe_trans (a b c : FileStat) : entryLe a b -> entryLe b c -> entryLe a c.
Proof.
  unfold entryLe, compareEntries.
  destruct (isDir a), (isDir b), (isDir c); simpl; try lia; apply compare_trans.
Qed.

Lemma insertBy_Forall (P : FileStat -> Prop) (x : FileStat) (l : list FileStat) :
  P x -> Forall P l -> Forall P (insertBy compareEntries x l).
Proof.
  intros Hx. induction 1 as [|y r Hy Hr IH]; simpl.
  - constructor; [exact Hx | constructor].
  - destruct (compareEntries x y <=? 0)%Z; repeat constructor; auto.
Qed.

Lemma insertBy_sorted (x : FileStat) (l : list FileStat) :
  StronglySorted entryLe l -> StronglySorted entryLe (insertBy compareEntries x l).
Proof.
  induction 1 as [|y r Hsorted IH Hall]; simpl.
  - repeat constructor.
  - destruct (compareEntries x y <=? 0)%Z eqn:Hcmp.
    + apply Z.leb_le in Hcmp. constructor; [constructor; assumption|].
      constructor; [exact Hcmp|].
      eapply Forall_impl; [exact Hall|]. intros z Hz.
      eapply entryLe_trans; [exact Hcmp | exact Hz].
    + apply Z.leb_gt in Hcmp. constructor; [exact IH|].
      apply insertBy_Forall; [|exact Hall].
      destruct (entryLe_total x y) as [H|H]; [unfold entryLe in H; lia | exact H].
Qed.

Lemma sortBy_sorted (l : list FileStat) : StronglySorted entryLe (sortBy compareEntries l).
Proof.
  induction l as [|x l IH]; simpl; [constructor | apply insertBy_sorted, IH].
Qed.

Lemma insertBy_perm (x : FileStat) (l : list FileStat) :
  Permutation (x :: l) (insertBy compareEntries x l).
Proof.
  induction l as [|y r IH]; simpl; [reflexivity|].
  destruct (compareEntries x y <=? 0)%Z; [reflexivity|].
  rewrite perm_swap. apply perm_skip, IH.
Qed.

Lemma sortBy_perm (l : list FileStat) : Permutation l (sortBy compareEntries l).
Proof.
  induction l as [|x l IH]; simpl; [reflexivity|].
  rewrite <- insertBy_perm. apply perm_skip, IH.
Qed.

Lemma StronglySorted_impl {A} (R S : A -> A -> Prop) (l : list A) :
  (forall a b, R a b -> S a b) -> StronglySorted R l -> StronglySorted S l.
Proof.
  intros HRS. induction 1 as [|x l Hs IH Hall]; constructor; auto.
  eapply Forall_impl; [exact Hall|]. auto.
Qed.

Lemma sortBy_listingOrder (l : list FileStat) :
  StronglySorted listingOrder (sortBy compareEntries l).
Proof.
  eapply StronglySorted_impl; [|apply sortBy_sorted].
  intros a b. apply entryLe_listingOrder.
Qed.

(** A named entry keeps its name as the label of its row. *)
Lemma toTreeItem_label (base path : string) (e : FileStat) :
  sortName e <> EmptyString -> label (toTreeItem base path e) = sortName e.
Proof.
  unfold sortName, toTreeItem. cbn [label].
  generalize (orElse (basename e) (filename e)). intros x.
  unfold orElse, truthy.
  destruct (String.eqb x EmptyString) eqn:Hx; simpl; [contradiction | reflexivity].
Qed.

Lemma toTreeItem_type (base path : string) (e : FileStat) :
  type (toTreeItem base path e) = if isDir e then directory else file.
Proof. reflexivity. Qed.

Lemma map_itemOrder (base path : string) (l : list FileStat) :
  Forall (fun e => sortName e <> EmptyString) l ->
  StronglySorted listingOrder l ->
  StronglySorted itemOrder (List.map (toTreeItem base path) l).
Proof.
  intros Hnamed. induction 1 as [|x l Hs IH Hall]; simpl; [constructor|].
  inversion Hnamed as [|? ? Hx Hl]; subst.
  constructor; [apply IH, Hl|].
  apply Forall_map. 
  rewrite Forall_forall in Hall, Hl. apply Forall_forall. intros y Hy.
  specialize (Hall y Hy). specialize (Hl y Hy).
  unfold itemOrder. rewrite !toTreeItem_type, !toTreeItem_label by assumption.
  destruct Hall as [[H1 H2]|[H1 H2]].
  - left. rewrite H1, H2. auto.
  - right. rewrite H1. auto.
Qed.

Lemma getRemoteFiles_sorted (path : string) (s s' : State W) (items : list WebDAVTreeItem) :
  getRemoteFiles path s = (s', Ok items) ->
  exists contents,
    items = List.map (toTreeItem (currentBasePath s) path) (sortBy compareEntries contents).
Proof.
  unfold getRemoteFiles, bind, gets. destruct (webdavClient s) as [client|]; [|discriminate].
  unfold tryCatch, remote, zoom.
  destruct (getDirectoryContents client path (net s)) as [n [contents|e|]];
    simpl; try discriminate.
  intros H. injection H as <- <-. exists contents. reflexivity.
Qed.

End Sorting.
End ListingFacts.

Module StoreCollation.
Import Js Dav Store ListingOrder.

Ltac split_ltb :=
  repeat match goal with
         | |- context [Nat.ltb ?a ?b] => destruct (Nat.ltb_spec a b)
         | H : context [Nat.ltb ?a ?b] |- _ => destruct (Nat.ltb_spec a b)
         end.

Lemma compareWeights_total (a b : list nat) :
  (compareWeights a b <= 0)%Z \/ (compareWeights b a <= 0)%Z.
Proof.
  revert b. induction a as [|x a IH]; intros [|y b]; simpl; try lia.
  split_ltb; try lia. apply IH.
Qed.

Lemma compareWeights_trans (a b c : list nat) :
  (compareWeights a b <= 0)%Z -> (compareWeights b c <= 0)%Z ->
  (compareWeights a c <= 0)%Z.
Proof.
  revert b c. induction a as [|x a IH]; intros [|y b] [|z c]; simpl; try lia.
  split_ltb; try lia. apply IH.
Qed.

(** A letter weighs what its capital weighs. *)
Lemma weight_lowerChar (c : ascii) : weight (lowerChar c) = weight c.
Proof. destruct c as [[] [] [] [] [] [] [] []]; vm_compute; reflexivity. Qed.

Lemma weights_foldCase (s : string) : weights (foldCase s) = weights s.
Proof.
  induction s as [|c s IH]; [reflexivity|].
  cbn [foldCase weights]. rewrite weight_lowerChar, IH. reflexivity.
Qed.

(** The collation of the reference store is a comparison of the kind
    [localeCompare] with base sensitivity is taken to be. *)
#[export] Instance store_collation : Collation (E := Store.environment).
Proof.
  split.
  - intros a b. apply compareWeights_total.
  - intros a b c. apply compareWeights_trans.
  - intros a b. cbn. unfold compareBase. rewrite !weights_foldCase. reflexivity.
Qed.

End StoreCollation.

Module ListingTheorem.
Import Js Dav Promise WebdavClient TreeDataProvider ListingOrder ListingFacts.
Import Store Scenario.

(** C7.  With [localeCompare] at base sensitivity, a comparison that
    is total and transitive and does not see the case of a letter, every
    listing built for the tree is the sorted list of the entries the
    client returned: directories come before files, and within a kind the
    names are in the order of the comparison with their letters put in
    lower case, which is to say in case-insensitive name order; the rows
    of the tree are the entries in that order, and their kinds and labels
    are the kinds and the names of the entries, so the rows are in the
    same order.  In particular the entries [b.txt], [A] (a directory) and
    [a.txt] are listed as [A], [a.txt], [b.txt], and the files [C.txt],
    [a.txt] and [B.txt] as [a.txt], [B.txt], [C.txt]. *)
Theorem directory_listing_order :
  (forall (W : Type) (E : Environment W), Collation (E := E) ->
     (forall contents : list FileStat,
        Permutation contents (sortBy compareEntries contents)
        /\ StronglySorted listingOrder (sortBy compareEntries contents))
     /\ (forall (path : string) (s s' : State W) (items : list WebDAVTreeItem),
           getRemoteFiles path s = (s', Ok items) ->
           exists entries,
             items = List.map (toTreeItem (currentBasePath s) path) entries
             /\ StronglySorted listingOrder entries
             /\ (Forall (fun e => sortName e <> EmptyString) entries ->
                 StronglySorted itemOrder items)))
  /\ List.map basename (sortBy (compareEntries (E := Store.environment)) exampleEntries)
     = ["A"; "a.txt"; "b.txt"]
  /\ (exists s' items,
        getRemoteFiles "/mixed" (idle mixedTree "/") = (s', Ok items)
        /\ List.map (fun i => (label i, type i)) items
           = [("A", directory); ("a.txt", file); ("b.txt", file)])
  /\ (exists s' items,
        getRemoteFiles "/case" (idle caseTree "/") = (s', Ok items)
        /\ List.map (fun i => (label i, type i)) items
           = [("a.txt", file); ("B.txt", file); ("C.txt", file)]).
Proof.
  split; [|split; [|split]].
  - intros W E C. split.
    + intros contents. split; [apply sortBy_perm | apply sortBy_listingOrder].
    + intros path s s' items Hget.
      destruct (getRemoteFiles_sorted path s s' items Hget) as [contents ->].
      exists (sortBy compareEntries contents).
      split; [reflexivity|]. split; [apply sortBy_listingOrder|].
      intros Hnamed. apply map_itemOrder; [exact Hnamed | apply sortBy_listingOrder].
  - vm_compute. reflexivity.
  - eexists _, _. split; [vm_compute; reflexivity | vm_compute; reflexivity].
  - eexists _, _. split; [vm_compute; reflexivity | vm_compute; reflexivity].
Qed.

(** The witness: the reference store has such a comparison, and the
    listing of the three example entries is sorted under it. *)
Lemma directory_listing_order_witness :
  Permutation exampleEntries
    (sortBy (compareEntries (E := Store.environment)) exampleEntries)
  /\ StronglySorted (listingOrder (E := Store.environment))
       (sortBy (compareEntries (E := Store.environment)) exampleEntries).
Proof.
  exact (proj1 (proj1 directory_listing_order _ Store.environment
                  StoreCollation.store_collation) exampleEntries).
Defined.

End ListingTheorem.

(* ===================================================================== *)
(** * Connecting *)
(* ===================================================================== *)

Module ConnectFacts.
Import Js Dav Promise WebdavClient Sessions PromiseFacts.

Section Facts.
Context {W : Type} {E : Environment W}.

Lemma invoke_returns {A} (c : Call) (f : W -> W * (JsError + A)) (n : Net W) :
  snd (invoke c f n) <> OutOfFuel.
Proof. unfold invoke. destruct (f (world n)) as [w' [e|a]]; discriminate. Qed.

Lemma probeBasePath_returns (client : WebDAVClient) (basePath : string) (n : Net W) :
  snd (probeBasePath client basePath n) <> OutOfFuel.
Proof.
  unfold probeBasePath. apply tryCatch_returns.
  - apply bind_returns; [apply invoke_returns | discriminate].
  - intros e n'. destruct (hasStatus e 404); [apply invoke_returns | discriminate].
Qed.

(** The probe has no recursion to run out on. *)
Lemma testConnectionInternal_returns (this : MyWebDAVClient) (client : WebDAVClient)
    (basePath : string) (n : Net W) :
  snd (testConnectionInternal this client basePath n) <> OutOfFuel.
Proof.
  unfold testConnectionInternal. apply tryCatch_returns.
  - apply bind_returns; [apply invoke_returns|].
    intros _ n'. destruct (truthy basePath && negb (String.eqb basePath "/"));
      [apply probeBasePath_returns | discriminate].
  - intros e n'.
    destruct (match connection this with Some c => _ | None => false end);
      [|discriminate].
    destruct (truthy basePath && negb (String.eqb basePath "/"));
      [apply probeBasePath_returns | discriminate].
Qed.

Lemma race_returns {A} (ms : Z) (timerError : JsError) (work : M (Net W) A) :
  (forall n, snd (work n) <> OutOfFuel) ->
  forall n, snd (race ms timerError work n) <> OutOfFuel.
Proof.
  intros Hwork n. unfold race. specialize (Hwork n).
  destruct (work n) as [n' [a|e|]]; simpl in *;
    [destruct (_ >=? _)%Z; discriminate | destruct (_ >=? _)%Z; discriminate
    | exact Hwork].
Qed.

Lemma attemptConnect_returns (serverUrl username password basePath : string)
    (s : Net W * MyWebDAVClient) :
  snd (attemptConnect serverUrl username password basePath s) <> OutOfFuel.
Proof.
  unfold attemptConnect.
  apply bind_returns; [intros s0; destruct (_ || _); discriminate|]. intros _.
  apply bind_returns; [intros s0; destruct (_ && _); discriminate|]. intros _.
  apply bind_returns; [discriminate|]. intros this.
  apply bind_returns.
  - apply tryCatch_returns; [|discriminate].
    unfold onNet. apply zoom_returns. apply race_returns.
    apply testConnectionInternal_returns.
  - intros _. apply bind_returns; [discriminate|]. intros now.
    apply bind_returns; discriminate.
Qed.

(** The probe always comes back. *)
Lemma probe_returns (this : MyWebDAVClient) (serverUrl username password basePath : string)
    (n : Net W) :
  snd (probe this serverUrl username password basePath n) <> OutOfFuel.
Proof. unfold probe. apply race_returns. apply testConnectionInternal_returns. Qed.

(** [connectInternal], by its two checks and the outcome of the probe:
    the session is stored when the probe has gone through, and dropped
    in every other case. *)
Lemma connectInternal_eq (serverUrl username password basePath : string)
    (s : Net W * MyWebDAVClient) :
  connectInternal serverUrl username password basePath s =
  if negb (truthy serverUrl) || negb (truthy username) || negb (truthy password) then
    ((fst s, {| connection := None; connectionPromise := connectionPromise (snd s) |}),
     Throw (newError "服务器地址、用户名或密码不能为空"))
  else if negb (startsWith serverUrl "http://") && negb (startsWith serverUrl "https://") then
    ((fst s, {| connection := None; connectionPromise := connectionPromise (snd s) |}),
     Throw (newError "服务器地址必须以 http:// 或 https:// 开头"))
  else
    let (n', r) := probe (snd s) serverUrl username password basePath (fst s) in
    match r with
    | Ok _ =>
        ((n', {| connection :=
                   Some (newSession serverUrl username password basePath
                           (Date_now (world n')));
                 connectionPromise := connectionPromise (snd s) |}), Ok true)
    | Throw e =>
        ((n', {| connection := None; connectionPromise := connectionPromise (snd s) |}),
         Throw (classifyTestError e))
    | OutOfFuel => ((n', snd s), OutOfFuel)
    end.
Proof.
  unfold connectInternal, attemptConnect, tryCatch at 1, bind at 1.
  destruct (negb (truthy serverUrl) || negb (truthy username) || negb (truthy password));
    [reflexivity|].
  unfold ret at 1. cbv beta iota. unfold bind at 1.
  destruct (negb (startsWith serverUrl "http://") && negb (startsWith serverUrl "https://"));
    [reflexivity|].
  unfold ret at 1. cbv beta iota.
  unfold bind at 1, gets at 1. cbv beta iota.
  unfold bind at 1, tryCatch at 1, onNet, zoom.
  unfold probe, clientFor, cleanedUrl. cbv zeta.
  destruct (race _ _ _ _) as [n' [[]|e|]]; reflexivity.
Qed.


End Facts.
End ConnectFacts.

(* ===================================================================== *)
(** * Moving a file whose source is gone *)
(* ===================================================================== *)

Module TransferFacts.
Import Js Dav Promise WebdavClient TreeDataProvider StringFacts.

Section Facts.
Context {W : Type} {E : Environment W}.

(** What [getFileContents] of the wrapper makes of a read the server
    answers with status 404: the error is replaced by one whose
    message names the path, without the status. *)
Lemma getFileContents_not_found (this : MyWebDAVClient) (conn : WebDAVConnection)
    (path : string) (format : Format) (n : Net W) (w' : W) (e : JsError) :
  connection this = Some conn ->
  dav_getFileContents (client conn) path format (world n) = (w', inl e) ->
  status e = Some 404%Z ->
  getFileContents this path (Some format) n
  = ({| world := w'; calls := (calls n ++ [GetFileContents path format])%list |},
     Throw (newError ("文件不存在: " +:+ path))).
Proof.
  intros Hconn Hget Hstatus. unfold getFileContents. rewrite Hconn.
  unfold tryCatch, invoke.
  destruct format; rewrite Hget; unfold hasStatus; rewrite Hstatus; reflexivity.
Qed.

(** The wrapper's message contains [404] or [Not Found] only when the
    path does. *)
Lemma wrapped_message (p : string) :
  notFoundMessage ("文件不存在: " +:+ p) = notFoundMessage p.
Proof. unfold notFoundMessage. unfold_append. reflexivity. Qed.

(** C9.  A cut transfer of a file that the server reports missing
    (status 404) on the text read and on the binary read does not write
    an empty destination.  The wrapper's [getFileContents] has replaced
    the server's error by [文件不存在: <path>], and unless the path
    itself happens to contain [404] or [Not Found] the transfer throws
    [无法读取文件内容: 文件不存在: <path>] after the two reads: nothing is
    written and nothing is deleted. *)
Theorem cut_of_missing_file_throws (sourcePath targetPath : string) (s : State W)
    (this : MyWebDAVClient) (conn : WebDAVConnection)
    (w1 w2 : W) (e1 e2 : JsError) :
  webdavClient s = Some this ->
  connection this = Some conn ->
  dav_getFileContents (client conn) sourcePath text (world (net s)) = (w1, inl e1) ->
  status e1 = Some 404%Z ->
  dav_getFileContents (client conn) sourcePath binary w1 = (w2, inl e2) ->
  status e2 = Some 404%Z ->
  notFoundMessage sourcePath = false ->
  let r := copyOrMoveFile sourcePath targetPath cut s in
  snd r = Throw (newError ("无法读取文件内容: 文件不存在: " +:+ sourcePath))
  /\ calls (net (fst r))
     = (calls (net s)
        ++ [GetFileContents sourcePath text; GetFileContents sourcePath binary])%list
  /\ world (net (fst r)) = w2.
Proof.
  intros Hclient Hconn Hget1 Hs1 Hget2 Hs2 Hmsg r.
  assert (Hr : r = (setNet {| world := w2;
                              calls := ((calls (net s) ++ [GetFileContents sourcePath text])
                                        ++ [GetFileContents sourcePath binary])%list |}
                           (setNet {| world := w1;
                                      calls := (calls (net s)
                                                ++ [GetFileContents sourcePath text])%list |} s),
                    Throw (newError ("无法读取文件内容: 文件不存在: " +:+ sourcePath)))).
  { subst r. unfold copyOrMoveFile, bind at 1, gets. rewrite Hclient.
    unfold bind at 1, readSource, tryCatch at 1, bind at 1, remote at 1, zoom.
    rewrite (getFileContents_not_found this conn sourcePath text (net s) w1 e1
               Hconn Hget1 Hs1).
    unfold tryCatch at 1, bind at 1, remote at 1, zoom.
    cbn [net setNet world calls].
    rewrite (getFileContents_not_found this conn sourcePath binary
               {| world := w1;
                  calls := (calls (net s) ++ [GetFileContents sourcePath text])%list |}
               w2 e2 Hconn Hget2 Hs2).
    cbn [message newError]. rewrite wrapped_message, Hmsg.
    unfold orElse, truthy, throw. unfold_append. reflexivity. }
  rewrite Hr. cbn [fst snd net setNet world calls].
  repeat split. rewrite <- app_assoc. reflexivity.
Qed.

End Facts.
End TransferFacts.

(* ===================================================================== *)
(** * Cutting *)
(* ===================================================================== *)

Module CutFacts.
Import Js Dav Promise WebdavClient TreeDataProvider.
Import PasteStates ClipboardFacts.

Section Facts.
Context {W : Type} {E : Environment W}.

Lemma updateContext_net (s : State W) :
  exists s', updateContext s = (s', Ok tt) /\ net s' = net s.
Proof.
  destruct (updateContext_spec s) as (Hr & _ & Hn & _).
  destruct (updateContext s) as [s' r]. simpl in *. subst. eauto.
Qed.

Ltac settle_context :=
  match goal with
  | |- context [updateContext ?x] =>
      let s' := fresh "s'" in
      let Hu := fresh "Hu" in
      let Hn := fresh "Hn" in
      destruct (updateContext_net x) as (s' & Hu & Hn);
      rewrite Hu; exists s'; rewrite Hn
  end.

(** What a cut leaves: the result, and the net of the state it ends in. *)
Lemma cutItem_returns (item : WebDAVTreeItem) (s : State W) :
  exists s',
    cutItem item s = (s', Ok tt)
    /\ (net s' = net s
        \/ exists client conn,
            webdavClient s = Some client /\ connection client = Some conn
            /\ net s' =
               {| world := fst (dav_stat (WebdavClient.client conn) (path item)
                                  (world (net s)));
                  calls := (calls (net s) ++ [Stat (path item)])%list |}).
Proof.
  unfold cutItem, bind at 1, gets.
  destruct (isConnected s); cbn [negb];
    [|eexists; unfold showErrorMessage, modify; split; [reflexivity|]; simpl; auto].
  unfold bind at 1.
  destruct (webdavClient s) as [client|];
    [|eexists; unfold showErrorMessage, modify; split; [reflexivity|]; simpl; auto].
  unfold tryCatch, bind at 1. rewrite remote_stat_eq.
  destruct (connection client) as [conn|] eqn:Hconn.
  - destruct (dav_stat _ _ _) as [w' [e|a]] eqn:Hstat.
    + destruct (notFoundMessage (message e));
        unfold bind, showErrorMessage, modify; [settle_context | eexists];
        (split; [reflexivity|]); right; exists client, conn; rewrite Hstat; simpl; auto.
    + unfold bind, now, gets, showInformationMessage, modify. settle_context.
      (split; [reflexivity|]); right; exists client, conn; rewrite Hstat; simpl; auto.
  - replace (notFoundMessage (message notConnected)) with false by reflexivity.
    eexists; unfold showErrorMessage, modify; split; [reflexivity|].
    simpl. auto.
Qed.

(** [cutItem] only marks the item.  It returns normally, and the one
    protocol call it may issue is the [stat] of the item's path: no
    create-directory, no put, no delete. *)
Theorem cutItem_only_stats (item : WebDAVTreeItem) (s : State W) :
  exists issued,
    snd (cutItem item s) = Ok tt
    /\ calls (net (fst (cutItem item s))) = (calls (net s) ++ issued)%list
    /\ (issued = [] \/ issued = [Stat (path item)])
    /\ Forall (fun c => mutating c = false) issued.
Proof.
  destruct (cutItem_returns item s)
    as (s' & Hcut & [Hnet | (client & conn & _ & _ & Hnet)]);
    rewrite Hcut; simpl; rewrite Hnet.
  - exists []. rewrite app_nil_r. auto.
  - exists [Stat (path item)]. simpl. repeat split; auto; repeat constructor.
Qed.

End Facts.

Import Store.

(** On the reference server a [stat] reads the tree and leaves it as it is. *)
Lemma store_stat_tree (c : WebDAVClient) (p : string) (w : World) :
  tree (fst (store_stat c p w)) = tree w.
Proof. unfold store_stat. destruct (tree w !! p); reflexivity. Qed.

(** So a cut, pasted later or abandoned, leaves the remote tree as it is. *)
Lemma cutItem_keeps_tree (item : WebDAVTreeItem) (s : State World) :
  tree (world (net (fst (cutItem item s)))) = tree (world (net s)).
Proof.
  destruct (cutItem_returns item s)
    as (s' & Hcut & [Hnet | (client & conn & _ & _ & Hnet)]);
    rewrite Hcut; simpl; rewrite Hnet; [reflexivity|].
  apply store_stat_tree.
Qed.

End CutFacts.

Module CutExamples.
Import Js Dav Promise WebdavClient TreeDataProvider Store Scenario.

(** C5.  The cut itself leaves [/a/b/b] where it is, but the paste that
    follows deletes it without having moved it.  The file is cut and
    pasted into [/a]; the destination [/a/b] exists, the overwrite is
    confirmed, and [/a/b] is deleted with the cut file in it.  The read
    of the source then fails, the paste is reported as failed, nothing
    has been written, and the content is gone. *)
Lemma failed_paste_deletes_cut_source :
  tree (world (net nestedCut)) !! "/a/b/b" = Some (FileNode "precious")
  /\ clipboard nestedCut
     = Some (entry (fileItem "/a/b/b" "b") cut 1005)
  /\ snd (pasteItem 5 (Some (directoryItem "/a" "a")) nestedCut) = Ok tt
  /\ calls (net nestedPaste)
     = (calls (net nestedCut)
        ++ [Stat "/a/b/b"; Stat "/a/b"; GetDirectoryContents "/a/b";
            DeleteFile "/a/b/b"; DeleteFile "/a/b";
            GetFileContents "/a/b/b" text; GetFileContents "/a/b/b" binary])%list
  /\ notices nestedPaste
     = (notices nestedCut
        ++ [ErrorMessage "粘贴失败: 无法读取文件内容: 文件不存在: /a/b/b"])%list
  /\ clipboard nestedPaste = None
  /\ map_to_list (tree (world (net nestedPaste))) = [("/a", DirNode); ("/", DirNode)].
Proof. vm_compute. repeat split; reflexivity. Qed.

End CutExamples.

(* ===================================================================== *)
(** * The facts at work on the reference server *)
(* ===================================================================== *)

Module TransferExamples.
Import Js Dav Promise WebdavClient TreeDataProvider Store Scenario TransferFacts.

(** The witness: [/notes/gone.txt] is not on the server. *)
Lemma cut_of_missing_file_throws_witness :
  let r := copyOrMoveFile "/notes/gone.txt" "/notes/archive/gone.txt" cut
             (idle notesTree "/notes") in
  snd r = Throw (newError ("无法读取文件内容: 文件不存在: " +:+ "/notes/gone.txt"))
  /\ calls (net (fst r))
     = (calls (net (idle notesTree "/notes"))
        ++ [GetFileContents "/notes/gone.txt" text;
            GetFileContents "/notes/gone.txt" binary])%list
  /\ world (net (fst r)) = worldAt notesTree 1010 5.
Proof.
  apply (cut_of_missing_file_throws "/notes/gone.txt" "/notes/archive/gone.txt"
           (idle notesTree "/notes") session link
           (worldAt notesTree 1005 5) (worldAt notesTree 1010 5) notFound notFound);
    vm_compute; reflexivity.
Defined.

(** No destination has been written, and the tree is what it was. *)
Lemma missing_source_writes_nothing :
  let r := copyOrMoveFile "/notes/gone.txt" "/notes/archive/gone.txt" cut
             (idle notesTree "/notes") in
  tree (world (net (fst r))) !! "/notes/archive/gone.txt" = None
  /\ tree (world (net (fst r))) = notesTree.
Proof. vm_compute. split; reflexivity. Qed.

(** The empty destination is written only when the text of the wrapper's
    message happens to contain [404], here through the file's name. *)
Lemma missing_source_named_404 :
  let r := copyOrMoveFile "/notes/404.txt" "/notes/archive/404.txt" cut
             (idle notesTree "/notes") in
  snd r = Ok tt
  /\ tree (world (net (fst r))) !! "/notes/archive/404.txt" = Some (FileNode EmptyString).
Proof. vm_compute. split; reflexivity. Qed.

End TransferExamples.

Module PasteExamples.
Import Js Dav Promise WebdavClient TreeDataProvider Store Scenario.
Import PasteStates ClipboardFacts.


(** The witness for C4: connected, ten minutes and a millisecond late. *)
Lemma pasteItem_expired_witness :
  let s' := fst (pasteItem 3 None (staleCut true)) in
  snd (pasteItem 3 None (staleCut true)) = Ok tt
  /\ net s' = net (staleCut true)
  /\ (isConnected (staleCut true) = true -> webdavClient (staleCut true) <> None ->
      clipboard s' = None
      /\ notices s' = (notices (staleCut true) ++ [Warning "剪贴板内容已过期"])%list)
  /\ (isConnected (staleCut true) = false \/ webdavClient (staleCut true) = None ->
      clipboard s' = Some (entry todo cut 0)
      /\ notices s' = (notices (staleCut true) ++ [ErrorMessage "未连接到WebDAV服务器"])%list).
Proof.
  apply (pasteItem_expired 3 None (staleCut true) (entry todo cut 0)).
  - reflexivity.
  - vm_compute. reflexivity.
Defined.

(** C4: an entry that is ten minutes and a millisecond old is not cleared
    by a paste attempted while the provider is not connected.  The paste
    is turned down for want of a connection, and the entry stays on the
    clipboard. *)
Lemma expired_entry_survives_paste :
  clipboard (staleCut false) = Some (entry todo cut 0)
  /\ (Date_now (world (net (staleCut false)))
      = timestamp (entry todo cut 0) + expiry + 1)%Z
  /\ snd (pasteItem 3 None (staleCut false)) = Ok tt
  /\ notices (fst (pasteItem 3 None (staleCut false)))
     = [ErrorMessage "未连接到WebDAV服务器"]
  /\ clipboard (fst (pasteItem 3 None (staleCut false))) = Some (entry todo cut 0).
Proof. vm_compute. repeat split; reflexivity. Qed.



End PasteExamples.

Module ConnectExamples.
Import Js Dav Promise WebdavClient Store Scenario Sessions.


(** A connect entered while another is in flight ends as that one
    ends, here by being turned down, and leaves the session alone,
    whatever its own arguments are. *)
Lemma connect_in_flight_stands_by :
  connect "https://dav.example.org" "olive" "secret" "/notes"
    ({| world := worldAt notesTree 1000 5; calls := [] |}, busySession)
  = (({| world := worldAt notesTree 1000 5; calls := [] |}, busySession),
     Throw (newError "认证失败，请检查用户名和密码")).
Proof. reflexivity. Qed.

(** A connect that goes through replaces the session there was: the
    base path [/fresh] is created on the way, and the session is the new
    one throughout. *)
Lemma connect_replaces_session :
  let r := connect "https://dav.example.org/" "olive " "secret" "/fresh"
             ({| world := worldAt notesTree 1000 5; calls := [] |}, session) in
  snd r = Ok true
  /\ calls (fst (fst r))
     = [GetDirectoryContents "/"; GetDirectoryContents "/fresh";
        CreateDirectory "/fresh" false]
  /\ connection (snd (fst r))
     = Some {| client := {| remoteURL := "https://dav.example.org";
                            authUsername := "olive";
                            authPassword := "secret" |};
               connected := true;
               serverUrl := "https://dav.example.org";
               basePath := "/fresh";
               username := "olive ";
               lastConnected := 1015 |}.
Proof. vm_compute. repeat split; reflexivity. Qed.

(** A connect that fails drops the session there was: here the address
    is turned down before any call, and there the probe takes forty
    seconds and loses against the timer. *)
Lemma failed_connect_drops_session :
  let bad := connect "dav.example.org" "olive" "secret" "/notes"
               ({| world := worldAt notesTree 1000 5; calls := [] |}, session) in
  let slow := connect "https://dav.example.org" "olive" "secret" "/notes"
                ({| world := worldAt notesTree 1000 20000; calls := [] |}, session) in
  connection session <> None
  /\ snd bad = Throw (newError "服务器地址必须以 http:// 或 https:// 开头")
  /\ connection (snd (fst bad)) = None
  /\ snd slow = Throw (newError timeoutMessage)
  /\ connection (snd (fst slow)) = None.
Proof. vm_compute. repeat split; try reflexivity. discriminate. Qed.

End ConnectExamples.

(* ===================================================================== *)
(** * What the operations add to the call log *)
(* ===================================================================== *)

Module CallLogFacts.
Import Js Dav Promise WebdavClient CallLog.

Section Generic.
Context {W : Type} {E : Environment W}.

Lemma adds_refl (P : Call -> Prop) (n : Net W) : adds P n n.
Proof. exists []. split; [symmetry; apply app_nil_r | constructor]. Qed.

Lemma adds_same (P : Call -> Prop) (n n' : Net W) : calls n' = calls n -> adds P n n'.
Proof. intros H. exists []. rewrite H. split; [symmetry; apply app_nil_r | constructor]. Qed.

Lemma adds_trans (P : Call -> Prop) (n1 n2 n3 : Net W) :
  adds P n1 n2 -> adds P n2 n3 -> adds P n1 n3.
Proof.
  intros (l1 & H1 & F1) (l2 & H2 & F2). exists (l1 ++ l2)%list.
  split; [rewrite H2, H1; symmetry; apply app_assoc | apply Forall_app; auto].
Qed.

Lemma adds_impl (P Q : Call -> Prop) (n n' : Net W) :
  (forall c, P c -> Q c) -> adds P n n' -> adds Q n n'.
Proof.
  intros HPQ (l & H & F). exists l. split; [exact H|].
  eapply Forall_impl; [exact F | exact HPQ].
Qed.

Section State.
Context {S : Type} (netOf : S -> Net W) (P : Call -> Prop).

Lemma issues_ret {A} (a : A) : issues netOf P (ret a).
Proof. intros s. apply adds_refl. Qed.

Lemma issues_throw {A} (e : JsError) : issues netOf P (@throw S A e).
Proof. intros s. apply adds_refl. Qed.

Lemma issues_gets {A} (f : S -> A) : issues netOf P (gets f).
Proof. intros s. apply adds_refl. Qed.

Lemma issues_outOfFuel {A} : issues netOf P (fun s : S => (s, @OutOfFuel A)).
Proof. intros s. apply adds_refl. Qed.

Lemma issues_modify (f : S -> S) :
  (forall s, netOf (f s) = netOf s) -> issues netOf P (modify f).
Proof. intros H s. simpl. rewrite H. apply adds_refl. Qed.

Lemma issues_bind {A B} (m : M S A) (k : A -> M S B) :
  issues netOf P m -> (forall a, issues netOf P (k a)) -> issues netOf P (bind m k).
Proof.
  intros Hm Hk s. unfold bind. specialize (Hm s).
  destruct (m s) as [s1 [a|e|]]; simpl in *; auto.
  eapply adds_trans; [exact Hm | apply Hk].
Qed.

Lemma issues_tryCatch {A} (m : M S A) (h : JsError -> M S A) :
  issues netOf P m -> (forall e, issues netOf P (h e)) -> issues netOf P (tryCatch m h).
Proof.
  intros Hm Hh s. unfold tryCatch. specialize (Hm s).
  destruct (m s) as [s1 [a|e|]]; simpl in *; auto.
  eapply adds_trans; [exact Hm | apply Hh].
Qed.

Lemma issues_forEach {A} (l : list A) (body : A -> M S unit) :
  (forall x, issues netOf P (body x)) -> issues netOf P (forEach l body).
Proof.
  intros Hb. induction l as [|x l IH]; simpl.
  - apply issues_ret.
  - apply issues_bind; auto.
Qed.

Lemma issues_zoom {A} (set : Net W -> S -> S) (m : M (Net W) A) :
  (forall n s, netOf (set n s) = n) ->
  issues (fun n => n) P m -> issues netOf P (zoom netOf set m).
Proof.
  intros Hset Hm s. unfold zoom. specialize (Hm (netOf s)).
  destruct (m (netOf s)) as [n r]. simpl in *. rewrite Hset. exact Hm.
Qed.

End State.

Lemma issues_impl {S A} (netOf : S -> Net W) (P Q : Call -> Prop) (m : M S A) :
  (forall c, P c -> Q c) -> issues netOf P m -> issues netOf Q m.
Proof. intros HPQ Hm s. eapply adds_impl; [exact HPQ | apply Hm]. Qed.

(** One call adds itself. *)
Lemma issues_invoke {A} (P : Call -> Prop) (c : Call) (f : W -> W * (JsError + A)) :
  P c -> issues (fun n => n) P (invoke c f).
Proof.
  intros Hc n. unfold invoke. destruct (f (world n)) as [w' r]. simpl.
  exists [c]. split; [reflexivity | repeat constructor; exact Hc].
Qed.

End Generic.

(** The structure of a computation, taken apart down to its calls. *)
Ltac log_step :=
  repeat first
    [ assumption
    | solve [auto 2]
    | apply issues_ret | apply issues_throw | apply issues_gets
    | apply issues_outOfFuel
    | apply issues_modify; intros; reflexivity
    | apply issues_bind; [|intros]
    | apply issues_tryCatch; [|intros]
    | apply issues_forEach; intros
    | apply issues_invoke
    | match goal with |- issues _ _ (if ?b then _ else _) => destruct b end
    | match goal with |- issues _ _ (match ?x with _ => _ end) => destruct x end ].

End CallLogFacts.

Module ClientLogFacts.
Import Js Dav Promise WebdavClient CallLog CallLogFacts.

Section Facts.
Context {W : Type} {E : Environment W}.

#[local] Abbreviation onNet P := (issues (fun n : Net W => n) P).

Create HintDb calls.
#[local] Hint Resolve issues_ret issues_throw issues_gets issues_outOfFuel : calls.
#[local] Hint Extern 2 (issues _ _ (bind _ _)) => apply issues_bind; [|intros] : calls.
#[local] Hint Extern 2 (issues _ _ (tryCatch _ _)) =>
  apply issues_tryCatch; [|intros] : calls.
#[local] Hint Extern 2 (issues _ _ (forEach _ _)) => apply issues_forEach; intros : calls.
#[local] Hint Extern 2 (issues _ _ (invoke _ _)) => apply issues_invoke : calls.
#[local] Hint Extern 3 (issues _ _ (if ?b then _ else _)) => destruct b : calls.
#[local] Hint Extern 3 (issues _ _ (match ?x with _ => _ end)) => destruct x : calls.

Lemma stat_issues (P : Call -> Prop) (this : MyWebDAVClient) (path : string) :
  P (Stat path) -> onNet P (stat this path).
Proof. intros H. unfold stat. auto 10 with calls. Qed.

Lemma getDirectoryContents_issues (P : Call -> Prop) (this : MyWebDAVClient)
    (path : string) :
  P (GetDirectoryContents path) -> onNet P (getDirectoryContents this path).
Proof. intros H. unfold getDirectoryContents. auto 20 with calls. Qed.

Lemma getFileContents_issues (P : Call -> Prop) (this : MyWebDAVClient)
    (path : string) (format : option Format) :
  (forall f, P (GetFileContents path f)) -> onNet P (getFileContents this path format).
Proof. intros H. unfold getFileContents. auto 20 with calls. Qed.

Lemma createDirectory_issues (P : Call -> Prop) (this : MyWebDAVClient) (path : string) :
  P (CreateDirectory path true) -> onNet P (createDirectory this path).
Proof. intros H. unfold createDirectory. auto 10 with calls. Qed.

Lemma createFile_issues (P : Call -> Prop) (this : MyWebDAVClient) (path : string)
    (content : Content) (overwrite : bool) :
  P (Stat (getParentPath path)) ->
  P (CreateDirectory (getParentPath path) true) ->
  P (PutFileContents path content overwrite) ->
  onNet P (createFile this path content overwrite).
Proof.
  intros Hs Hc Hp. unfold createFile.
  pose proof (createDirectory_issues P this (getParentPath path) Hc).
  auto 20 with calls.
Qed.

Lemma deleteFile_issues (P : Call -> Prop) (this : MyWebDAVClient) (path : string) :
  P (DeleteFile path) -> onNet P (deleteFile this path).
Proof. intros H. unfold deleteFile. auto 10 with calls. Qed.

Lemma deleteDirectory_issues (P : Call -> Prop) (fuel : nat) (this : MyWebDAVClient)
    (path : string) :
  (forall p, P (DeleteFile p)) -> (forall p, P (GetDirectoryContents p)) ->
  onNet P (deleteDirectory fuel this path).
Proof.
  intros Hd Hl. revert path. induction fuel as [|fuel IH]; intros path; simpl.
  - apply issues_outOfFuel.
  - pose proof (fun p => deleteFile_issues P this p (Hd p)).
    pose proof (fun p => getDirectoryContents_issues P this p (Hl p)).
    auto 20 with calls.
Qed.

End Facts.
End ClientLogFacts.

Module TreeLogFacts.
Import Js Dav Promise WebdavClient TreeDataProvider CallLog CallLogFacts ClientLogFacts.

Section Facts.
Context {W : Type} {E : Environment W}.

#[local] Abbreviation inTree P := (issues (@net W) P).

Lemma remote_issues {A} (P : Call -> Prop) (m : M (Net W) A) :
  issues (fun n => n) P m -> inTree P (remote m).
Proof. intros H. unfold remote. apply issues_zoom; [reflexivity | exact H]. Qed.

Lemma askOverwrite_issues (P : Call -> Prop) (m : string) : inTree P (askOverwrite m).
Proof.
  intros s. unfold askOverwrite. destruct (showModalWarning _ _) as [w' c]. simpl.
  apply adds_same. reflexivity.
Qed.

Lemma updateContext_issues (P : Call -> Prop) : inTree P (@updateContext W E).
Proof. unfold updateContext, getClipboardStatus, now. log_step. Qed.

Lemma getRemoteFiles_issues (P : Call -> Prop) (path : string) :
  P (GetDirectoryContents path) -> inTree P (getRemoteFiles path).
Proof.
  intros H. unfold getRemoteFiles.
  pose proof (fun c => remote_issues P _ (getDirectoryContents_issues P c path H)).
  log_step.
Qed.

Lemma refresh_issues (P : Call -> Prop) :
  (forall p, P (GetDirectoryContents p)) -> inTree P (@refresh W E).
Proof.
  intros H. unfold refresh, showErrorMessage, showWarningMessage.
  pose proof (fun p => getRemoteFiles_issues P p (H p)).
  log_step.
Qed.

End Facts.
End TreeLogFacts.

(* ===================================================================== *)
(** * Refreshing and expanding the tree *)
(* ===================================================================== *)

Module TreeViewFacts.
Import Js Dav Promise WebdavClient TreeDataProvider TreeCommands.
Import CallLog CallLogFacts ClientLogFacts TreeLogFacts ClipboardFacts.

Section Facts.
Context {W : Type} {E : Environment W}.

(** A listing is one call, or none without a session. *)
Lemma getDirectoryContents_calls (client : MyWebDAVClient) (p : string) (n : Net W) :
  calls (fst (getDirectoryContents client p n)) = calls n
  \/ calls (fst (getDirectoryContents client p n))
     = (calls n ++ [GetDirectoryContents p])%list.
Proof.
  unfold getDirectoryContents. destruct (connection client) as [conn|]; [|left; reflexivity].
  right. unfold tryCatch, bind, invoke.
  destruct (dav_getDirectoryContents _ _ _) as [w' [e|l]]; simpl; [|reflexivity].
  repeat match goal with |- context [if ?b then _ else _] => destruct b end;
    reflexivity.
Qed.

Lemma getRemoteFiles_calls (p : string) (s : State W) :
  calls (net (fst (getRemoteFiles p s))) = calls (net s)
  \/ calls (net (fst (getRemoteFiles p s)))
     = (calls (net s) ++ [GetDirectoryContents p])%list.
Proof.
  unfold getRemoteFiles, bind, gets. destruct (webdavClient s) as [client|];
    [|left; reflexivity].
  unfold tryCatch, remote, zoom.
  pose proof (getDirectoryContents_calls client p (net s)) as H.
  destruct (getDirectoryContents client p (net s)) as [n [l|e|]]; simpl in *; exact H.
Qed.

(** X2.  [refresh] never throws and never leaves the tree without a
    row.  Not connected, the tree is the one row that offers to connect.
    Connected, the tree is what [getRemoteFiles] makes of the listing of
    the current base path: its rows when there are any, the one row that
    says the directory is empty when there are none, and one placeholder
    row for the error when the listing fails.  On the way [refresh]
    issues at most one call, the listing of the current base path. *)
Theorem refresh_leaves_rows (s : State W) :
  snd (refresh s) = Ok tt
  /\ treeItems (fst (refresh s)) <> []
  /\ (if isConnected s then
        match snd (getRemoteFiles (currentBasePath s) s) with
        | Ok [] =>
            treeItems (fst (refresh s))
            = [specialItem "empty" "目录为空，点击创建文件或上传文件" (currentBasePath s)
                 "/" false EmptyString]
        | Ok rows => treeItems (fst (refresh s)) = rows
        | _ =>
            exists row,
              treeItems (fst (refresh s)) = [row] /\ isSpecialItem row = true
        end
      else
        treeItems (fst (refresh s))
        = [specialItem "connect" "点击连接 WebDAV 服务器" "/" "/" true "connect"])
  /\ (calls (net (fst (refresh s))) = calls (net s)
      \/ calls (net (fst (refresh s)))
         = (calls (net s) ++ [GetDirectoryContents (currentBasePath s)])%list).
Proof.
  split; [apply refresh_returns|].
  remember (refresh s) as out eqn:Hout.
  unfold refresh, bind at 1, gets at 1 in Hout. cbv beta iota in Hout.
  destruct (isConnected s); cbn [negb] in Hout; cbv iota in Hout.
  2:{ subst out. simpl. split; [discriminate|]. split; [reflexivity | left; reflexivity]. }
  unfold bind at 1, gets at 1 in Hout. cbv beta iota in Hout.
  destruct (webdavClient s) as [client|] eqn:Hwc.
  2:{ subst out. unfold getRemoteFiles, bind, gets. rewrite Hwc. simpl.
      split; [discriminate|]. split; [|left; reflexivity].
      eexists. split; reflexivity. }
  unfold tryCatch at 1, bind at 1, gets at 1 in Hout. cbv beta iota in Hout.
  unfold bind at 1 in Hout.
  pose proof (getRemoteFiles_calls (currentBasePath s) s) as Hcalls.
  pose proof (getRemoteFiles_returns (currentBasePath s) s) as Hret.
  destruct (getRemoteFiles (currentBasePath s) s) as [s1 [files|e|]]; cbn [fst snd] in *.
  - destruct files as [|f files]; subst out; simpl;
      (split; [discriminate|]); (split; [reflexivity | exact Hcalls]).
  - unfold bind at 1, gets at 1 in Hout. cbv beta iota in Hout.
    repeat match type of Hout with context [if ?b then _ else _] => destruct b end;
      subst out; simpl; (split; [discriminate|]);
      (split; [eexists; split; reflexivity | exact Hcalls]).
  - contradiction.
Qed.

End Facts.
End TreeViewFacts.

Module ListingFailureFacts.
Import Js Dav Promise WebdavClient TreeDataProvider Needles.
Import StringFacts ClipboardFacts.

Section Facts.
Context {W : Type} {E : Environment W}.

(** The message the wrapper makes of a 404 on a listing mentions what
    the path mentions, and nothing else [refresh] looks for. *)
Lemma missing_path_message (p needle : string) :
  In needle refreshNeedles ->
  includes ("路径不存在: " +:+ p) needle = includes p needle.
Proof.
  intros Hin. unfold refreshNeedles in Hin. simpl in Hin.
  repeat (destruct Hin as [<- | Hin]; [unfold_append; reflexivity|]).
  contradiction.
Qed.

Lemma mentionsNone_includes (p needle : string) :
  mentionsNone p refreshNeedles = true -> In needle refreshNeedles ->
  includes ("路径不存在: " +:+ p) needle = false.
Proof.
  intros Hnone Hin. rewrite (missing_path_message p needle Hin).
  unfold mentionsNone in Hnone. rewrite forallb_forall in Hnone.
  specialize (Hnone needle Hin). apply negb_true_iff in Hnone. exact Hnone.
Qed.

(** X3.  A base path the server reports missing (status 404) is not
    shown as a missing path.  The wrapper has replaced the server's
    error by [路径不存在: <path>], which [refresh] does not recognise:
    unless the path itself contains one of the texts [refresh] looks
    for, the tree shows the generic failure row, the message is the
    generic one, and the provider stays connected. *)
Theorem refresh_missing_base_path (s : State W) (client : MyWebDAVClient)
    (conn : WebDAVConnection) (w' : W) (e : JsError) :
  isConnected s = true ->
  webdavClient s = Some client ->
  connection client = Some conn ->
  dav_getDirectoryContents (WebdavClient.client conn) (currentBasePath s)
    (world (net s)) = (w', inl e) ->
  status e = Some 404%Z ->
  mentionsNone (currentBasePath s) refreshNeedles = true ->
  treeItems (fst (refresh s))
  = [specialItem "error" "获取文件列表失败，点击刷新重试" "/" "/" true "refresh"]
  /\ notices (fst (refresh s))
     = (notices s
        ++ [ErrorMessage ("获取文件列表失败: 路径不存在: " +:+ currentBasePath s)])%list
  /\ isConnected (fst (refresh s)) = true.
Proof.
  intros Hconnected Hclient Hconn Hget Hstatus Hnone.
  assert (Hlist : getRemoteFiles (currentBasePath s) s
                  = (setNet {| world := w';
                               calls := (calls (net s)
                                         ++ [GetDirectoryContents (currentBasePath s)])%list |} s,
                     Throw (newError ("路径不存在: " +:+ currentBasePath s)))).
  { unfold getRemoteFiles, bind, gets. rewrite Hclient.
    unfold tryCatch, remote, zoom, getDirectoryContents. rewrite Hconn.
    unfold tryCatch, bind, invoke. rewrite Hget. cbv beta iota.
    unfold hasStatus at 1. rewrite Hstatus.
    replace (404 =? 404)%Z with true by reflexivity. rewrite orb_true_r.
    reflexivity. }
  destruct (refresh s) as [s2 r2] eqn:Href. cbn [fst]. revert Href.
  unfold refresh, bind at 1, gets. rewrite Hconnected. cbn [negb].
  unfold bind at 1. rewrite Hclient. unfold tryCatch.
  unfold bind at 1. unfold bind at 1. rewrite Hlist.
  cbv beta iota zeta. unfold bind at 1. cbn [message newError].
  rewrite !mentionsNone_includes
    by (try exact Hnone; unfold refreshNeedles; simpl; tauto).
  cbn [orb]. cbv iota.
  unfold orElse, truthy, showErrorMessage, bind, modify. unfold_append.
  simpl. intros Href. injection Href as <- _. simpl. rewrite Hconnected. repeat split.
Qed.

End Facts.
End ListingFailureFacts.

Module ChildrenFacts.
Import Js Dav Promise WebdavClient TreeDataProvider TreeCommands.
Import ClipboardFacts TreeViewFacts.

Section Facts.
Context {W : Type} {E : Environment W}.

(** X4.  [getChildren] never throws.  For a row it issues at most the
    listing of the row's path; a failed listing comes back as one error
    row.  A placeholder row and a file have no children, and asking for
    them issues no call. *)
Theorem getChildren_never_throws (element : WebDAVTreeItem) (s : State W) :
  exists rows,
    snd (getChildren (Some element) s) = Ok rows
    /\ (calls (net (fst (getChildren (Some element) s))) = calls (net s)
        \/ calls (net (fst (getChildren (Some element) s)))
           = (calls (net s) ++ [GetDirectoryContents (path element)])%list)
    /\ (isSpecialItem element = true \/ type element = file ->
        rows = [] /\ fst (getChildren (Some element) s) = s).
Proof.
  unfold getChildren.
  destruct (isSpecialItem element) eqn:Hspecial.
  { exists []. simpl. repeat split; auto. }
  unfold bind, gets. cbv beta iota.
  destruct (type element) eqn:Htype.
  { exists []. simpl. repeat split; auto. }
  destruct (isConnected s); [|exists []; simpl; repeat split; auto].
  destruct (webdavClient s) as [client|] eqn:Hclient;
    [|exists []; simpl; repeat split; auto].
  unfold tryCatch.
  pose proof (getRemoteFiles_calls (path element) s) as Hcalls.
  pose proof (getRemoteFiles_returns (path element) s) as Hret.
  destruct (getRemoteFiles (path element) s) as [s1 [rows|e|]]; simpl in *.
  - exists rows. split; [reflexivity|]. split; [exact Hcalls|].
    intros [H|H]; discriminate.
  - eexists. split; [reflexivity|]. split; [exact Hcalls|].
    intros [H|H]; discriminate.
  - contradiction.
Qed.

End Facts.
End ChildrenFacts.

Module TreePathFacts.
Import Js Dav Promise WebdavClient TreeDataProvider TreeCommands.
Import NormalForm StringFacts.

Section Facts.
Context {W : Type} {E : Environment W}.

Lemma dropLast_slash (b : string) : endsWithSlash b = true -> b = dropLast b +:+ "/".
Proof.
  induction b as [|c b IH]; [discriminate|].
  destruct b as [|d b].
  - simpl. destruct (Ascii.eqb_spec c "/"); [subst; reflexivity | discriminate].
  - intros H. rewrite endsWithSlash_cons in H.
    change (dropLast (String c (String d b))) with (String c (dropLast (String d b))).
    unfold_append. rewrite <- IH by exact H. reflexivity.
Qed.

Lemma startsWith_slash (c : ascii) (r : string) :
  startsWith (String c r) "/" = Ascii.eqb c "/".
Proof.
  unfold startsWith. cbn [String.prefix].
  destruct (ascii_dec "/" c) as [<-|n].
  - destruct r; reflexivity.
  - symmetry. apply Ascii.eqb_neq. congruence.
Qed.

(** [getRelativePath] of a text that starts with the base path. *)
Lemma getRelativePath_append (s : State W) (rest : string) :
  getRelativePath s (currentBasePath s +:+ rest)
  = if String.eqb (currentBasePath s) "/" then currentBasePath s +:+ rest
    else if String.eqb rest EmptyString then "/"
    else if startsWith rest "/" then rest
    else "/" +:+ rest.
Proof.
  unfold getRelativePath.
  destruct (String.eqb (currentBasePath s) "/"); [reflexivity|].
  unfold startsWith at 1. rewrite prefix_append. cbn [negb orb].
  rewrite substringFrom_append.
  destruct rest as [|c rest]; [reflexivity|].
  cbn [truthy String.eqb negb]. rewrite !startsWith_slash.
  destruct (Ascii.eqb c "/") eqn:Hc.
  - cbn [negb andb]. destruct (String.eqb _ _); reflexivity.
  - cbn [negb andb]. reflexivity.
Qed.

(** X6.  With a base path other than [/], [getRelativePath] takes every
    path that has the base path as a prefix of its text to lie under
    it, also when the prefix ends inside a name: the result is the rest
    of the text, with a slash put in front when it has none. *)
Theorem getRelativePath_of_prefixed (s : State W) (rest : string) :
  getRelativePath s (currentBasePath s +:+ rest)
  = if String.eqb (currentBasePath s) "/" then currentBasePath s +:+ rest
    else if String.eqb rest EmptyString then "/"
    else if startsWith rest "/" then rest
    else "/" +:+ rest.
Proof. apply getRelativePath_append. Qed.

(** X5.  [getRelativePath] undoes [getFullPath]: for every base path
    and every relative path that starts with one slash (and not with
    two), the relative path of the full path is the relative path. *)
Theorem getRelativePath_getFullPath (s : State W) (relativePath : string) :
  startsWith relativePath "/" = true ->
  startsWith relativePath "//" = false ->
  getRelativePath s (getFullPath s relativePath) = relativePath.
Proof.
  intros Hone Htwo.
  destruct relativePath as [|c r]; [discriminate|].
  rewrite startsWith_slash in Hone. apply Ascii.eqb_eq in Hone. subst c.
  unfold getFullPath.
  destruct r as [|d r].
  { (* the relative path is the slash *)
    cbn [truthy String.eqb negb orb Ascii.eqb Bool.eqb andb].
    replace (getRelativePath s (currentBasePath s))
      with (getRelativePath s (currentBasePath s +:+ EmptyString))
      by (rewrite append_empty_r; reflexivity).
    rewrite getRelativePath_append, append_empty_r.
    destruct (String.eqb_spec (currentBasePath s) "/") as [->|_]; reflexivity. }
  assert (Hd : Ascii.eqb d "/" = false).
  { unfold startsWith in Htwo. cbn [String.prefix] in Htwo.
    destruct (ascii_dec "/" "/") as [_|n]; [|congruence].
    destruct (ascii_dec "/" d) as [<-|n].
    - destruct r; discriminate.
    - apply Ascii.eqb_neq. congruence. }
  replace (negb (truthy (String "/" (String d r))) || String.eqb (String "/" (String d r)) "/"
           || String.eqb (String "/" (String d r)) EmptyString) with false
    by (cbn; destruct (Ascii.eqb d "/"); reflexivity).
  rewrite startsWith_slash. cbn [Ascii.eqb Bool.eqb andb substringFrom].
  replace (Ascii.eqb "/" "/") with true by reflexivity. cbv iota.
  destruct (endsWithSlash (currentBasePath s)) eqn:Hends.
  - (* base/ and /r: the full path is base followed by r *)
    replace (dropLast (currentBasePath s) +:+ "/" +:+ String d r)
      with (currentBasePath s +:+ String d r)
      by (rewrite (dropLast_slash _ Hends) at 1; rewrite append_assoc; reflexivity).
    rewrite getRelativePath_append.
    destruct (String.eqb_spec (currentBasePath s) "/") as [Hroot|_].
    + rewrite Hroot. reflexivity.
    + cbn [String.eqb]. rewrite startsWith_slash, Hd. reflexivity.
  - rewrite getRelativePath_append.
    destruct (String.eqb_spec (currentBasePath s) "/") as [Hroot|_].
    + rewrite Hroot in Hends. discriminate.
    + unfold_append. cbn [String.eqb]. rewrite startsWith_slash. reflexivity.
Qed.

End Facts.
End TreePathFacts.

Module DeleteFacts.
Import Js Dav Promise WebdavClient TreeDataProvider TreeCommands.
Import PasteStates CallLog CallLogFacts ClientLogFacts TreeLogFacts ClipboardFacts.

Section Facts.
Context {W : Type} {E : Environment W}.

(** X7.  [deleteItem] deletes nothing unless the user picks the
    delete button while the provider is connected: when the dialog is
    answered otherwise or dismissed, or the provider is not connected or
    has no client, no call is issued, the tree and the clipboard are
    what they were, and [deleteItem] returns normally. *)
Theorem deleteItem_needs_confirmation (fuel : nat) (item : WebDAVTreeItem)
    (s : State W) :
  snd (showModalWarning
         ("确定要删除 " +:+ dq +:+ label item +:+ dq +:+ " 吗？此操作不可恢复！")
         (world (net s))) <> Some "确定删除"
  \/ isConnected s = false \/ webdavClient s = None ->
  snd (deleteItem fuel item s) = Ok tt
  /\ calls (net (fst (deleteItem fuel item s))) = calls (net s)
  /\ treeItems (fst (deleteItem fuel item s)) = treeItems s
  /\ clipboard (fst (deleteItem fuel item s)) = clipboard s.
Proof.
  intros H. destruct (deleteItem fuel item s) as [s2 r2] eqn:Hrun.
  cbn [fst snd]. revert Hrun.
  unfold deleteItem, bind at 1, askDelete.
  destruct (showModalWarning _ (world (net s))) as [w' choice]. simpl in H.
  assert (Hdone : forall s0 : State W,
            calls (net s0) = calls (net s) -> treeItems s0 = treeItems s ->
            clipboard s0 = clipboard s ->
            (s0, Ok tt) = (s2, r2) ->
            r2 = Ok tt /\ calls (net s2) = calls (net s)
            /\ treeItems s2 = treeItems s /\ clipboard s2 = clipboard s).
  { intros s0 Hc Ht Hb Heq. injection Heq as <- <-. auto. }
  destruct choice as [choice|]; [|apply Hdone; reflexivity].
  destruct (String.eqb_spec choice "确定删除") as [->|Hother];
    [|apply Hdone; reflexivity].
  unfold bind, gets. cbn [webdavClient isConnected setNet].
  destruct H as [H | [H | H]]; [congruence | |].
  - rewrite H. destruct (webdavClient s); apply Hdone; reflexivity.
  - rewrite H. apply Hdone; reflexivity.
Qed.

(** X8.  Whatever happens, [deleteItem] only deletes and lists: it
    never puts a file and never creates a directory.  And it leaves the
    clipboard alone, also when the item deleted is the one on it. *)
Theorem deleteItem_only_deletes (fuel : nat) (item : WebDAVTreeItem) (s : State W) :
  adds (fun c => exists p, c = DeleteFile p \/ c = GetDirectoryContents p)
       (net s) (net (fst (deleteItem fuel item s)))
  /\ clipboard (fst (deleteItem fuel item s)) = clipboard s.
Proof.
  split.
  - revert s.
    change (issues (@net W)
              (fun c => exists p, c = DeleteFile p \/ c = GetDirectoryContents p)
              (deleteItem fuel item)).
    unfold deleteItem, showErrorMessage, showInformationMessage.
    assert (Hask : forall m, issues (@net W)
              (fun c => exists p, c = DeleteFile p \/ c = GetDirectoryContents p)
              (askDelete m)) by (intros m; apply askOverwrite_issues).
    assert (Hrefresh := refresh_issues
              (fun c => exists p, c = DeleteFile p \/ c = GetDirectoryContents p)
              (fun p => ex_intro _ p (or_intror eq_refl))).
    assert (Hfile : forall c p, issues (@net W)
              (fun c => exists p, c = DeleteFile p \/ c = GetDirectoryContents p)
              (remote (deleteFile c p))).
    { intros c p. apply remote_issues, deleteFile_issues. eauto. }
    assert (Hdir : forall c p, issues (@net W)
              (fun c => exists p, c = DeleteFile p \/ c = GetDirectoryContents p)
              (remote (deleteDirectory fuel c p))).
    { intros c p. apply remote_issues, deleteDirectory_issues; eauto. }
    log_step.
  - revert s.
    assert (Hquiet : keeps (@quiet W) (deleteItem fuel item)).
    { unfold deleteItem, showErrorMessage, showInformationMessage.
      assert (Hask : forall m, keeps (@quiet W) (askDelete m))
        by (intros m; apply keeps_askOverwrite).
      pose proof (@keeps_refresh W E).
      repeat first
        [ assumption | solve [auto 2]
        | apply keeps_ret | apply keeps_gets | apply keeps_remote | apply keeps_notify
        | apply keeps_bind; [|intros] | apply keeps_tryCatch; [|intros]
        | match goal with |- keeps _ (if ?b then _ else _) => destruct b end
        | match goal with |- keeps _ (match ?x with _ => _ end) => destruct x end ]. }
    intros s. apply Hquiet.
Qed.

End Facts.
End DeleteFacts.

Module RenameFacts.
Import Js Dav Promise WebdavClient TreeDataProvider TreeCommands.
Import PasteStates StringFacts ClipboardFacts.
Import CallLog CallLogFacts ClientLogFacts TreeLogFacts.

(** A match of [needle] cannot run into a text that starts with a
    character the needle does not have. *)
Lemma prefix_before (needle n post : string) (q : ascii) :
  needle <> EmptyString ->
  (forall c, In c (list_ascii_of_string needle) -> c <> q) ->
  String.prefix needle (n +:+ String q post) = String.prefix needle n.
Proof.
  revert n. induction needle as [|a needle IH]; intros n Hne Hq; [congruence|].
  destruct n as [|c n]; unfold_append; cbn [String.prefix].
  - destruct (ascii_dec a q) as [->|_]; [|reflexivity].
    exfalso. apply (Hq q); [left; reflexivity | reflexivity].
  - destruct (ascii_dec a c) as [_|_]; [|reflexivity].
    destruct needle as [|b needle]; [destruct n, post; reflexivity|].
    apply IH; [discriminate|]. intros x Hx. apply Hq. right. exact Hx.
Qed.

Lemma includes_before (needle n post : string) (q : ascii) :
  needle <> EmptyString ->
  (forall c, In c (list_ascii_of_string needle) -> c <> q) ->
  includes (n +:+ String q post) needle
  = includes n needle || includes (String q post) needle.
Proof.
  intros Hne Hq. induction n as [|c n IH].
  - unfold_append. destruct needle; [congruence|]. reflexivity.
  - rewrite append_cons.
    change (includes (String c (n +:+ String q post)) needle)
      with (String.prefix needle (String c (n +:+ String q post))
            || includes (n +:+ String q post) needle).
    change (includes (String c n) needle)
      with (String.prefix needle (String c n) || includes n needle).
    rewrite IH. rewrite <- append_cons, prefix_before by assumption.
    rewrite orb_assoc. reflexivity.
Qed.

(** The message of the error for an existing target mentions [404] or
    [Not Found] exactly when the new name does. *)
Lemma existing_target_message (newName : string) :
  notFoundMessage ("目标路径 " +:+ dq +:+ newName +:+ dq +:+ " 已存在")
  = notFoundMessage newName.
Proof.
  unfold notFoundMessage, dq.
  assert (H : forall needle, needle = "404" \/ needle = "Not Found" ->
            includes ("目标路径 " +:+ String (ascii_of_nat 34) EmptyString +:+ newName
                      +:+ String (ascii_of_nat 34) EmptyString +:+ " 已存在") needle
            = includes newName needle).
  { intros needle Hn.
    transitivity (includes (newName +:+ String (ascii_of_nat 34) " 已存在") needle).
    - destruct Hn as [-> | ->]; unfold_append; reflexivity.
    - rewrite includes_before.
      + destruct Hn as [-> | ->]; rewrite orb_false_r; reflexivity.
      + destruct Hn as [-> | ->]; discriminate.
      + intros c Hc. destruct Hn as [-> | ->]; simpl in Hc;
          repeat (destruct Hc as [<- | Hc]; [discriminate|]); contradiction. }
  rewrite !H by auto. reflexivity.
Qed.

Section Facts.
Context {W : Type} {E : Environment W}.

(** What the first [try] of [renameItem] makes of a target that exists. *)
Lemma targetIsFree_existing (client : MyWebDAVClient) (conn : WebDAVConnection)
    (newPath newName : string) (s : State W) (w' : W) (found : FileStat) :
  connection client = Some conn ->
  dav_stat (WebdavClient.client conn) newPath (world (net s)) = (w', inr found) ->
  targetIsFree client newPath newName s
  = (afterCall (Stat newPath) w' s,
     if notFoundMessage newName then Ok tt
     else Throw (newError ("目标路径 " +:+ dq +:+ newName +:+ dq +:+ " 已存在"))).
Proof.
  intros Hconn Hstat. unfold targetIsFree, tryCatch, bind at 1.
  rewrite remote_stat_eq, Hconn, Hstat. cbv beta iota. unfold throw at 1.
  cbn [message newError].
  pose proof (existing_target_message newName) as Hmsg. unfold notFoundMessage in Hmsg.
  rewrite <- negb_orb, Hmsg. fold (notFoundMessage newName).
  destruct (notFoundMessage newName); reflexivity.
Qed.

(** X9.  [renameItem] does not rename onto a path that exists,
    provided the new name contains neither [404] nor [Not Found]: the
    target is looked up, the rename is reported as failed, and nothing
    else is asked of the server. *)
Theorem renameItem_refuses_existing_target (fuel : nat) (item : WebDAVTreeItem)
    (newName : string) (s : State W) (client : MyWebDAVClient)
    (conn : WebDAVConnection) (w' : W) (found : FileStat) :
  isConnected s = true ->
  webdavClient s = Some client ->
  connection client = Some conn ->
  newName <> EmptyString ->
  newName <> label item ->
  dav_stat (WebdavClient.client conn) (renamedPath item newName) (world (net s))
  = (w', inr found) ->
  notFoundMessage newName = false ->
  renameItem fuel item (Some newName) s
  = (notify (ErrorMessage ("重命名失败: 目标路径 " +:+ dq +:+ newName +:+ dq +:+ " 已存在"))
       (afterCall (Stat (renamedPath item newName)) w' s),
     Ok tt).
Proof.
  intros Hconnected Hclient Hconn Hname Hlabel Hstat Hplain.
  unfold renameItem, bind at 1, gets. rewrite Hconnected.
  unfold bind at 1. rewrite Hclient. cbv beta iota.
  replace (negb (truthy newName) || String.eqb newName (label item)) with false.
  2:{ symmetry. apply orb_false_iff. split.
      - unfold truthy. rewrite negb_involutive. apply String.eqb_neq. exact Hname.
      - apply String.eqb_neq. exact Hlabel. }
  unfold tryCatch at 1, bind at 1.
  rewrite (targetIsFree_existing client conn _ newName s w' found Hconn Hstat), Hplain.
  cbv beta iota. unfold showErrorMessage, modify, orElse, truthy, dq.
  unfold_append. reflexivity.
Qed.

(** The log only grows. *)
Lemma copyOrMoveFile_grows (sourcePath targetPath : string) (op : Operation) :
  issues (@net W) (fun _ => True) (copyOrMoveFile sourcePath targetPath op).
Proof.
  unfold copyOrMoveFile, readSource.
  pose proof (fun c p f => remote_issues (fun _ => True) _
                (getFileContents_issues (fun _ => True) c p f (fun _ => I))).
  pose proof (fun c p x o => remote_issues (fun _ => True) _
                (createFile_issues (fun _ => True) c p x o I I I)).
  pose proof (fun c p => remote_issues (fun _ => True) _
                (deleteFile_issues (fun _ => True) c p I)).
  pose proof (fun A c (g : W -> W * (JsError + A)) =>
                remote_issues (fun _ => True) _ (issues_invoke (fun _ => True) c g I)).
  log_step.
Qed.

Lemma bind_extends {A B} (m : M (State W) A) (k : A -> M (State W) B) (s : State W) :
  (forall a, issues (@net W) (fun _ => True) (k a)) ->
  exists l, calls (net (fst (bind m k s))) = (calls (net (fst (m s))) ++ l)%list.
Proof.
  intros Hk. unfold bind. destruct (m s) as [s1 [a|e|]]; simpl.
  - destruct (Hk a s1) as (l & Hl & _). eauto.
  - exists []. symmetry. apply app_nil_r.
  - exists []. symmetry. apply app_nil_r.
Qed.

Lemma tryCatch_extends {A} (m : M (State W) A) (h : JsError -> M (State W) A)
    (s : State W) :
  (forall e, issues (@net W) (fun _ => True) (h e)) ->
  exists l, calls (net (fst (tryCatch m h s))) = (calls (net (fst (m s))) ++ l)%list.
Proof.
  intros Hh. unfold tryCatch. destruct (m s) as [s1 [a|e|]]; simpl.
  - exists []. symmetry. apply app_nil_r.
  - destruct (Hh e s1) as (l & Hl & _). eauto.
  - exists []. symmetry. apply app_nil_r.
Qed.

(** With a session, a read is one call whatever the answer. *)
Lemma getFileContents_calls (client : MyWebDAVClient) (conn : WebDAVConnection)
    (p : string) (format : Format) (s : State W) :
  connection client = Some conn ->
  calls (net (fst (remote (getFileContents client p (Some format)) s)))
  = (calls (net s) ++ [GetFileContents p format])%list.
Proof.
  intros Hconn. unfold remote, zoom, getFileContents. rewrite Hconn.
  unfold tryCatch, invoke.
  destruct format;
    destruct (dav_getFileContents _ _ _ _) as [w' [e|c]]; simpl; try reflexivity;
    destruct (hasStatus e 404); try reflexivity;
    destruct (hasStatus e 403); reflexivity.
Qed.

(** A transfer of a file starts by reading the source as text. *)
Lemma copyOrMoveFile_starts (sourcePath targetPath : string) (op : Operation)
    (s : State W) (client : MyWebDAVClient) (conn : WebDAVConnection) :
  webdavClient s = Some client -> connection client = Some conn ->
  exists l,
    calls (net (fst (copyOrMoveFile sourcePath targetPath op s)))
    = (calls (net s) ++ GetFileContents sourcePath text :: l)%list.
Proof.
  intros Hclient Hconn.
  pose proof (fun c p f => remote_issues (fun _ => True) _
                (getFileContents_issues (fun _ => True) c p f (fun _ => I))) as Hread.
  pose proof (fun c p x o => remote_issues (fun _ => True) _
                (createFile_issues (fun _ => True) c p x o I I I)) as Hwrite.
  pose proof (fun c p => remote_issues (fun _ => True) _
                (deleteFile_issues (fun _ => True) c p I)) as Hdelete.
  pose proof (fun A c (g : W -> W * (JsError + A)) =>
                remote_issues (fun _ => True) _ (issues_invoke (fun _ => True) c g I))
    as Hput.
  unfold copyOrMoveFile, bind at 1, gets. rewrite Hclient. cbv beta iota.
  match goal with
  | |- context [bind (readSource client sourcePath op) ?k s] =>
      destruct (bind_extends (readSource client sourcePath op) k s) as [l1 H1];
        [intros; log_step | rewrite H1; clear H1]
  end.
  unfold readSource.
  match goal with
  | |- context [tryCatch ?m ?h s] =>
      destruct (tryCatch_extends m h s) as [l2 H2];
        [intros; log_step | rewrite H2; clear H2]
  end.
  match goal with
  | |- context [bind ?m ?k s] =>
      destruct (bind_extends m k s) as [l3 H3];
        [intros; log_step | rewrite H3; clear H3]
  end.
  rewrite (getFileContents_calls client conn sourcePath text s Hconn).
  exists (l3 ++ l2 ++ l1)%list.
  rewrite <- !app_assoc. reflexivity.
Qed.

(** X10.  The guard of [renameItem] against an existing target is
    lifted by the new name itself: when the name contains [404] or
    [Not Found], a file is moved onto the path that exists.  After the
    lookup of the target the move starts with the read of the source. *)
Theorem renameItem_moves_onto_existing_target (fuel : nat) (item : WebDAVTreeItem)
    (newName : string) (s : State W) (client : MyWebDAVClient)
    (conn : WebDAVConnection) (w' : W) (found : FileStat) :
  isConnected s = true ->
  webdavClient s = Some client ->
  connection client = Some conn ->
  newName <> label item ->
  type item = file ->
  dav_stat (WebdavClient.client conn) (renamedPath item newName) (world (net s))
  = (w', inr found) ->
  notFoundMessage newName = true ->
  exists rest,
    calls (net (fst (renameItem fuel item (Some newName) s)))
    = (calls (net s)
       ++ Stat (renamedPath item newName) :: GetFileContents (path item) text :: rest)%list.
Proof.
  intros Hconnected Hclient Hconn Hlabel Htype Hstat Hmentions.
  assert (Hname : newName <> EmptyString) by (intros ->; discriminate).
  pose proof (refresh_issues (fun _ => True) (fun _ => I)) as Hrefresh.
  unfold renameItem, bind at 1, gets. rewrite Hconnected.
  unfold bind at 1. rewrite Hclient. cbv beta iota.
  replace (negb (truthy newName) || String.eqb newName (label item)) with false.
  2:{ symmetry. apply orb_false_iff. split.
      - unfold truthy. rewrite negb_involutive. apply String.eqb_neq. exact Hname.
      - apply String.eqb_neq. exact Hlabel. }
  rewrite Htype.
  match goal with
  | |- context [tryCatch ?m ?h s] =>
      destruct (tryCatch_extends m h s) as [l1 H1];
        [intros; unfold showErrorMessage; log_step | rewrite H1; clear H1]
  end.
  unfold bind at 1.
  rewrite (targetIsFree_existing client conn _ newName s w' found Hconn Hstat), Hmentions.
  cbv beta iota.
  match goal with
  | |- context [bind ?m ?k ?s1] =>
      destruct (bind_extends m k s1) as [l2 H2];
        [intros; unfold showInformationMessage; log_step | rewrite H2; clear H2]
  end.
  unfold moveFile.
  destruct (copyOrMoveFile_starts (path item) (renamedPath item newName) cut
              (afterCall (Stat (renamedPath item newName)) w' s) client conn)
    as [l3 H3]; [exact Hclient | exact Hconn |].
  rewrite H3. cbn [afterCall setNet net calls].
  exists (l3 ++ l2 ++ l1)%list. rewrite <- !app_assoc. reflexivity.
Qed.

End Facts.
End RenameFacts.

Module CreateFacts.
Import Js Dav Promise WebdavClient TreeDataProvider TreeCommands.
Import PasteStates StringFacts ClipboardFacts RenameFacts.
Import CallLog CallLogFacts ClientLogFacts TreeLogFacts.

Section Facts.
Context {W : Type} {E : Environment W}.

(** The look at the parent always hands back a parent, after one [stat]. *)
Lemma parentDirectory_returns (client : MyWebDAVClient) (conn : WebDAVConnection)
    (p : string) (s : State W) :
  connection client = Some conn ->
  exists s' parent,
    parentDirectory client p s = (s', Ok parent)
    /\ (parent = p \/ parent = NodePath.dirname p)
    /\ calls (net s') = (calls (net s) ++ [Stat p])%list
    /\ webdavClient s' = webdavClient s.
Proof.
  intros Hconn. unfold parentDirectory, tryCatch, bind. rewrite remote_stat_eq, Hconn.
  destruct (dav_stat _ _ _) as [w' [e|found]].
  - eexists _, _. split; [reflexivity|]. simpl. auto.
  - destruct (String.eqb _ "file"); eexists _, _; (split; [reflexivity|]); simpl; auto.
Qed.

(** A round of the ancestor loop returns normally whatever [stat]
    answers; all it leaves is the [stat] in the log. *)
Lemma checkAncestor_returns (client : MyWebDAVClient) (pathParts : list string)
    (i : nat) (s : State W) :
  exists s',
    checkAncestor client pathParts i s = (s', Ok tt)
    /\ adds (fun c => exists p, c = Stat p) (net s) (net s')
    /\ webdavClient s' = webdavClient s.
Proof.
  unfold checkAncestor.
  destruct (truthy _);
    [|exists s; split; [reflexivity|]; split; [apply adds_refl | reflexivity]].
  unfold tryCatch, bind. rewrite remote_stat_eq.
  destruct (connection client) as [conn|].
  - destruct (dav_stat _ _ _) as [w' [e|found]];
      [|destruct (String.eqb _ "file")];
      (eexists; split; [reflexivity|]); (split; [|reflexivity]);
      (eexists [_]; split; [reflexivity | repeat constructor; eauto]).
  - eexists; split; [reflexivity|]. split; [apply adds_refl | reflexivity].
Qed.

Lemma checkAncestors_return (client : MyWebDAVClient) (pathParts : list string)
    (rounds : list nat) (s : State W) :
  exists s',
    forEach rounds (checkAncestor client pathParts) s = (s', Ok tt)
    /\ adds (fun c => exists p, c = Stat p) (net s) (net s')
    /\ webdavClient s' = webdavClient s.
Proof.
  revert s. induction rounds as [|i rounds IH]; intros s; simpl.
  - exists s. split; [reflexivity|]. split; [apply adds_refl | reflexivity].
  - unfold bind.
    destruct (checkAncestor_returns client pathParts i s) as (s1 & -> & H1 & Hc1).
    destruct (IH s1) as (s2 & -> & H2 & Hc2).
    exists s2. split; [reflexivity|]. split; [eapply adds_trans; eauto | congruence].
Qed.

Lemma createDirectory_calls (client : MyWebDAVClient) (conn : WebDAVConnection)
    (p : string) (s : State W) :
  connection client = Some conn ->
  calls (net (fst (remote (createDirectory client p) s)))
  = (calls (net s) ++ [CreateDirectory p true])%list.
Proof.
  intros Hconn. unfold remote, zoom, createDirectory. rewrite Hconn.
  unfold tryCatch, invoke.
  destruct (dav_createDirectory _ _ _ _) as [w' [e|u]]; reflexivity.
Qed.

(** X11.  The check of the ancestors in [createFolder] never stops the
    creation: the error it throws for an ancestor that is a file is
    caught inside the loop.  Connected and given a name, [createFolder]
    always goes on to ask the server to create the folder, after nothing
    but [stat] calls, whatever those have answered. *)
Theorem createFolder_check_never_vetoes (parentPath : ParentArgument)
    (folderName : string) (s : State W) (client : MyWebDAVClient)
    (conn : WebDAVConnection) :
  isConnected s = true ->
  webdavClient s = Some client ->
  connection client = Some conn ->
  folderName <> EmptyString ->
  exists fullPath stats rest,
    calls (net (fst (createFolder parentPath (Some folderName) s)))
    = (calls (net s) ++ stats ++ CreateDirectory fullPath true :: rest)%list
    /\ Forall (fun c => exists p, c = Stat p) stats
    /\ (fullPath = childPath (resolveParent s parentPath) folderName
        \/ fullPath = childPath (NodePath.dirname (resolveParent s parentPath))
                        folderName).
Proof.
  intros Hconnected Hclient Hconn Hname.
  pose proof (refresh_issues (fun _ => True) (fun _ => I)) as Hrefresh.
  unfold createFolder, bind at 1, gets. rewrite Hconnected. cbn [negb].
  unfold bind at 1. rewrite Hclient. cbv beta iota.
  unfold bind at 1.
  replace (negb (truthy folderName)) with false
    by (unfold truthy; rewrite negb_involutive; symmetry;
        apply String.eqb_neq; exact Hname).
  unfold bind at 1. rewrite Hclient. unfold bind at 1. rewrite Hconnected.
  cbv beta iota.
  match goal with
  | |- context [tryCatch ?m ?h s] =>
      destruct (tryCatch_extends m h s) as [l1 H1];
        [intros; unfold showErrorMessage; log_step | rewrite H1; clear H1]
  end.
  unfold bind at 1.
  destruct (parentDirectory_returns client conn (resolveParent s parentPath) s Hconn)
    as (s1 & parent & -> & Hparent & Hcalls1 & Hclient1).
  cbv beta iota zeta. unfold bind at 1.
  match goal with
  | |- context [forEach ?rounds (checkAncestor client ?parts) s1] =>
      destruct (checkAncestors_return client parts rounds s1)
        as (s2 & -> & (stats & Hcalls2 & Hstats) & Hclient2)
  end.
  cbv beta iota.
  match goal with
  | |- context [bind ?m ?k s2] =>
      destruct (bind_extends m k s2) as [l2 H2];
        [intros; unfold showInformationMessage; log_step | rewrite H2; clear H2]
  end.
  rewrite (createDirectory_calls client conn _ s2 Hconn), Hcalls2, Hcalls1.
  exists (childPath parent folderName), (Stat (resolveParent s parentPath) :: stats),
    (l2 ++ l1)%list.
  split; [|split].
  - simpl. rewrite <- !app_assoc. reflexivity.
  - constructor; [eauto | exact Hstats].
  - destruct Hparent as [-> | ->]; auto.
Qed.

End Facts.
End CreateFacts.

Module CreateFileFacts.
Import Js Dav Promise WebdavClient TreeDataProvider TreeCommands.
Import CallLog CommandCalls CallLogFacts ClientLogFacts TreeLogFacts.

Section Facts.
Context {W : Type} {E : Environment W}.

(** X12.  [createFile] writes the new file without looking whether it
    exists: besides listings, the only calls it issues are the look at
    the parent directory (and its creation), and the put of the empty
    content at [parent/name] with [overwrite] on.  It never reads and
    never deletes; not connected, it issues no call at all. *)
Theorem createFile_overwrites_blindly (parentPath : ParentArgument)
    (fileName : string) (s : State W) :
  adds (createFileCall (childPath (resolveParent s parentPath) fileName))
       (net s) (net (fst (createFile parentPath (Some fileName) s)))
  /\ (isConnected s = false ->
      net (fst (createFile parentPath (Some fileName) s)) = net s).
Proof.
  set (fullPath := childPath (resolveParent s parentPath) fileName).
  assert (Hstays : forall (s0 : State W) (r0 : Result unit),
            net s0 = net s ->
            adds (createFileCall fullPath) (net s) (net (fst (s0, r0)))
            /\ (isConnected s = false -> net (fst (s0, r0)) = net s)).
  { intros s0 r0 Hnet. simpl. rewrite Hnet. split; [apply adds_refl | reflexivity]. }
  destruct (createFile parentPath (Some fileName) s) as [s2 r2] eqn:Hrun.
  revert Hrun. unfold createFile, bind at 1, gets. cbv beta iota.
  destruct (isConnected s) eqn:Hconnected; cbn [negb]; cbv beta iota;
    [|intros <-; apply Hstays; reflexivity].
  unfold bind at 1. cbv beta iota.
  destruct (webdavClient s) as [client|] eqn:Hclient;
    [|intros <-; apply Hstays; reflexivity].
  unfold bind at 1. cbv beta iota.
  destruct (negb (truthy fileName)); [intros <-; apply Hstays; reflexivity|].
  unfold bind at 1. rewrite Hclient. unfold bind at 1. rewrite Hconnected.
  cbv beta iota. fold fullPath.
  match goal with
  | |- ?m s = _ -> _ =>
      assert (Hissues : issues (@net W) (createFileCall fullPath) m)
  end.
  { pose proof (refresh_issues (createFileCall fullPath) (fun _ => I)).
    pose proof (remote_issues (createFileCall fullPath) _
                  (createFile_issues (createFileCall fullPath) client fullPath
                     (StringContent EmptyString) true eq_refl (conj eq_refl eq_refl)
                     (conj eq_refl (conj eq_refl eq_refl)))).
    unfold showInformationMessage, showErrorMessage. log_step. }
  intros Hrun. specialize (Hissues s). rewrite Hrun in Hissues.
  split; [exact Hissues | discriminate].
Qed.

End Facts.
End CreateFileFacts.

Module CopyFacts.
Import Js Dav Promise WebdavClient TreeDataProvider.
Import PasteStates StringFacts ClipboardFacts.
Import CallLog CommandCalls CallLogFacts ClientLogFacts TreeLogFacts.

Lemma prefix_trans (a b p : string) :
  String.prefix a b = true -> String.prefix b p = true -> String.prefix a p = true.
Proof.
  intros Hab Hbp. apply prefix_split in Hab as [x ->]. apply prefix_split in Hbp as [y ->].
  rewrite append_assoc. apply prefix_append.
Qed.

(** An entry of a directory lies within the directory, and so does
    what lies within the entry. *)
Lemma within_child (dir name p : string) :
  within (if String.eqb dir "/" then "/" +:+ name else dir +:+ "/" +:+ name) p ->
  within dir p.
Proof.
  destruct (String.eqb_spec dir "/") as [->|Hdir]; intros [-> | [H | [Hroot H]]].
  - right. right. split; [reflexivity | apply (prefix_append "/")].
  - right. right. split; [reflexivity|].
    eapply prefix_trans; [|exact H]. rewrite append_assoc. apply (prefix_append "/").
  - right. right. auto.
  - right. left. rewrite <- append_assoc. apply prefix_append.
  - right. left. eapply prefix_trans; [|exact H].
    rewrite <- (append_assoc dir "/" name), append_assoc. apply prefix_append.
  - right. left. destruct dir as [|c dir].
    + exact H.
    + exfalso. unfold_append. injection Hroot as Hc Hrest.
      destruct dir; unfold_append; [|discriminate]. subst c. congruence.
Qed.

Section Facts.
Context {W : Type} {E : Environment W}.

(** [deleteDirectory] deletes nothing outside the directory. *)
Lemma deleteDirectory_within (fuel : nat) (this : MyWebDAVClient) (path : string) :
  issues (fun n : Net W => n) (deletesWithin path) (deleteDirectory fuel this path).
Proof.
  revert path. induction fuel as [|fuel IH]; intros path; simpl.
  - apply issues_outOfFuel.
  - pose proof (getDirectoryContents_issues (deletesWithin path) this path I).
    assert (Hself : deletesWithin path (DeleteFile path)) by (left; reflexivity).
    assert (Hfile : forall name,
              issues (fun n : Net W => n) (deletesWithin path)
                (deleteFile this
                   (if String.eqb path "/" then "/" +:+ name
                    else path +:+ "/" +:+ name))).
    { intros name. apply deleteFile_issues. simpl.
      apply (within_child path name). left. reflexivity. }
    assert (Hdir : forall name,
              issues (fun n : Net W => n) (deletesWithin path)
                (deleteDirectory fuel this
                   (if String.eqb path "/" then "/" +:+ name
                    else path +:+ "/" +:+ name))).
    { intros name. eapply issues_impl; [|apply IH].
      intros [] Hc; simpl in *; auto. apply (within_child path name). exact Hc. }
    log_step.
Qed.

(** A copy does not delete. *)
Lemma copyOrMoveFile_copy (P : Call -> Prop) (sourcePath targetPath : string) :
  (forall c, isDelete c = false -> P c) ->
  issues (@net W) P (copyOrMoveFile sourcePath targetPath copy).
Proof.
  intros HP. unfold copyOrMoveFile, readSource.
  pose proof (fun c p f => remote_issues P _
                (getFileContents_issues P c p f
                   (fun f => HP (GetFileContents p f) eq_refl))).
  pose proof (fun c p x o => remote_issues P _
                (createFile_issues P c p x o (HP (Stat _) eq_refl)
                   (HP (CreateDirectory _ _) eq_refl)
                   (HP (PutFileContents _ _ _) eq_refl))).
  pose proof (fun p x o (g : W -> W * (JsError + unit)) =>
                remote_issues P _
                  (issues_invoke P (PutFileContents p x o) g
                     (HP (PutFileContents p x o) eq_refl))).
  log_step.
Qed.

Lemma copyOrMoveDirectory_copy (P : Call -> Prop) (fuel : nat)
    (sourcePath targetPath : string) :
  (forall c, isDelete c = false -> P c) ->
  issues (@net W) P (copyOrMoveDirectory fuel sourcePath targetPath copy).
Proof.
  intros HP. revert sourcePath targetPath.
  induction fuel as [|fuel IH]; intros sourcePath targetPath; simpl.
  - apply issues_outOfFuel.
  - pose proof (copyOrMoveFile_copy P) as Hfile.
    pose proof (fun c p => remote_issues P _
                  (createDirectory_issues P c p (HP (CreateDirectory _ _) eq_refl))).
    pose proof (fun c p => remote_issues P _
                  (getDirectoryContents_issues P c p
                     (HP (GetDirectoryContents _) eq_refl))).
    log_step.
Qed.

Lemma performPaste_copy (fuel : nat) (client : MyWebDAVClient) (clip : Clipboard)
    (newPath targetName : string) :
  operation clip = copy ->
  issues (@net W) (deletesWithin newPath)
    (performPaste fuel client clip newPath targetName).
Proof.
  intros Hop.
  assert (HP : forall c, isDelete c = false -> deletesWithin newPath c)
    by (intros []; simpl; auto; discriminate).
  unfold performPaste, clearDestination, copyOrMoveEntry, finishPaste, failPaste,
    showInformationMessage, showErrorMessage.
  rewrite Hop.
  pose proof (fun p => remote_issues (deletesWithin newPath) _
                (stat_issues (deletesWithin newPath) client p I)).
  pose proof (askOverwrite_issues (deletesWithin newPath)).
  pose proof (remote_issues (deletesWithin newPath) _
                (deleteDirectory_within fuel client newPath)).
  pose proof (remote_issues (deletesWithin newPath) _
                (deleteFile_issues (deletesWithin newPath) client newPath
                   (or_introl eq_refl))).
  pose proof (copyOrMoveFile_copy (deletesWithin newPath) (sourcePath clip) newPath HP).
  pose proof (copyOrMoveDirectory_copy (deletesWithin newPath) fuel (sourcePath clip)
                newPath HP).
  pose proof (updateContext_issues (deletesWithin newPath)).
  pose proof (refresh_issues (deletesWithin newPath) (fun _ => I)).
  log_step.
Qed.

(** X13.  Pasting a copy deletes nothing outside its destination: every
    delete issued while a copied entry is pasted is of the destination
    path or of a path below it (the overwrite the user agreed to).  The
    source is deleted only when it lies there. *)
Theorem copy_paste_deletes_within_destination (fuel : nat)
    (target : option WebDAVTreeItem) (s : State W) (clip : Clipboard) :
  clipboard s = Some clip ->
  operation clip = copy ->
  adds (deletesWithin (newPathOf s target clip))
       (net s) (net (fst (pasteItem fuel target s))).
Proof.
  intros Hclip Hop. rewrite pasteItem_unfold, Hclip.
  destruct (isConnected s); [|apply adds_refl].
  destruct (webdavClient s) as [client|]; [|apply adds_refl].
  destruct (expired _ clip); [apply adds_refl|].
  rewrite sourceStillExists_eq.
  destruct (connection client) as [conn|]; [|apply adds_refl].
  destruct (dav_stat _ _ _) as [w' [e|found]].
  - exists [Stat (sourcePath clip)]. split; [reflexivity | repeat constructor].
  - set (s1 := afterCall (Stat (sourcePath clip)) w' s).
    assert (Hs1 : adds (deletesWithin (newPathOf s target clip)) (net s) (net s1)).
    { exists [Stat (sourcePath clip)]. split; [reflexivity | repeat constructor]. }
    change (newPathOf s1 target clip) with (newPathOf s target clip).
    destruct (String.eqb _ _); [exact Hs1|].
    destruct (_ && _); [exact Hs1|].
    eapply adds_trans; [exact Hs1|].
    apply (performPaste_copy fuel client clip _ _ Hop s1).
Qed.

End Facts.
End CopyFacts.

Module ClientFacts.
Import Js Dav Promise WebdavClient ClientStatus.
Import CallLog CallLogFacts ClientLogFacts ConnectFacts.

Section Facts.
Context {W : Type} {E : Environment W}.

(** X14.  [connect] does not contact the server with arguments it can
    see are unusable.  With no [connect] in flight, and an empty server
    address, user name or password, or an address that starts with
    neither [http://] nor [https://], it throws before any call: the net
    is what it was, the session there was is dropped, and no [connect]
    is in flight afterwards. *)
Theorem connect_rejects_unusable_arguments (serverUrl username password basePath : string)
    (s : Net W * MyWebDAVClient) :
  connectionPromise (snd s) = None ->
  serverUrl = EmptyString \/ username = EmptyString \/ password = EmptyString
  \/ (startsWith serverUrl "http://" = false /\ startsWith serverUrl "https://" = false) ->
  exists m,
    connect serverUrl username password basePath s
    = ((fst s, {| connection := None; connectionPromise := None |}),
       Throw (newError m))
    /\ (m = "服务器地址、用户名或密码不能为空"
        \/ m = "服务器地址必须以 http:// 或 https:// 开头").
Proof.
  intros Hidle H. unfold connect, bind at 1, gets. cbv beta iota. rewrite Hidle.
  unfold bind at 1, start. rewrite connectInternal_eq.
  destruct (negb (truthy serverUrl) || negb (truthy username) || negb (truthy password))
    eqn:Hempty.
  { eexists. split; [reflexivity | left; reflexivity]. }
  destruct (negb (startsWith serverUrl "http://") && negb (startsWith serverUrl "https://"))
    eqn:Hscheme.
  { eexists. split; [reflexivity | right; reflexivity]. }
  exfalso.
  apply orb_false_iff in Hempty as [Hempty Hp]. apply orb_false_iff in Hempty as [Hs Hu].
  unfold truthy in Hs, Hu, Hp. rewrite negb_involutive in Hs, Hu, Hp.
  apply String.eqb_neq in Hs, Hu, Hp.
  destruct H as [H | [H | [H | [H1 H2]]]]; try contradiction.
  rewrite H1, H2 in Hscheme. discriminate.
Qed.

(** X15.  After [disconnect] nothing reaches the server: every
    operation of the client throws [未连接到WebDAV服务器] and leaves the
    net as it was, no call having been issued. *)
Theorem disconnected_client_issues_no_call (this : MyWebDAVClient) (path : string)
    (content : Content) (overwrite : bool) (format : option Format) (fuel : nat)
    (n : Net W) :
  let off := disconnect this in
  stat off path n = (n, Throw notConnected)
  /\ getDirectoryContents off path n = (n, Throw notConnected)
  /\ getFileContents off path format n = (n, Throw notConnected)
  /\ createFile off path content overwrite n = (n, Throw notConnected)
  /\ createDirectory off path n = (n, Throw notConnected)
  /\ deleteFile off path n = (n, Throw notConnected)
  /\ deleteDirectory (S fuel) off path n = (n, Throw notConnected)
  /\ isConnected off = false.
Proof.
  intros off.
  assert (H : connection off = None).
  { unfold off, disconnect. destruct (connection this) eqn:H; [reflexivity | exact H]. }
  unfold stat, getDirectoryContents, getFileContents, createFile, createDirectory,
    deleteFile, isConnected. simpl. rewrite H. repeat split.
Qed.

Lemma orElse_truthy (a b : string) : truthy b = true -> truthy (orElse a b) = true.
Proof. intros H. unfold orElse. destruct (truthy a) eqn:Ha; [exact Ha | exact H]. Qed.

(** X16.  What [getDirectoryContents] returns holds no hidden entry and
    no entry without a type: no name starts with a dot, and every entry
    says what it is ([directory] or [file] when the server did not). *)
Theorem getDirectoryContents_entries (this : MyWebDAVClient) (path : string)
    (n n' : Net W) (entries : list FileStat) :
  getDirectoryContents this path n = (n', Ok entries) ->
  Forall (fun entry => startsWith (basename entry) "." = false
                       /\ type entry <> EmptyString) entries.
Proof.
  unfold getDirectoryContents. destruct (connection this) as [conn|]; [|discriminate].
  unfold tryCatch, bind, invoke.
  destruct (dav_getDirectoryContents _ _ _) as [w' [e|contents]]; cbv beta iota.
  - repeat match goal with |- context [if ?b then _ else _] => destruct b end;
      discriminate.
  - unfold ret. intros H. injection H as _ <-.
    apply List.Forall_forall. intros entry Hin.
    apply in_map_iff in Hin as (item & <- & Hin).
    apply filter_In in Hin as [_ Hshown]. unfold notHidden in Hshown.
    apply negb_true_iff in Hshown. split; [exact Hshown|].
    cbn [formatEntry type].
    assert (Ht : truthy (orElse (type item)
                           (if truthy (mime item) && includes (mime item) "directory"
                            then "directory" else "file")) = true).
    { apply orElse_truthy. destruct (_ && _); reflexivity. }
    intros Hempty. rewrite Hempty in Ht. discriminate.
Qed.

(** X17.  [checkConnection] never throws and always has something to
    say.  Without a session it issues no call and answers [未连接]; with
    one it issues one [stat] of the root, and reports success exactly
    when that was answered. *)
Theorem checkConnection_always_answers (this : MyWebDAVClient) (n : Net W) :
  exists answer,
    snd (checkConnection this n) = Ok answer
    /\ ClientStatus.message answer <> EmptyString
    /\ match connection this with
       | None =>
           fst (checkConnection this n) = n
           /\ ClientStatus.success answer = false
       | Some conn =>
           calls (fst (checkConnection this n)) = (calls n ++ [Stat "/"])%list
           /\ (ClientStatus.success answer = true
               <-> exists found,
                     snd (dav_stat (client conn) "/" (world n)) = inr found)
       end.
Proof.
  unfold checkConnection. destruct (connection this) as [conn|].
  - unfold tryCatch, bind, invoke.
    destruct (dav_stat (client conn) "/" (world n)) as [w' [e|found]]; simpl.
    + eexists. split; [reflexivity|]. split.
      * unfold orElse, truthy. destruct (Dav.message e); simpl; discriminate.
      * split; [reflexivity|]. split; [discriminate | intros [x Hx]; discriminate].
    + eexists. split; [reflexivity|]. split; [discriminate|].
      split; [reflexivity|]. split; eauto.
  - eexists. split; [reflexivity|]. split; [discriminate|]. split; reflexivity.
Qed.

End Facts.
End ClientFacts.

(* ===================================================================== *)
(** * The overlay: writing, reading, closing *)
(* ===================================================================== *)

Module OverlayReadFacts.
Import Js Dav Promise WebdavClient FileSystemProvider FileSystemReads.
Import PromiseFacts ConnectFacts CallLog CallLogFacts ClientLogFacts Unsaved.

Section Facts.
Context {W : Type} {E : Environment W}.

(** Writing a cache file touches the disk and nothing else, and a
    failure that is passed over leaves no trace in the result. *)
Lemma writeCache_frame (uri : Uri) (cached : string) (s : State W) :
  net (fst (writeCache uri cached s)) = net s
  /\ webdavClient (fst (writeCache uri cached s)) = webdavClient s
  /\ virtualFiles (fst (writeCache uri cached s)) = virtualFiles s
  /\ tempDir (fst (writeCache uri cached s)) = tempDir s
  /\ snd (writeCache uri cached s) <> OutOfFuel.
Proof.
  unfold writeCache. destruct (fs_writeFileSync _ _ _) as [d [e|]];
    repeat split; discriminate.
Qed.

Lemma writeCache_caught (uri : Uri) (cached : string) (s : State W) :
  exists s', tryCatch (writeCache uri cached) (fun error => ret tt) s = (s', Ok tt)
             /\ net s' = net s /\ webdavClient s' = webdavClient s
             /\ virtualFiles s' = virtualFiles s /\ tempDir s' = tempDir s.
Proof.
  unfold tryCatch, writeCache. destruct (fs_writeFileSync _ _ _) as [d [e|]];
    eexists; repeat split.
Qed.

(** X18.  What the editor writes it reads back: after a [writeFile]
    that returned, [readFile] gives the bytes written and [stat] their
    number, and the document is dirty.  Nothing has been sent to the
    server: the net is what it was. *)
Theorem writeFile_then_readFile (uri : Uri) (bytes : list Byte.byte)
    (create overwrite : bool) (s s' : State W) :
  writeFile uri bytes create overwrite s = (s', Ok tt) ->
  readFile uri s' = (s', Ok bytes)
  /\ (exists info, stat uri s' = (s', Ok info)
                   /\ FileSystemReads.size info = Z.of_nat (List.length bytes))
  /\ (isDirty <$> getVirtualFile s' uri) = Some true
  /\ net s' = net s.
Proof.
  unfold writeFile, bind at 1, gets. cbv beta iota zeta.
  assert (Hdone : forall (s1 : State W) (vf : VirtualFile),
              tryCatch (writeCache uri (decode bytes)) (fun error => ret tt) s1
              = (s', Ok tt) ->
              virtualFiles s1 = <[Uri_toString uri := vf]> (virtualFiles s) ->
              content vf = bytes -> isDirty vf = true ->
              FileSystemProvider.size vf = Z.of_nat (List.length bytes) ->
              net s1 = net s ->
              readFile uri s' = (s', Ok bytes)
              /\ (exists info, stat uri s' = (s', Ok info)
                               /\ FileSystemReads.size info = Z.of_nat (List.length bytes))
              /\ (isDirty <$> getVirtualFile s' uri) = Some true
              /\ net s' = net s).
  { intros s1 vf Hcache Hfiles Hcontent Hdirty Hsize Hnet.
    destruct (writeCache_caught uri (decode bytes) s1) as (s2 & Hrun & Hn & _ & Hv & _).
    rewrite Hrun in Hcache. injection Hcache as <-.
    unfold readFile, stat, getVirtualFile, bind, gets, ret.
    rewrite Hv, Hfiles, lookup_insert_eq.
    cbv beta iota. cbn [fmap option_fmap option_map].
    rewrite Hcontent, Hdirty, Hn, Hnet.
    repeat split. eexists. split; [reflexivity|exact Hsize]. }
  destruct (virtualFiles s !! Uri_toString uri) as [vf|] eqn:Hlookup.
  - cbn [negb andb].
    destruct overwrite; cbn [negb]; [|discriminate].
    unfold bind at 1, now, gets. cbv beta iota. unfold bind at 1, modify.
    cbv beta iota. intros H. refine (Hdone _ _ H eq_refl _ _ _ _); reflexivity.
  - cbn [negb andb].
    destruct create; cbn [negb]; [|discriminate].
    unfold bind at 1, now, gets. cbv beta iota.
    destruct (decodeURIComponent (authority uri)) as [webdavPath|];
      [|unfold bind, throw; discriminate].
    unfold bind at 1, modify. cbv beta iota.
    intros H. refine (Hdone _ _ H eq_refl _ _ _ _); reflexivity.
Qed.

(** X19.  A document that has been closed with [delete] is no longer
    tracked: [stat] throws [FileNotFound], and no call has been issued.
    [readFile] throws [FileNotFound] as well when the cache file of
    the document is gone.  But a cache file that could not be removed
    is left on the disk, and [readFile] then goes on to serve what it
    holds for the closed document. *)
Theorem delete_then_gone (uri : Uri) (s s' : State W) :
  FileSystemProvider.delete uri s = (s', Ok tt) ->
  stat uri s' = (s', Throw (newError "FileNotFound"))
  /\ getVirtualFile s' uri = None
  /\ net s' = net s
  /\ readFile uri s'
     = (s', if fs_existsSync (getCachePath s' uri) (disk s') then
              match fs_readFileSync (getCachePath s' uri) (disk s') with
              | inr cached => Ok (encode cached)
              | inl _ => Throw (newError "FileNotFound")
              end
            else Throw (newError "FileNotFound")).
Proof.
  unfold FileSystemProvider.delete, bind at 1, gets. cbv beta iota.
  destruct (virtualFiles s !! Uri_toString uri) as [vf|]; [|discriminate].
  unfold bind, modify, tryCatch, removeCache.
  set (s1 := setVirtualFiles (base.delete (Uri_toString uri) (virtualFiles s)) s).
  assert (Hgone : forall s2 : State W,
            virtualFiles s2 = virtualFiles s1 -> net s2 = net s1 ->
            stat uri s2 = (s2, Throw (newError "FileNotFound"))
            /\ getVirtualFile s2 uri = None
            /\ net s2 = net s
            /\ readFile uri s2
               = (s2, if fs_existsSync (getCachePath s2 uri) (disk s2) then
                        match fs_readFileSync (getCachePath s2 uri) (disk s2) with
                        | inr cached => Ok (encode cached)
                        | inl _ => Throw (newError "FileNotFound")
                        end
                      else Throw (newError "FileNotFound"))).
  { intros s2 Hv Hn.
    assert (Hlookup : virtualFiles s2 !! Uri_toString uri = None).
    { rewrite Hv. apply lookup_delete_eq. }
    unfold stat, readFile, getVirtualFile, bind, gets, throw, ret.
    rewrite Hlookup. cbv beta iota.
    split; [reflexivity|]. split; [reflexivity|]. split; [rewrite Hn; reflexivity|].
    destruct (fs_existsSync _ _); [|reflexivity].
    destruct (fs_readFileSync _ _); reflexivity. }
  destruct (fs_existsSync (getCachePath s1 uri) (disk s1)).
  - destruct (fs_unlinkSync _ _) as [d [e|]]; intros H; injection H as <-;
      apply Hgone; reflexivity.
  - intros H. injection H as <-. apply Hgone; reflexivity.
Qed.

(** The client's [createDirectory] and [createFile] always come back. *)
Lemma createDirectory_returns (this : MyWebDAVClient) (p : string) (n : Net W) :
  snd (createDirectory this p n) <> OutOfFuel.
Proof.
  unfold createDirectory. destruct (connection this); [|discriminate].
  apply tryCatch_returns; [apply invoke_returns | discriminate].
Qed.

Lemma createFile_returns (this : MyWebDAVClient) (p : string) (c : Content)
    (overwrite : bool) (n : Net W) :
  snd (createFile this p c overwrite n) <> OutOfFuel.
Proof.
  unfold createFile. destruct (connection this); [|discriminate].
  apply tryCatch_returns; [|discriminate].
  apply bind_returns; [|intros; apply invoke_returns].
  intros n1. destruct (_ && _); [|discriminate].
  apply tryCatch_returns.
  - apply bind_returns; [apply invoke_returns | discriminate].
  - intros e n2. destruct (hasStatus e 404); [apply createDirectory_returns | discriminate].
Qed.

(** A [createFile] that went through ends with the put. *)
Lemma createFile_ok_puts (this : MyWebDAVClient) (p : string) (c : Content)
    (overwrite : bool) (n n' : Net W) :
  createFile this p c overwrite n = (n', Ok tt) ->
  exists l, calls n' = (calls n ++ l ++ [PutFileContents p c overwrite])%list.
Proof.
  unfold createFile. destruct (connection this) as [conn|]; [|discriminate].
  unfold tryCatch at 1.
  match goal with |- context [bind ?m ?k n] =>
    destruct (bind m k n) as [n2 [[]|e|]] eqn:Hrun; try discriminate;
    assert (Hpre : issues (fun x : Net W => x) (fun _ => True) m)
  end.
  { pose proof (createDirectory_issues (fun _ => True) this (getParentPath p) I).
    log_step. }
  intros H. injection H as <-.
  apply bind_ok in Hrun. destruct Hrun as (n1 & a & Hm & Hput).
  specialize (Hpre n). rewrite Hm in Hpre. destruct Hpre as (l & Hl & _).
  exists l. unfold invoke in Hput.
  destruct (dav_putFileContents _ _ _ _ _) as [w' r]. injection Hput as <- _.
  cbn [calls fst] in *. rewrite Hl. symmetry. apply app_assoc.
Qed.

(** [saveFile] on a tracked document, by the outcome of the put and of
    the write of the cache file that follows it. *)
Lemma saveFile_eq (uri : Uri) (text : string) (s : State W) (vf : VirtualFile)
    (client : MyWebDAVClient) :
  virtualFiles s !! Uri_toString uri = Some vf ->
  webdavClient s = Some client ->
  saveFile uri text s =
  let (n', r) := createFile client (webdavPath vf) (StringContent text) true (net s) in
  match r with
  | Ok _ =>
      writeCache uri text
        (setVirtualFiles
           (<[Uri_toString uri := {| webdavPath := webdavPath vf;
                                     fileName := fileName vf;
                                     content := encode text;
                                     FileSystemProvider.mtime := Date_now (world n');
                                     FileSystemProvider.ctime := FileSystemProvider.ctime vf;
                                     FileSystemProvider.size := Z.of_nat (utf16Length text);
                                     isDirty := false |}]> (virtualFiles s))
           (setNet n' s))
  | Throw e => (setNet n' s, Throw e)
  | OutOfFuel => (setNet n' s, OutOfFuel)
  end.
Proof.
  intros Hvf Hwc. unfold saveFile, bind at 1, gets. cbv beta iota.
  unfold bind at 1. cbv beta iota. rewrite Hvf, Hwc.
  unfold tryCatch, bind at 1, remote, zoom.
  destruct (createFile _ _ _ _ _) as [n' [[]|e|]]; try reflexivity.
  cbv beta iota. unfold bind, now, gets, modify. cbv beta iota.
  destruct (writeCache uri text _) as [s2 [[]|e|]]; reflexivity.
Qed.

(** X20.  [saveFile] marks a document clean only after its content has
    been put on the server.  When it returns, the last call was the put
    of the text to the document's path, and the document holds the text,
    clean.  When it throws, either the documents and the disk are what
    they were (the put did not go through, or there was nothing to
    save), or the put has gone through and the document holds the text,
    clean: it was the write of the cache file that failed, after the
    document had been saved. *)
Theorem saveFile_clean_only_when_written (uri : Uri) (text : string)
    (s s' : State W) (r : Result unit) :
  saveFile uri text s = (s', r) ->
  let written :=
    exists vf l,
      getVirtualFile s uri = Some vf
      /\ calls (net s') =
           (calls (net s) ++ l ++ [PutFileContents (webdavPath vf) (StringContent text) true])%list
      /\ (content <$> getVirtualFile s' uri) = Some (encode text)
      /\ (isDirty <$> getVirtualFile s' uri) = Some false in
  match r with
  | Ok _ => written
  | Throw _ =>
      (virtualFiles s' = virtualFiles s /\ disk s' = disk s)
      \/ (written
          /\ snd (fs_writeFileSync (getCachePath s uri) text (disk s)) <> None)
  | OutOfFuel => False
  end.
Proof.
  cbv zeta.
  destruct (virtualFiles s !! Uri_toString uri) as [vf|] eqn:Hvf;
    [destruct (webdavClient s) as [client|] eqn:Hwc|].
  - rewrite (saveFile_eq uri text s vf client Hvf Hwc).
    pose proof (createFile_returns client (webdavPath vf) (StringContent text) true (net s))
      as Hret.
    destruct (createFile _ _ _ _ _) as [n' [[]|e|]] eqn:Hcreate.
    + apply createFile_ok_puts in Hcreate. destruct Hcreate as (l & Hl).
      unfold writeCache.
      change (getCachePath (setVirtualFiles ?m (setNet ?n s)) uri) with (getCachePath s uri).
      change (disk (setVirtualFiles ?m (setNet ?n s))) with (disk s).
      assert (Hwritten : forall d : LocalDisk,
                exists vf0 l0,
                  getVirtualFile s uri = Some vf0
                  /\ calls n' =
                       (calls (net s) ++ l0
                        ++ [PutFileContents (webdavPath vf0) (StringContent text) true])%list
                  /\ (content <$> <[Uri_toString uri :=
                                      {| webdavPath := webdavPath vf;
                                         fileName := fileName vf;
                                         content := encode text;
                                         FileSystemProvider.mtime := Date_now (world n');
                                         FileSystemProvider.ctime := FileSystemProvider.ctime vf;
                                         FileSystemProvider.size := Z.of_nat (utf16Length text);
                                         isDirty := false |}]> (virtualFiles s)
                                   !! Uri_toString uri) = Some (encode text)
                  /\ (isDirty <$> <[Uri_toString uri :=
                                      {| webdavPath := webdavPath vf;
                                         fileName := fileName vf;
                                         content := encode text;
                                         FileSystemProvider.mtime := Date_now (world n');
                                         FileSystemProvider.ctime := FileSystemProvider.ctime vf;
                                         FileSystemProvider.size := Z.of_nat (utf16Length text);
                                         isDirty := false |}]> (virtualFiles s)
                                   !! Uri_toString uri) = Some false).
      { intros _. exists vf, l. unfold getVirtualFile. split; [exact Hvf|].
        split; [exact Hl|]. rewrite lookup_insert_eq. split; reflexivity. }
      destruct (fs_writeFileSync (getCachePath s uri) text (disk s)) as [d [e|]] eqn:Hdisk;
        intros H; injection H as <- <-.
      * right. split; [exact (Hwritten d)|]. cbn [snd]. discriminate.
      * exact (Hwritten d).
    + intros H. injection H as <- <-. left. split; reflexivity.
    + intros H. injection H as <- <-. apply Hret. reflexivity.
  - unfold saveFile, bind at 1, gets. cbv beta iota. unfold bind at 1. cbv beta iota.
    rewrite Hvf, Hwc. intros H. injection H as <- <-. left. split; reflexivity.
  - unfold saveFile, bind at 1, gets. cbv beta iota. unfold bind at 1. cbv beta iota.
    rewrite Hvf. intros H. injection H as <- <-. left. split; reflexivity.
Qed.

(** One round of [saveAll]: a clean document is passed by; a dirty one
    is counted once, and marked clean exactly when it counts as saved. *)
Lemma saveOne_spec (client : MyWebDAVClient) (key : string) (file : VirtualFile)
    (count : SaveCount) (s : State W) :
  exists s' count',
    saveOne client key file count s = (s', Ok count')
    /\ webdavClient s' = webdavClient s
    /\ (if isDirty file
        then (count' = {| success := S (success count); fail := fail count |}
              /\ exists t,
                   virtualFiles s' =
                   <[key := {| webdavPath := webdavPath file;
                               fileName := fileName file;
                               content := content file;
                               FileSystemProvider.mtime := t;
                               FileSystemProvider.ctime := FileSystemProvider.ctime file;
                               FileSystemProvider.size := FileSystemProvider.size file;
                               isDirty := false |}]> (virtualFiles s))
             \/ (count' = {| success := success count; fail := S (fail count) |}
                 /\ virtualFiles s' = virtualFiles s)
        else count' = count /\ s' = s).
Proof.
  unfold saveOne. destruct (isDirty file).
  - unfold tryCatch, bind at 1, remote, zoom.
    pose proof (createFile_returns client (webdavPath file)
                  (StringContent (decode (content file))) true (net s)) as Hret.
    destruct (createFile _ _ _ _ _) as [n' [[]|e|]].
    + eexists _, _. split; [reflexivity|]. split; [reflexivity|].
      left. split; [reflexivity|]. eexists. reflexivity.
    + eexists _, _. split; [reflexivity|]. split; [reflexivity|].
      right. split; reflexivity.
    + exfalso. apply Hret. reflexivity.
  - eexists _, _. split; [reflexivity|]. repeat split.
Qed.

(** The loop of [saveAll] over documents with distinct keys, each as
    the overlay holds it. *)
Lemma saveEach_spec (client : MyWebDAVClient) (files : list (string * VirtualFile)) :
  forall (count : SaveCount) (s : State W),
    List.NoDup (List.map fst files) ->
    (forall k f, List.In (k, f) files -> virtualFiles s !! k = Some f) ->
    exists s' count',
      saveEach client files count s = (s', Ok count')
      /\ success count' + fail count'
         = success count + fail count
           + List.length (List.filter isDirty (List.map snd files))
      /\ fail count <= fail count'
      /\ (forall k,
            virtualFiles s' !! k = virtualFiles s !! k
            \/ exists f vf, List.In (k, f) files /\ isDirty f = true
                            /\ virtualFiles s' !! k = Some vf
                            /\ isDirty vf = false /\ content vf = content f
                            /\ webdavPath vf = webdavPath f)
      /\ (fail count' = fail count ->
          forall k f, List.In (k, f) files -> isDirty f = true ->
            exists vf, virtualFiles s' !! k = Some vf /\ isDirty vf = false).
Proof.
  induction files as [|[key file] rest IH]; intros count s Hnodup Hheld.
  - exists s, count. split; [reflexivity|]. cbn [List.map List.filter List.length].
    split; [lia|]. split; [lia|]. split; [left; reflexivity|].
    intros _ k f [].
  - cbn [List.map fst] in Hnodup. apply List.NoDup_cons_iff in Hnodup.
    destruct Hnodup as [Hfresh Hnodup].
    destruct (saveOne_spec client key file count s) as (s1 & count1 & Hone & _ & Hcase).
    assert (Hother : forall k, k <> key -> virtualFiles s1 !! k = virtualFiles s !! k).
    { intros k Hk. destruct (isDirty file).
      - destruct Hcase as [[_ [t ->]]|[_ ->]]; [apply lookup_insert_ne; congruence|reflexivity].
      - destruct Hcase as [_ ->]. reflexivity. }
    assert (Hrest : forall k f, List.In (k, f) rest -> k <> key).
    { intros k f Hin ->. apply Hfresh. apply List.in_map_iff. exists (key, f). split; auto. }
    destruct (IH count1 s1 Hnodup) as (s' & count' & Hrun & Hsum & Hfail & Hmap & Hclean).
    { intros k f Hin. rewrite Hother; [|eapply Hrest; exact Hin].
      apply Hheld. right. exact Hin. }
    exists s', count'. split.
    { cbn [saveEach]. unfold bind. rewrite Hone. exact Hrun. }
    cbn [List.map snd List.filter].
    destruct (isDirty file) eqn:Hdirty.
    + destruct Hcase as [[-> [t Hs1]]|[-> Hs1]]; cbn [success fail List.length] in *.
      * split; [lia|]. split; [lia|]. split.
        { intros k. destruct (Hmap k) as [Hsame|(f & vf & Hin & Hrestk)].
          - destruct (String.eqb_spec k key) as [->|Hk].
            + right. exists file. eexists. split; [left; reflexivity|].
              split; [exact Hdirty|]. rewrite Hsame, Hs1, lookup_insert_eq.
              repeat split.
            + left. rewrite Hsame. apply Hother. exact Hk.
          - right. exists f, vf. split; [right; exact Hin|exact Hrestk]. }
        { intros Hnone k f [Heq|Hin] Hd.
          - injection Heq as <- <-.
            destruct (Hmap key) as [Hsame|(f & vf & Hin & _ & Hvf & Hc & _)].
            + eexists. rewrite Hsame, Hs1, lookup_insert_eq. split; reflexivity.
            + exists vf. split; assumption.
          - apply (Hclean Hnone k f Hin Hd). }
      * split; [lia|]. split; [lia|]. split.
        { intros k. destruct (Hmap k) as [Hsame|(f & vf & Hin & Hrestk)].
          - left. rewrite Hsame, Hs1. reflexivity.
          - right. exists f, vf. split; [right; exact Hin|exact Hrestk]. }
        { intros Hnone. lia. }
    + destruct Hcase as [-> ->]. split; [lia|]. split; [lia|]. split.
      { intros k. destruct (Hmap k) as [Hsame|(f & vf & Hin & Hrestk)].
        - left. exact Hsame.
        - right. exists f, vf. split; [right; exact Hin|exact Hrestk]. }
      { intros Hnone k f [Heq|Hin] Hd.
        - injection Heq as <- <-. congruence.
        - apply (Hclean Hnone k f Hin Hd). }
Qed.

(** X21.  [saveAll] without a client throws and changes nothing.  With
    one it returns counts that add up to the number of dirty documents.
    It changes no content and makes no document dirty: a document either
    is as it was or was dirty and is now clean with the same content.
    When nothing failed, no document is dirty afterwards. *)
Theorem saveAll_counts_dirty_documents (s : State W) :
  match webdavClient s with
  | None => saveAll s = (s, Throw (newError "WebDAV客户端未初始化"))
  | Some _ =>
      exists s' count,
        saveAll s = (s', Ok count)
        /\ success count + fail count = dirtyCount s
        /\ (forall uri,
              getVirtualFile s' uri = getVirtualFile s uri
              \/ exists vf vf', getVirtualFile s uri = Some vf /\ isDirty vf = true
                                /\ getVirtualFile s' uri = Some vf'
                                /\ isDirty vf' = false /\ content vf' = content vf)
        /\ (fail count = 0 -> dirtyCount s' = 0)
  end.
Proof.
  destruct (webdavClient s) as [client|] eqn:Hwc.
  2:{ unfold saveAll, bind, gets. rewrite Hwc. reflexivity. }
  assert (Hheld : forall k f, List.In (k, f) (map_to_list (virtualFiles s)) ->
                              virtualFiles s !! k = Some f).
  { intros k f Hin. apply elem_of_map_to_list, list_elem_of_In. exact Hin. }
  assert (Hnodup : List.NoDup (List.map fst (map_to_list (virtualFiles s)))).
  { apply NoDup_ListNoDup. apply (NoDup_fst_map_to_list (virtualFiles s)). }
  destruct (saveEach_spec client (map_to_list (virtualFiles s))
              {| success := 0; fail := 0 |} s Hnodup Hheld)
    as (s' & count & Hrun & Hsum & _ & Hmap & Hclean).
  exists s', count. split.
  { unfold saveAll, bind at 1, gets. rewrite Hwc. unfold bind at 1. cbv beta iota.
    destruct (map_to_list (virtualFiles s)) as [|entry rest] eqn:Hlist.
    - cbn [List.length Nat.eqb]. cbn [saveEach] in Hrun. exact Hrun.
    - cbn [List.length Nat.eqb]. exact Hrun. }
  split; [cbn [success fail] in Hsum; exact Hsum|]. split.
  - intros uri. unfold getVirtualFile.
    destruct (Hmap (Uri_toString uri)) as [Hsame|(f & vf & Hin & Hd & Hvf & Hc & Hcontent & _)].
    + left. exact Hsame.
    + right. exists f, vf. split; [apply Hheld; exact Hin|]. repeat split; assumption.
  - intros Hnone. unfold dirtyCount, getOpenFiles.
    assert (Hall : List.Forall (fun f => isDirty f = false)
                     (List.map snd (map_to_list (virtualFiles s')))).
    { apply List.Forall_forall. intros vf' Hin. apply List.in_map_iff in Hin.
      destruct Hin as ([k f'] & <- & Hin). cbn [snd].
      apply list_elem_of_In, elem_of_map_to_list in Hin.
      destruct (Hmap k) as [Hsame|(f & vf & _ & _ & Hvf & Hc & _)].
      - destruct (isDirty f') eqn:Hd; [|reflexivity].
        rewrite Hsame in Hin.
        destruct (Hclean Hnone k f') as (vf & Hvf & Hc);
          [apply list_elem_of_In, elem_of_map_to_list; exact Hin|exact Hd|].
        rewrite Hsame, Hin in Hvf. injection Hvf as <-. congruence.
      - rewrite Hin in Hvf. injection Hvf as <-. exact Hc. }
    change (snd <$> map_to_list (virtualFiles s'))
      with (List.map snd (map_to_list (virtualFiles s'))).
    induction Hall as [|f l Hf _ IHl]; [reflexivity|].
    cbn [List.filter]. rewrite Hf. exact IHl.
Qed.

(** The loop of [closeAll] writes cache files and nothing else. *)
Lemma cacheEach_keeps (files : list (string * VirtualFile)) :
  forall s : State W,
    exists s', forEach files (fun entry => cacheOne (fst entry) (snd entry)) s = (s', Ok tt)
               /\ net s' = net s /\ webdavClient s' = webdavClient s
               /\ virtualFiles s' = virtualFiles s.
Proof.
  induction files as [|[key file] rest IH]; intros s.
  - exists s. repeat split.
  - cbn [forEach]. unfold bind, cacheOne at 1. cbn [fst snd].
    destruct (writeCache_caught (Uri_parse key) (decode (content file)) s)
      as (s1 & Hrun & Hn1 & Hw1 & Hv1 & _).
    rewrite Hrun.
    destruct (IH s1) as (s' & Hrest & Hnet & Hwc & Hvf).
    exists s'. split; [exact Hrest|]. split; [congruence|]. split; congruence.
Qed.

(** X22.  [closeAll] never saves.  It always returns, issues no call
    (the net is what it was, dirty documents or not), and afterwards no
    document is tracked: unsaved edits survive in cache files only. *)
Theorem closeAll_never_saves (s : State W) :
  exists s', closeAll s = (s', Ok tt)
             /\ net s' = net s
             /\ getOpenFiles s' = []
             /\ forall uri, getVirtualFile s' uri = None.
Proof.
  unfold closeAll, bind at 1, gets. cbv beta iota.
  destruct (cacheEach_keeps (map_to_list (virtualFiles s)) s) as (s1 & Hrun & Hnet & _).
  unfold bind, modify. rewrite Hrun. eexists. split; [reflexivity|].
  split; [exact Hnet|]. split.
  - unfold getOpenFiles. cbn [virtualFiles setVirtualFiles].
    rewrite map_to_list_empty. reflexivity.
  - intros uri. unfold getVirtualFile. cbn [virtualFiles setVirtualFiles].
    apply lookup_empty.
Qed.

End Facts.
End OverlayReadFacts.

(* ===================================================================== *)
(** * The names of the cache files *)
(* ===================================================================== *)

Module CacheNameFacts.
Import Js Dav Promise WebdavClient FileSystemProvider StringFacts Texts.
Local Open Scope Z_scope.

(** [ToInt32] moves its argument by a multiple of [2^32]. *)
Lemma toInt32_shift (z : Z) : exists k, toInt32 z = z + k * 2 ^ 32.
Proof.
  unfold toInt32. cbv zeta.
  pose proof (Z.div_mod z (2 ^ 32) ltac:(lia)) as Hdm.
  destruct (z mod 2 ^ 32 >=? 2 ^ 31).
  - exists (- (z / 2 ^ 32) - 1). lia.
  - exists (- (z / 2 ^ 32)). lia.
Qed.

Lemma toInt32_congr (a b : Z) : a mod 2 ^ 32 = b mod 2 ^ 32 -> toInt32 a = toInt32 b.
Proof. intros H. unfold toInt32. rewrite H. reflexivity. Qed.

(** One round of the loop is [31 * hash + char], wrapped. *)
Lemma round_eq (hash char : Z) :
  toInt32 (toInt32 (hash * 32) - hash + char) = toInt32 (31 * hash + char).
Proof.
  apply toInt32_congr. destruct (toInt32_shift (hash * 32)) as [k ->].
  replace (hash * 32 + k * 2 ^ 32 - hash + char) with (31 * hash + char + k * 2 ^ 32) by ring.
  apply Z_mod_plus_full.
Qed.

Lemma hashLoop_app (a b : list Z) (hash : Z) :
  hashLoop (a ++ b) hash = hashLoop b (hashLoop a hash).
Proof.
  revert hash. induction a as [|c a IH]; intros hash; [reflexivity|].
  cbn [hashLoop app]. apply IH.
Qed.

(** The code units of an ASCII text are its bytes. *)
Lemma codeUnits_ascii (s : string) : isAscii s = true -> codeUnits s = bytesOf s.
Proof.
  unfold codeUnits, bytesOf, isAscii.
  induction s as [|c s IH]; [reflexivity|].
  cbn [list_ascii_of_string forallb List.map codeUnitsFrom]. intros H.
  apply andb_prop in H as [Hc Hs]. apply Nat.ltb_lt in Hc.
  destruct (Z.ltb_spec (Z.of_nat (nat_of_ascii c)) 128) as [_|Hge]; [|lia].
  rewrite (IH Hs). reflexivity.
Qed.

Lemma bytesOf_append (a b : string) : bytesOf (a +:+ b) = (bytesOf a ++ bytesOf b)%list.
Proof.
  unfold bytesOf. induction a as [|c a IH]; unfold_append; [reflexivity|].
  cbn [list_ascii_of_string List.map app]. rewrite IH. reflexivity.
Qed.

Lemma isAscii_append (a b : string) : isAscii (a +:+ b) = isAscii a && isAscii b.
Proof.
  unfold isAscii. induction a as [|c a IH]; unfold_append; [reflexivity|].
  cbn [list_ascii_of_string forallb]. rewrite IH. apply andb_assoc.
Qed.

(** The two names weigh the same in the hash, whatever comes before. *)
Lemma two_rounds (hash : Z) : hashLoop (bytesOf "a~") hash = hashLoop (bytesOf "b_") hash.
Proof.
  cbn [bytesOf list_ascii_of_string List.map hashLoop]. cbv zeta. rewrite !round_eq.
  change (Z.of_nat (nat_of_ascii "a")) with 97.
  change (Z.of_nat (nat_of_ascii "~")) with 126.
  change (Z.of_nat (nat_of_ascii "b")) with 98.
  change (Z.of_nat (nat_of_ascii "_")) with 95.
  apply toInt32_congr.
  destruct (toInt32_shift (31 * hash + 97)) as [k1 ->].
  destruct (toInt32_shift (31 * hash + 98)) as [k2 ->].
  replace (31 * (31 * hash + 97 + k1 * 2 ^ 32) + 126)
    with (961 * hash + 3133 + (31 * k1) * 2 ^ 32) by ring.
  replace (31 * (31 * hash + 98 + k2 * 2 ^ 32) + 95)
    with (961 * hash + 3133 + (31 * k2) * 2 ^ 32) by ring.
  rewrite !Z_mod_plus_full. reflexivity.
Qed.

Lemma concat_cons (sep p q : string) (rest : list string) :
  String.concat sep (p :: q :: rest) = p +:+ sep +:+ String.concat sep (q :: rest).
Proof. reflexivity. Qed.

Lemma isAscii_concat (sep : string) (parts : list string) :
  isAscii sep = true -> Forall (fun p => isAscii p = true) parts ->
  isAscii (String.concat sep parts) = true.
Proof.
  intros Hsep Hparts. induction Hparts as [|p rest Hp Hrest IH]; [reflexivity|].
  destruct rest as [|q rest]; [exact Hp|].
  rewrite concat_cons, !isAscii_append, Hp, Hsep, IH. reflexivity.
Qed.

Lemma hashLoop_concat (parts : list string) (hash : Z) :
  hashLoop (bytesOf (String.concat "a~" parts)) hash
  = hashLoop (bytesOf (String.concat "b_" parts)) hash.
Proof.
  revert hash. induction parts as [|p rest IH]; intros hash; [reflexivity|].
  destruct rest as [|q rest]; [reflexivity|].
  rewrite !concat_cons, !bytesOf_append, !hashLoop_app, two_rounds. apply IH.
Qed.

Section Facts.
Context {W : Type} {E : Environment W}.

(** X23.  The cache file of a document is named by a 32-bit hash of its
    URI, and that hash is not injective.  Two URIs whose ASCII texts
    differ only in having [a~] where the other has [b_], in any number
    of places, are keys of different documents and get the same cache
    file. *)
Theorem getCachePath_collides (s : State W) (uri1 uri2 : Uri) (parts : list string) :
  Forall (fun part => isAscii part = true) parts ->
  (2 <= List.length parts)%nat ->
  Uri_toString uri1 = String.concat "a~" parts ->
  Uri_toString uri2 = String.concat "b_" parts ->
  Uri_toString uri1 <> Uri_toString uri2
  /\ getCachePath s uri1 = getCachePath s uri2.
Proof.
  intros Hascii Hlen H1 H2. split.
  - rewrite H1, H2. destruct parts as [|p [|q rest]]; cbn [List.length] in Hlen; try lia.
    rewrite !concat_cons. intros Heq.
    assert (Hcancel : forall a b c : string, a +:+ b = a +:+ c -> b = c).
    { intros a b c. induction a as [|x a IH]; unfold_append; [auto|].
      intros H. injection H as H. auto. }
    apply Hcancel in Heq. unfold_append. discriminate.
  - unfold getCachePath, hashString. cbv zeta. rewrite H1, H2.
    rewrite !codeUnits_ascii by (apply isAscii_concat; [reflexivity | exact Hascii]).
    rewrite hashLoop_concat. reflexivity.
Qed.

End Facts.
End CacheNameFacts.

(* ===================================================================== *)
(** * Normalising a path twice *)
(* ===================================================================== *)

Module NormaliseFacts.
Import Js PathUtils NormalForm StringFacts PathFacts.

(** X24.  For an input that holds more than separators,
    [normalizeWebDAVPath] does not look at the base path: the result is
    a slash and the normal form of the input (no backslash, no doubled
    slash, no slash at either end), and normalising the result again
    gives it back. *)
Theorem normalizeWebDAVPath_idempotent (inputPath basePath : string) :
  replaceChain inputPath <> EmptyString ->
  normalizeWebDAVPath inputPath basePath = "/" +:+ replaceChain inputPath
  /\ normal (replaceChain inputPath) = true
  /\ forall otherBase,
       normalizeWebDAVPath (normalizeWebDAVPath inputPath basePath) otherBase
       = normalizeWebDAVPath inputPath basePath.
Proof.
  intros Hn.
  assert (Hfirst : forall base, normalizeWebDAVPath inputPath base = "/" +:+ replaceChain inputPath).
  { intros base. unfold normalizeWebDAVPath.
    destruct inputPath as [|c r]; [exfalso; apply Hn; reflexivity|].
    cbn [truthy String.eqb negb].
    destruct (String.eqb (replaceChain (String c r)) EmptyString) eqn:He;
      [apply String.eqb_eq in He; contradiction|reflexivity]. }
  split; [apply Hfirst|]. split; [apply normal_replaceChain|].
  intros otherBase. rewrite Hfirst.
  unfold normalizeWebDAVPath. unfold_append. cbn [truthy String.eqb negb].
  change (String "/" (replaceChain inputPath)) with ("/" +:+ replaceChain inputPath).
  rewrite (replaceChain_slash_normal _ (normal_replaceChain inputPath) Hn).
  destruct (String.eqb (replaceChain inputPath) EmptyString) eqn:He;
    [apply String.eqb_eq in He; contradiction|reflexivity].
Qed.

End NormaliseFacts.

(* ===================================================================== *)
(** * Paste from the toolbar *)
(* ===================================================================== *)

Module PasteToRootFacts.
Import Js Dav Promise WebdavClient TreeDataProvider PasteStates ClipboardFacts.

Section Facts.
Context {W : Type} {E : Environment W}.

(** X25.  The toolbar's paste is the paste with no row selected: in
    every state [pasteToRoot] does what [pasteItem] does without a
    target, and so puts the entry right below the current base path. *)
Theorem pasteToRoot_is_paste_without_target (fuel : nat) (s : State W) :
  pasteToRoot fuel s = pasteItem fuel None s.
Proof.
  rewrite (pasteItem_unfold fuel None s).
  unfold pasteToRoot, bind at 1, gets. cbv beta iota. unfold bind at 1. cbv beta iota.
  destruct (isConnected s) eqn:Hc; [|reflexivity].
  destruct (webdavClient s) as [client|] eqn:Hwc; [|reflexivity].
  unfold bind at 1. cbv beta iota.
  destruct (clipboard s) as [clip|] eqn:Hclip; [|reflexivity].
  unfold bind at 1. cbv beta iota.
  rewrite pasteItem_unfold, Hc, Hwc, Hclip. reflexivity.
Qed.

End Facts.
End PasteToRootFacts.

(* ===================================================================== *)
(** * The theorems at work in the reference environment *)
(* ===================================================================== *)

Module TreeExamples.
Import Js Dav Promise WebdavClient TreeDataProvider TreeCommands PasteStates.
Import CallLog Needles CommandCalls Store Scenario MoreScenario.

(** The base path [/nowhere] does not exist on the server. *)
Lemma refresh_missing_base_path_witness :
  treeItems (fst (refresh (idle notesTree "/nowhere")))
  = [specialItem "error" "获取文件列表失败，点击刷新重试" "/" "/" true "refresh"]
  /\ notices (fst (refresh (idle notesTree "/nowhere")))
     = (notices (idle notesTree "/nowhere")
        ++ [ErrorMessage ("获取文件列表失败: 路径不存在: "
                          +:+ currentBasePath (idle notesTree "/nowhere"))])%list
  /\ isConnected (fst (refresh (idle notesTree "/nowhere"))) = true.
Proof.
  apply (ListingFailureFacts.refresh_missing_base_path (idle notesTree "/nowhere")
           session link (tick (worldAt notesTree 1000 5) notesTree) notFound);
    vm_compute; reflexivity.
Defined.

(** [/todo.md] below the base path [/notes]. *)
Lemma getRelativePath_getFullPath_witness :
  getRelativePath (idle notesTree "/notes")
    (getFullPath (idle notesTree "/notes") "/todo.md") = "/todo.md".
Proof.
  apply (TreePathFacts.getRelativePath_getFullPath (idle notesTree "/notes") "/todo.md");
    reflexivity.
Defined.

(** The dialog is answered with a button that is not the delete button. *)
Lemma deleteItem_needs_confirmation_witness :
  snd (deleteItem 5 todo (idle notesTree "/notes")) = Ok tt
  /\ calls (net (fst (deleteItem 5 todo (idle notesTree "/notes"))))
     = calls (net (idle notesTree "/notes"))
  /\ treeItems (fst (deleteItem 5 todo (idle notesTree "/notes")))
     = treeItems (idle notesTree "/notes")
  /\ clipboard (fst (deleteItem 5 todo (idle notesTree "/notes")))
     = clipboard (idle notesTree "/notes").
Proof.
  apply (DeleteFacts.deleteItem_needs_confirmation 5 todo (idle notesTree "/notes")).
  left. vm_compute. discriminate.
Defined.

(** [todo.md] is to be renamed to [archive], which exists. *)
Lemma renameItem_refuses_existing_target_witness :
  renameItem 5 todo (Some "archive") (idle notesTree "/notes")
  = (notify (ErrorMessage ("重命名失败: 目标路径 " +:+ dq +:+ "archive" +:+ dq +:+ " 已存在"))
       (afterCall (Stat (renamedPath todo "archive"))
          (tick (worldAt notesTree 1000 5) notesTree) (idle notesTree "/notes")),
     Ok tt).
Proof.
  apply (RenameFacts.renameItem_refuses_existing_target 5 todo "archive"
           (idle notesTree "/notes") session link
           (tick (worldAt notesTree 1000 5) notesTree)
           (entryOf "/notes/archive" DirNode));
    vm_compute; try reflexivity; discriminate.
Defined.

(** [index.md] is to be renamed to [404.md], which exists. *)
Lemma renameItem_moves_onto_existing_target_witness :
  exists rest,
    calls (net (fst (renameItem 5 index (Some "404.md") (idle siteTree "/site"))))
    = (calls (net (idle siteTree "/site"))
       ++ Stat (renamedPath index "404.md")
          :: GetFileContents (path index) text :: rest)%list.
Proof.
  apply (RenameFacts.renameItem_moves_onto_existing_target 5 index "404.md"
           (idle siteTree "/site") session link
           (tick (worldAt siteTree 1000 5) siteTree)
           (entryOf "/site/404.md" (FileNode "lost")));
    vm_compute; try reflexivity; discriminate.
Defined.

(** A folder [new] is created below [/notes]. *)
Lemma createFolder_check_never_vetoes_witness :
  exists fullPath stats rest,
    calls (net (fst (createFolder (ParentPath "/notes") (Some "new")
                       (idle notesTree "/notes"))))
    = (calls (net (idle notesTree "/notes"))
       ++ stats ++ CreateDirectory fullPath true :: rest)%list
    /\ Forall (fun c => exists p, c = Stat p) stats
    /\ (fullPath = childPath (resolveParent (idle notesTree "/notes") (ParentPath "/notes"))
                     "new"
        \/ fullPath = childPath (NodePath.dirname
                                   (resolveParent (idle notesTree "/notes")
                                      (ParentPath "/notes"))) "new").
Proof.
  apply (CreateFacts.createFolder_check_never_vetoes (ParentPath "/notes") "new"
           (idle notesTree "/notes") session link);
    try reflexivity; discriminate.
Defined.

(** The copy of [todo.md] is pasted into [archive]. *)
Lemma copy_paste_deletes_within_destination_witness :
  adds (deletesWithin (newPathOf slowCopy (Some archive) (entry todo copy 0)))
       (net slowCopy) (net (fst (pasteItem 5 (Some archive) slowCopy))).
Proof.
  apply (CopyFacts.copy_paste_deletes_within_destination 5 (Some archive) slowCopy
           (entry todo copy 0)); reflexivity.
Defined.

End TreeExamples.

Module ClientExamples.
Import Js Dav Promise WebdavClient Store Scenario MoreScenario.

(** No server address is given. *)
Lemma connect_rejects_unusable_arguments_witness :
  exists m,
    connect EmptyString "olivia" "secret" "/notes" (quietNet notesTree, session)
    = ((fst (quietNet notesTree, session),
        {| connection := None; connectionPromise := None |}),
       Throw (newError m))
    /\ (m = "服务器地址、用户名或密码不能为空"
        \/ m = "服务器地址必须以 http:// 或 https:// 开头").
Proof.
  apply (ClientFacts.connect_rejects_unusable_arguments EmptyString "olivia" "secret"
           "/notes" (quietNet notesTree, session)).
  - reflexivity.
  - left. reflexivity.
Defined.

(** The listing of [/site], where a hidden draft lies. *)
Lemma getDirectoryContents_entries_witness :
  Forall (fun entry => startsWith (basename entry) "." = false
                       /\ type entry <> EmptyString) siteListing.
Proof.
  apply (ClientFacts.getDirectoryContents_entries session "/site" (quietNet siteTree)
           (fst (getDirectoryContents session "/site" (quietNet siteTree))) siteListing).
  vm_compute. reflexivity.
Defined.

End ClientExamples.

Module OverlayExamples.
Import Js Dav Promise WebdavClient FileSystemProvider FileSystemReads.
Import Store Scenario MoreScenario.

(** The edit of [todo.md] that leads from [opened] to [edited]. *)
Lemma writeFile_then_readFile_witness :
  readFile todoUri edited = (edited, Ok (encode "- buy milk and eggs"))
  /\ (exists info, stat todoUri edited = (edited, Ok info)
                   /\ FileSystemReads.size info
                      = Z.of_nat (List.length (encode "- buy milk and eggs")))
  /\ (isDirty <$> getVirtualFile edited todoUri) = Some true
  /\ net edited = net opened.
Proof.
  apply (OverlayReadFacts.writeFile_then_readFile todoUri (encode "- buy milk and eggs")
           false true opened edited).
  vm_compute. reflexivity.
Defined.

(** The edited document is closed on a disk that does not let go of
    its cache file. *)
Lemma delete_then_gone_witness :
  stat todoUri held = (held, Throw (newError "FileNotFound"))
  /\ getVirtualFile held todoUri = None
  /\ net held = net guarded
  /\ readFile todoUri held
     = (held, if fs_existsSync (getCachePath held todoUri) (disk held) then
                match fs_readFileSync (getCachePath held todoUri) (disk held) with
                | inr cached => Ok (encode cached)
                | inl _ => Throw (newError "FileNotFound")
                end
              else Throw (newError "FileNotFound")).
Proof.
  apply (OverlayReadFacts.delete_then_gone todoUri guarded held).
  vm_compute. reflexivity.
Defined.

(** There the closed document can still be read: the cache file holds
    the edit that was never saved.  On the disk that lets the file be
    removed the document is gone for good. *)
Lemma closed_document_still_read :
  snd (readFile todoUri held) = Ok (encode "- buy milk and eggs")
  /\ snd (readFile todoUri closed) = Throw (newError "FileNotFound").
Proof. vm_compute. split; reflexivity. Qed.

(** The edited document is saved. *)
Lemma saveFile_clean_only_when_written_witness :
  exists vf l,
    getVirtualFile edited todoUri = Some vf
    /\ calls (net saved) =
         (calls (net edited) ++ l
          ++ [PutFileContents (webdavPath vf) (StringContent "- buy milk and eggs") true])%list
    /\ (content <$> getVirtualFile saved todoUri) = Some (encode "- buy milk and eggs")
    /\ (isDirty <$> getVirtualFile saved todoUri) = Some false.
Proof.
  apply (OverlayReadFacts.saveFile_clean_only_when_written todoUri "- buy milk and eggs"
           edited saved (Ok tt)).
  vm_compute. reflexivity.
Defined.

(** On the disk that does not take the cache file, the same save
    throws, and yet the file is on the server and the document clean. *)
Lemma saveFile_throws_after_saving :
  snd (saveFile todoUri "- buy milk and eggs" guarded) = Throw (fsError "EACCES"
        (getCachePath guarded todoUri))
  /\ tree (world (net (fst (saveFile todoUri "- buy milk and eggs" guarded))))
       !! "/notes/todo.md" = Some (FileNode "- buy milk and eggs")
  /\ (isDirty <$> getVirtualFile (fst (saveFile todoUri "- buy milk and eggs" guarded))
                    todoUri) = Some false.
Proof. vm_compute. repeat split; reflexivity. Qed.

(** The documents of the remote files [/notes/a~] and [/notes/b_]. *)
Lemma getCachePath_collides_witness :
  Uri_toString uriA <> Uri_toString uriB
  /\ getCachePath overlay uriA = getCachePath overlay uriB.
Proof.
  apply (CacheNameFacts.getCachePath_collides overlay uriA uriB
           ["webdav-file://%2Fnotes%2F"; "/"; EmptyString]).
  - repeat constructor.
  - cbn. lia.
  - reflexivity.
  - reflexivity.
Defined.

End OverlayExamples.

Module PathExamples.
Import Js PathUtils NormalForm.

(** A path typed with a backslash, a doubled and a trailing slash. *)
Lemma normalizeWebDAVPath_idempotent_witness :
  normalizeWebDAVPath "\notes//todo.md/" "/base"
  = "/" +:+ replaceChain "\notes//todo.md/"
  /\ normal (replaceChain "\notes//todo.md/") = true
  /\ forall otherBase,
       normalizeWebDAVPath (normalizeWebDAVPath "\notes//todo.md/" "/base") otherBase
       = normalizeWebDAVPath "\notes//todo.md/" "/base".
Proof.
  apply (NormaliseFacts.normalizeWebDAVPath_idempotent "\notes//todo.md/" "/base").
  vm_compute. discriminate.
Defined.

End PathExamples.
